(** * Ax-Shell tracker: timer, task registry, reminders and state loading

    A shallow embedding of [modules/tracker.py] (class [Tracker]) and the
    properties of its time-accounting, task, reminder and load code.

    Conventions of the embedding.

    - A naive local [datetime] is the number of microseconds since a
      reference local midnight (an integer, as in CPython); a [timedelta]
      and a value of [total_seconds()] is a number of microseconds.  The
      float arithmetic on seconds is taken exactly.
    - A field holding an ISO-8601 string is an [iso]: either a string that
      [datetime.fromisoformat] parses ([IsoOk]) or one on which it raises
      ([IsoBad]).  [isoformat] followed by [fromisoformat] is the identity.
    - The float fields [units], [done] and [time_hours] are rationals.
    - A handler reads the clock once: every [datetime.now()] of one call
      is the same instant [now], passed as an argument.
    - Widgets and GLib source handles are not part of the state; desktop
      notifications are recorded in the trace [sent].
    - The state file is a typed document: the presence of every key is
      explicit, and a present key carries a value of the type
      [save_state] writes. *)

From Stdlib Require Import ZArith QArith Qround Qminmax List Sorted Ascii String Bool Lia Lqa.
From Equations Require Import Equations.
Import ListNotations.
Open Scope Z_scope.

(** ** Time *)

Definition second : Z := 1000000.
Definition hour : Z := 3600 * second.
Definition day : Z := 86400 * second.

(** [timedelta(seconds=n)], [timedelta(minutes=n)], [timedelta(days=n)]. *)
Definition timedelta_seconds (n : Z) : Z := n * second.
Definition timedelta_minutes (n : Z) : Z := n * (60 * second).
Definition timedelta_days (n : Z) : Z := n * day.

(** [dt.date()], as a day number. *)
Definition date (dt : Z) : Z := dt / day.

(** [datetime.combine(d, datetime.min.time())]: midnight of day [d]. *)
Definition combine_midnight (d : Z) : Z := d * day.

Inductive iso : Type :=
| IsoOk (dt : Z)
| IsoBad.

(** [datetime.fromisoformat(s)]; [None] stands for the raised ValueError. *)
Definition fromisoformat (s : iso) : option Z :=
  match s with
  | IsoOk dt => Some dt
  | IsoBad => None
  end.

Definition isoformat (dt : Z) : iso := IsoOk dt.

(** ** Data *)

Record task : Type := mkTask {
  t_id : Z;
  t_name : string;
  t_units : Q;
  t_done : Q;
  t_created : option iso;
  t_archived : bool;
  t_is_today : bool
}.

Record time_log : Type := mkLog {
  log_task_id : Z;
  log_start : iso;
  log_end : option iso;
  log_duration : Z
}.

Record reminder : Type := mkReminder {
  r_id : Z;
  r_name : string;
  r_time_hours : Q;
  r_created : option iso;
  r_enabled : bool;
  r_snoozed_until : option iso;
  r_sound : bool;
  r_is_relative : bool;
  r_next_fire_at : option iso
}.

(** The dict [active_timer]: [at_task_id] is the key ['task_id'] ([None]
    when absent), [at_start_time] is [.get('start_time')] ([None] when
    absent or falsy), [at_elapsed] is the key ['elapsed'] ([None] when
    absent; read with [.get('elapsed', 0)]). *)
Record active_timer_t : Type := mkTimer {
  at_task_id : option Z;
  at_start_time : option iso;
  at_elapsed : option Z
}.

Inductive notification : Type :=
| TaskComplete (task_name : string)
| GapTrimmed (gap_minutes : Z)
| TimerCleared
| InvalidTime.

Record state : Type := mkState {
  tasks : list task;
  time_logs : list time_log;
  reminders : list reminder;
  active_timer : option active_timer_t;
  is_timer_running : bool;
  next_task_id : Z;
  selected_task_id : option Z;
  last_tick_time : option Z;
  sent : list notification
}.

(** The attributes right after [__init__]'s assignments, before
    [load_state]. *)
Definition initial_state : state :=
  mkState [] [] [] None false 1 None None [].

(** ** TimerEngine: [stop_timer] *)

Definition max_session_sec : Z := 16 * 3600 * second.

(** The [while cur_start.date() < end_dt.date()] loop of [stop_timer]:
    one entry per day boundary crossed.  Returns the log, [cur_start] and
    [remaining] at loop exit. *)
Equations? split_days (tid end_dt cur_start remaining : Z) (logs : list time_log)
  : list time_log * Z * Z
  by wf (Z.to_nat (date end_dt - date cur_start)) lt :=
split_days tid end_dt cur_start remaining logs
  with Z_lt_dec (date cur_start) (date end_dt) := {
  | left _ =>
      let day_end := combine_midnight (date cur_start + 1) in
      let seg_dur := day_end - cur_start in
      split_days tid end_dt day_end (remaining - seg_dur)
        (logs ++ [mkLog tid (isoformat cur_start) (Some (isoformat day_end)) seg_dur]);
  | right _ => (logs, cur_start, remaining) }.
Proof.
  subst day_end. unfold combine_midnight, date in *.
  rewrite Z.div_mul by (unfold day, second; lia). lia.
Qed.

(** The first half of [stop_timer]: [start_dt] and [elapsed] as they
    stand before the clamp. *)
Definition session (tm : active_timer_t) (now : Z) : Z * Z :=
  let elapsed := Z.max 0 (match at_elapsed tm with Some e => e | None => 0 end) in
  let '(start_dt, elapsed) :=
    match at_start_time tm with
    | Some s =>
        match fromisoformat s with
        | Some start_dt => (Some start_dt, elapsed + Z.max 0 (now - start_dt))
        | None => (None, elapsed)
        end
    | None => (None, elapsed)
    end in
  let start_dt :=
    match start_dt with
    | Some d => d
    | None => now - elapsed
    end in
  (start_dt, elapsed).

(** [stop_timer].  The entries are built with [self.active_timer['task_id']]:
    on a timer without that key the first [append] raises KeyError and the
    handler is left with the attributes as they were. *)
Definition stop_timer (st : state) (now : Z) : state :=
  let reset logs :=
    mkState (tasks st) logs (reminders st) None false
            (next_task_id st) (selected_task_id st) (last_tick_time st) (sent st) in
  match active_timer st with
  | Some tm =>
      let '(start_dt, elapsed) := session tm now in
      let end_dt := start_dt + Z.max 0 elapsed in
      let elapsed := Z.min elapsed max_session_sec in
      if timedelta_seconds 1 <? elapsed then
        match at_task_id tm with
        | Some tid =>
            let remaining := Z.max 0 elapsed in
            let '(logs, cur_start, remaining) :=
              split_days tid end_dt start_dt remaining (time_logs st) in
            if 0 <? remaining then
              reset (logs ++ [mkLog tid (isoformat cur_start)
                                (Some (isoformat end_dt)) remaining])
            else reset logs
        | None => st
        end
      else reset (time_logs st)
  | None => reset (time_logs st)
  end.

(** ** TimerEngine: the periodic tick *)

Definition idle_cap : Z := timedelta_seconds 3600.

(** [elapsed] as [tick] and [refresh_timer_display] compute it at [now]. *)
Definition live_elapsed (tm : active_timer_t) (now : Z) : Z :=
  let elapsed := match at_elapsed tm with Some e => e | None => 0 end in
  match at_start_time tm with
  | Some s =>
      match fromisoformat s with
      | Some start => elapsed + (now - start)
      | None => elapsed
      end
  | None => elapsed
  end.

(** One run of [tick] at [now]: the new attributes and the elapsed time
    the label is set from ([None] when [tick] returns [False]). *)
Definition tick (st : state) (now : Z) : state * option Z :=
  match active_timer st with
  | None => (st, None)
  | Some tm =>
      let elapsed := live_elapsed tm now in
      let '(tm', elapsed, notes) :=
        match last_tick_time st with
        | Some last =>
            let gap := now - last in
            if idle_cap <? gap then
              match at_start_time tm with
              | Some _ =>
                  let new_start := now - idle_cap in
                  (mkTimer (at_task_id tm) (Some (isoformat new_start)) (at_elapsed tm),
                   match at_elapsed tm with Some e => e | None => 0 end + idle_cap,
                   [GapTrimmed (gap / (60 * second))])
              | None => (tm, elapsed, [])
              end
            else (tm, elapsed, [])
        | None => (tm, elapsed, [])
        end in
      (mkState (tasks st) (time_logs st) (reminders st) (Some tm')
               (is_timer_running st) (next_task_id st) (selected_task_id st)
               (Some now) (sent st ++ notes),
       Some elapsed)
  end.

(** [start_timer_loop]: arms the periodic source and ticks immediately. *)
Definition start_timer_loop (st : state) (now : Z) : state :=
  let st1 :=
    mkState (tasks st) (time_logs st) (reminders st) (active_timer st)
            (is_timer_running st) (next_task_id st) (selected_task_id st)
            (Some now) (sent st) in
  fst (tick st1 now).

(** [start_timer]; [idx] is [self.timer_combo.get_active()]. *)
Definition start_timer (st : state) (idx : Z) (now : Z) : state :=
  if (idx <? 0) || (Z.of_nat (List.length (tasks st)) <=? idx) then st
  else
    match nth_error (tasks st) (Z.to_nat idx) with
    | None => st
    | Some t =>
        let tm :=
          match active_timer st with
          | Some tm => mkTimer (Some (t_id t)) (Some (isoformat now)) (at_elapsed tm)
          | None => mkTimer (Some (t_id t)) (Some (isoformat now)) (Some 0)
          end in
        start_timer_loop
          (mkState (tasks st) (time_logs st) (reminders st) (Some tm) true
                   (next_task_id st) (Some (t_id t)) (Some now) (sent st))
          now
    end.

(** [update_timer_combo], for its effect on [selected_task_id]: when the
    preferred task is not in the list the first task becomes selected. *)
Definition update_timer_combo (st : state) : state :=
  let preferred_id :=
    match active_timer st with
    | Some tm => at_task_id tm
    | None =>
        match selected_task_id st with
        | Some s => if s =? 0 then None else Some s
        | None => None
        end
    end in
  let found :=
    match preferred_id with
    | Some p => existsb (fun t => t_id t =? p) (tasks st)
    | None => false
    end in
  if found then st
  else
    match tasks st with
    | t :: _ =>
        mkState (tasks st) (time_logs st) (reminders st) (active_timer st)
                (is_timer_running st) (next_task_id st) (Some (t_id t))
                (last_tick_time st) (sent st)
    | [] => st
    end.

(** ** TaskRegistry *)

Definition Qltb (a b : Q) : bool := negb (Qle_bool b a).

(** Python's two-argument [min] and [max]: the first argument unless the
    second is strictly smaller (resp. larger). *)
Definition py_min (a b : Q) : Q := if Qltb b a then b else a.
Definition py_max (a b : Q) : Q := if Qltb a b then b else a.

Definition set_done (t : task) (d : Q) : task :=
  mkTask (t_id t) (t_name t) (t_units t) d (t_created t) (t_archived t) (t_is_today t).

(** [add_task]; [name] is the stripped text of the entry and [units] the
    parsed float, [None] when the text is empty or [float] raises. *)
Definition add_task (st : state) (name : string) (units : option Q) (now : Z) : state :=
  if String.eqb name EmptyString then st
  else
    let units := match units with Some u => u | None => 1%Q end in
    let tid := next_task_id st in
    update_timer_combo
      (mkState (tasks st ++ [mkTask tid name units 0%Q (Some (isoformat now)) false true])
               (time_logs st) (reminders st) (active_timer st) (is_timer_running st)
               (next_task_id st + 1) (selected_task_id st) (last_tick_time st) (sent st)).

(** The [for t in self.tasks] loop of [inc_task]: updates the first task
    with id [tid]; the second component is [task_name] when [completed]. *)
Fixpoint inc_loop (tid : Z) (ts : list task) : list task * option string :=
  match ts with
  | [] => ([], None)
  | t :: rest =>
      if t_id t =? tid then
        let t' := set_done t (py_min (t_done t + 1) (t_units t)) in
        (t' :: rest,
         if Qle_bool (t_units t') (t_done t') then Some (t_name t') else None)
      else
        let '(rest', completed) := inc_loop tid rest in
        (t :: rest', completed)
  end.

Definition inc_task (st : state) (tid : Z) : state :=
  let '(ts, completed) := inc_loop tid (tasks st) in
  let notes :=
    match completed with
    | Some task_name => if String.eqb task_name EmptyString then [] else [TaskComplete task_name]
    | None => []
    end in
  mkState ts (time_logs st) (reminders st) (active_timer st) (is_timer_running st)
          (next_task_id st) (selected_task_id st) (last_tick_time st) (sent st ++ notes).

Fixpoint dec_loop (tid : Z) (ts : list task) : list task :=
  match ts with
  | [] => []
  | t :: rest =>
      if t_id t =? tid then set_done t (py_max (t_done t - 1) 0) :: rest
      else t :: dec_loop tid rest
  end.

Definition dec_task (st : state) (tid : Z) : state :=
  mkState (dec_loop tid (tasks st)) (time_logs st) (reminders st) (active_timer st)
          (is_timer_running st) (next_task_id st) (selected_task_id st)
          (last_tick_time st) (sent st).

Definition timer_on_task (st : state) (tid : Z) : bool :=
  match active_timer st with
  | Some tm => match at_task_id tm with Some t => t =? tid | None => false end
  | None => false
  end.

Definition del_task (st : state) (tid : Z) (now : Z) : state :=
  let st1 :=
    if timer_on_task st tid then
      let s := stop_timer st now in
      mkState (tasks s) (time_logs s) (reminders s) (active_timer s)
              (is_timer_running s) (next_task_id s) None (last_tick_time s) (sent s)
    else st in
  update_timer_combo
    (mkState (filter (fun t => negb (t_id t =? tid)) (tasks st1))
             (time_logs st1) (reminders st1) (active_timer st1) (is_timer_running st1)
             (next_task_id st1) (selected_task_id st1) (last_tick_time st1) (sent st1)).

(** ** ReminderScheduler *)

(** Rounding to the nearest integer, ties to even, as [timedelta] rounds
    a fractional number of microseconds. *)
Definition round_half_even (q : Q) : Z :=
  let f := Qfloor q in
  match Qcompare (q - inject_Z f) (1 # 2) with
  | Lt => f
  | Gt => f + 1
  | Eq => if Z.even f then f else f + 1
  end.

(** [timedelta(hours=h)] for a float [h]. *)
Definition timedelta_hours (h : Q) : Z :=
  round_half_even (h * inject_Z hour).

Definition set_schedule (rem : reminder) (snoozed : option iso) (nfa : option iso)
  : reminder :=
  mkReminder (r_id rem) (r_name rem) (r_time_hours rem) (r_created rem) (r_enabled rem)
             snoozed (r_sound rem) (r_is_relative rem) nfa.

(** [base_target] of [schedule_reminder]. *)
Definition base_target (rem : reminder) (now : Z) : Z :=
  if r_is_relative rem then now + timedelta_hours (r_time_hours rem)
  else
    let b := combine_midnight (date now) + timedelta_hours (r_time_hours rem) in
    if b <=? now then b + timedelta_days 1 else b.

(** [schedule_reminder]: the reminder dict after the call.  The armed
    GLib source is not part of the state. *)
Definition schedule_reminder (rem : reminder) (now : Z) : reminder :=
  if negb (r_enabled rem) then rem
  else
    let snooze_dt :=
      match r_snoozed_until rem with
      | Some s => fromisoformat s
      | None => None
      end in
    let stored_target :=
      match r_next_fire_at rem with
      | Some nfa =>
          match fromisoformat nfa with
          | Some nfa_dt => if now <? nfa_dt then Some nfa_dt else None
          | None => None
          end
      | None => None
      end in
    let otherwise :=
      match stored_target with
      | Some t => (t, r_snoozed_until rem)
      | None => (base_target rem now, None)
      end in
    let '(target, snoozed) :=
      match snooze_dt with
      | Some s => if now <? s then (s, r_snoozed_until rem) else otherwise
      | None => otherwise
      end in
    set_schedule rem snoozed (Some (isoformat target)).

Definition schedule_all_reminders (st : state) (now : Z) : state :=
  mkState (tasks st) (time_logs st)
          (map (fun rem => schedule_reminder rem now) (reminders st))
          (active_timer st) (is_timer_running st) (next_task_id st)
          (selected_task_id st) (last_tick_time st) (sent st).

(** [max([r['id'] for r in self.reminders], default=0)]. *)
Definition max_reminder_id (rs : list reminder) : Z :=
  match rs with
  | [] => 0
  | r :: rest => fold_left Z.max (map r_id rest) (r_id r)
  end.

(** [add_reminder]; [name] is the stripped text of the entry, [hours] is
    [parse_time_input(time_str)] for the non-empty [time_str] and
    [is_relative] the flag computed from [time_str]. *)
Definition add_reminder (st : state) (name : string) (hours : option Q)
    (is_relative : bool) (now : Z) : state :=
  if String.eqb name EmptyString then st
  else
    match hours with
    | None =>
        mkState (tasks st) (time_logs st) (reminders st) (active_timer st)
                (is_timer_running st) (next_task_id st) (selected_task_id st)
                (last_tick_time st) (sent st ++ [InvalidTime])
    | Some hours =>
        let rid := max_reminder_id (reminders st) + 1 in
        let rem :=
          mkReminder rid name hours (Some (isoformat now)) true None false
                     is_relative None in
        mkState (tasks st) (time_logs st)
                (reminders st ++ [schedule_reminder rem now])
                (active_timer st) (is_timer_running st) (next_task_id st)
                (selected_task_id st) (last_tick_time st) (sent st)
    end.

Definition del_reminder (st : state) (rid : Z) : state :=
  mkState (tasks st) (time_logs st)
          (filter (fun r => negb (r_id r =? rid)) (reminders st))
          (active_timer st) (is_timer_running st) (next_task_id st)
          (selected_task_id st) (last_tick_time st) (sent st).

(** ** StateStore: the persisted document *)

(** A record of the document with the presence of each key explicit:
    [None] is an absent key.  A present key carries a value of the type
    [save_state] writes. *)
Record task_doc : Type := mkTaskDoc {
  td_id : option Z;
  td_name : option string;
  td_units : option Q;
  td_done : option Q;
  td_created : option iso;
  td_archived : option bool;
  td_is_today : option bool
}.

Record log_doc : Type := mkLogDoc {
  ld_task_id : option Z;
  ld_start : option iso;
  ld_end : option iso;
  ld_duration : option Z
}.

(** [rd_snoozed_until] and [rd_next_fire_at] are [None] for an absent key
    and for [null]: [setdefault] makes the two alike. *)
Record reminder_doc : Type := mkReminderDoc {
  rd_id : option Z;
  rd_name : option string;
  rd_time_hours : option Q;
  rd_created : option iso;
  rd_enabled : option bool;
  rd_snoozed_until : option iso;
  rd_sound : option bool;
  rd_is_relative : option bool;
  rd_next_fire_at : option iso
}.

(** An element of a collection: a dict or any other JSON value. *)
Inductive item (A : Type) : Type :=
| NotADict
| Dict (d : A).
Arguments NotADict {A}.
Arguments Dict {A} d.

(** The top-level dict.  A collection is [None] when its key is absent or
    its value is not a list; [doc_active_timer] is [None] unless the value
    is a non-empty dict (an empty one is falsy, which is all its readers
    test); [doc_selected_task_id] is [None] unless the value is an int. *)
Record document : Type := mkDocument {
  doc_tasks : option (list (item task_doc));
  doc_time_logs : option (list (item log_doc));
  doc_reminders : option (list (item reminder_doc));
  doc_active_timer : option active_timer_t;
  doc_next_task_id : option Z;
  doc_selected_task_id : option Z
}.

Definition default {A : Type} (o : option A) (d : A) : A :=
  match o with
  | Some a => a
  | None => d
  end.

(** The body of the [for t in data.get('tasks', [])] loop: the task kept
    for an element, if any. *)
Definition load_task (t : item task_doc) : option task :=
  match t with
  | Dict d =>
      match td_id d, td_name d, td_units d, td_done d with
      | Some i, Some n, Some u, Some dn =>
          Some (mkTask i n u dn (td_created d)
                       (default (td_archived d) false) (default (td_is_today d) true))
      | _, _, _, _ => None
      end
  | NotADict => None
  end.

Definition load_log (l : item log_doc) : option time_log :=
  match l with
  | Dict d =>
      match ld_task_id d, ld_start d, ld_duration d with
      | Some i, Some s, Some du => Some (mkLog i s (ld_end d) du)
      | _, _, _ => None
      end
  | NotADict => None
  end.

Definition load_reminder (r : item reminder_doc) : option reminder :=
  match r with
  | Dict d =>
      match rd_id d, rd_name d, rd_time_hours d with
      | Some i, Some n, Some h =>
          Some (mkReminder i n h (rd_created d) (default (rd_enabled d) true)
                           (rd_snoozed_until d) (default (rd_sound d) false)
                           (default (rd_is_relative d) false) (rd_next_fire_at d))
      | _, _, _ => None
      end
  | NotADict => None
  end.

(** The list built by one of the three loops. *)
Fixpoint keep_valid {A B : Type} (load : A -> option B) (l : list A) : list B :=
  match l with
  | [] => []
  | x :: rest =>
      match load x with
      | Some b => b :: keep_valid load rest
      | None => keep_valid load rest
      end
  end.

(** [max(t['id'] for t in self.tasks)] on a non-empty list. *)
Definition max_task_id (t : task) (rest : list task) : Z :=
  fold_left Z.max (map t_id rest) (t_id t).

Definition _apply_loaded_state (st : state) (data : item document) : state :=
  match data with
  | NotADict => st
  | Dict data =>
      let tasks := keep_valid load_task (default (doc_tasks data) []) in
      let time_logs := keep_valid load_log (default (doc_time_logs data) []) in
      let reminders := keep_valid load_reminder (default (doc_reminders data) []) in
      let next := default (doc_next_task_id data) 1 in
      let next :=
        match tasks with
        | t :: rest => Z.max next (max_task_id t rest + 1)
        | [] => next
        end in
      mkState tasks time_logs reminders (doc_active_timer data)
              (is_timer_running st) next (doc_selected_task_id data)
              (last_tick_time st) (sent st)
  end.

(** [load_state] on the content of the state file: [None] when the file
    does not exist, otherwise the parsed JSON value.  The quarantine of a
    file that does not parse leaves the attributes as they are and is not
    modelled. *)
Definition load_state (st : state) (file : option (item document)) : state :=
  match file with
  | None => st
  | Some data => _apply_loaded_state st data
  end.

Definition save_task (t : task) : item task_doc :=
  Dict (mkTaskDoc (Some (t_id t)) (Some (t_name t)) (Some (t_units t)) (Some (t_done t))
                  (t_created t) (Some (t_archived t)) (Some (t_is_today t))).

Definition save_log (l : time_log) : item log_doc :=
  Dict (mkLogDoc (Some (log_task_id l)) (Some (log_start l)) (log_end l)
                 (Some (log_duration l))).

Definition save_reminder (r : reminder) : item reminder_doc :=
  Dict (mkReminderDoc (Some (r_id r)) (Some (r_name r)) (Some (r_time_hours r))
                      (r_created r) (Some (r_enabled r)) (r_snoozed_until r)
                      (Some (r_sound r)) (Some (r_is_relative r)) (r_next_fire_at r)).

(** The value [save_state] dumps to the state file. *)
Definition save_state (st : state) : item document :=
  Dict (mkDocument (Some (map save_task (tasks st)))
                   (Some (map save_log (time_logs st)))
                   (Some (map save_reminder (reminders st)))
                   (active_timer st)
                   (Some (next_task_id st))
                   (selected_task_id st)).

Definition _ensure_active_task_valid (st : state) : state :=
  match active_timer st with
  | Some tm =>
      let missing :=
        match at_task_id tm with
        | None => true
        | Some tid => negb (existsb (fun t => t_id t =? tid) (tasks st))
        end in
      if missing then
        mkState (tasks st) (time_logs st) (reminders st) None false
                (next_task_id st) None (last_tick_time st) (sent st ++ [TimerCleared])
      else st
  | None => st
  end.

(** [__init__]: a fresh tracker started on the content [file] of the
    state file at [now]; the attributes the constructor leaves when
    [setup_ui] returns.  Of [setup_ui] it has [update_timer_combo], the
    one call of it that assigns an attribute; the reads of [setup_ui]
    that raise, and with them the files on which the constructor does not
    return, are in [setup_ui] and [Tracker] below. *)
Definition __init__ (file : option (item document)) (now : Z) : state :=
  let st := load_state initial_state file in
  let st := _ensure_active_task_valid st in
  let st := update_timer_combo st in
  let st := schedule_all_reminders st now in
  match active_timer st with
  | Some tm =>
      match at_start_time tm with
      | Some _ =>
          start_timer_loop
            (mkState (tasks st) (time_logs st) (reminders st) (active_timer st) true
                     (next_task_id st) (selected_task_id st) (last_tick_time st) (sent st))
            now
      | None => st
      end
  | None => st
  end.

(** ** Specification vocabulary *)

(** The sum of the [duration] fields of a list of entries. *)
Definition total_duration (l : list time_log) : Z :=
  fold_right (fun e acc => log_duration e + acc) 0 l.

(** The entries one call of [stop_timer] appends to the log. *)
Definition appended_by_stop (st : state) (now : Z) : list time_log :=
  skipn (List.length (time_logs st)) (time_logs (stop_timer st now)).

(** An entry whose interval [[start, end)] lies in one local calendar
    day: every instant of it has the date of [start]. *)
Definition within_one_day (e : time_log) : Prop :=
  match log_start e, log_end e with
  | IsoOk s, Some (IsoOk en) =>
      s <= en /\ forall t, s <= t < en -> date t = date s
  | _, _ => False
  end.

Definition with_timer (st : state) (tm : active_timer_t) : state :=
  mkState (tasks st) (time_logs st) (reminders st) (Some tm) (is_timer_running st)
          (next_task_id st) (selected_task_id st) (last_tick_time st) (sent st).

(** A tracker with one task and a timer started on it at the reference
    midnight (say 2024-01-01T00:00:00). *)
Definition overnight_timer : state :=
  mkState [mkTask 1 "report" 1 0 (Some (IsoOk 0)) false true] [] []
          (Some (mkTimer (Some 1) (Some (IsoOk 0)) (Some 0)))
          true 2 (Some 1) (Some 0) [].

(** The timer's start timestamp, when it parses, is not later than the
    last tick: what [start_timer] sets up and a tick keeps under a clock
    that does not run backwards. *)
Definition started_before_last_tick (st : state) : Prop :=
  match active_timer st, last_tick_time st with
  | Some tm, Some last =>
      match at_start_time tm with
      | Some (IsoOk s) => s <= last
      | _ => True
      end
  | _, _ => True
  end.

(** The invariant of a task: [0 <= done <= units]. *)
Definition task_in_range (t : task) : Prop :=
  (0 <= t_done t)%Q /\ (t_done t <= t_units t)%Q.

Inductive progress_op : Type :=
| Inc (tid : Z)
| Dec (tid : Z).

Definition apply_progress (st : state) (op : progress_op) : state :=
  match op with
  | Inc tid => inc_task st tid
  | Dec tid => dec_task st tid
  end.

Definition run_progress (st : state) (ops : list progress_op) : state :=
  fold_left apply_progress ops st.

(** The task [inc_task], [dec_task] act on: the first one with the id. *)
Definition find_task (st : state) (tid : Z) : option task :=
  find (fun t => t_id t =? tid) (tasks st).

(** The reading of "completed" as a one-shot event: no notification from
    [inc_task] on a task whose [done] already equals [units]. *)
Definition completed_is_one_shot : Prop :=
  forall (st : state) (tid : Z) (t : task),
    find_task st tid = Some t ->
    (t_done t == t_units t)%Q ->
    sent (inc_task st tid) = sent st.

(** A tracker whose only task has reached its target. *)
Definition finished_task_state : state :=
  mkState [mkTask 1 "report" 2 2 (Some (IsoOk 0)) false true] [] []
          None false 2 (Some 1) None [].

(** The reminders collection of a dumped document. *)
Definition saved_reminders (d : item document) : list (item reminder_doc) :=
  match d with
  | Dict doc => default (doc_reminders doc) []
  | NotADict => []
  end.

(** The commands of a tracker's life.  [Restart] is a restart of the
    program on the state file as the last command left it (every command
    ends in [save_state]). *)
Inductive command : Type :=
| AddTask (name : string) (units : option Q) (now : Z)
| IncTask (tid : Z)
| DecTask (tid : Z)
| DelTask (tid : Z) (now : Z)
| StartTimer (idx : Z) (now : Z)
| StopTimer (now : Z)
| Tick (now : Z)
| AddReminder (name : string) (hours : option Q) (is_relative : bool) (now : Z)
| DelReminder (rid : Z)
| Restart (now : Z).

Definition step (st : state) (c : command) : state :=
  match c with
  | AddTask name units now => add_task st name units now
  | IncTask tid => inc_task st tid
  | DecTask tid => dec_task st tid
  | DelTask tid now => del_task st tid now
  | StartTimer idx now => start_timer st idx now
  | StopTimer now => stop_timer st now
  | Tick now => fst (tick st now)
  | AddReminder name hours is_relative now => add_reminder st name hours is_relative now
  | DelReminder rid => del_reminder st rid
  | Restart now => __init__ (Some (save_state st)) now
  end.

(** The ids of the tasks a command added to the registry. *)
Definition new_task_ids (before after : state) : list Z :=
  map t_id (skipn (List.length (tasks before)) (tasks after)).

(** Runs the commands; returns the final state and the ids [add_task]
    assigned, in order. *)
Fixpoint run (st : state) (cmds : list command) : state * list Z :=
  match cmds with
  | [] => (st, [])
  | c :: rest =>
      let st' := step st c in
      let ids :=
        match c with
        | AddTask _ _ _ => new_task_ids st st'
        | _ => []
        end in
      let '(final, later) := run st' rest in
      (final, ids ++ later)
  end.

(** Every task id is below [next_task_id]. *)
Definition ids_below_next (st : state) : Prop :=
  Forall (fun t => t_id t < next_task_id st) (tasks st).

(** A task record with the four required keys,
    [{'id', 'name', 'units', 'done'} <= set(t.keys())]. *)
Definition has_required_task_fields (d : task_doc) : Prop :=
  td_id d <> None /\ td_name d <> None /\ td_units d <> None /\ td_done d <> None.

(** The id given to the reminder [add_reminder] appended last. *)
Definition last_reminder_id (st : state) : option Z :=
  match rev (reminders st) with
  | r :: _ => Some (r_id r)
  | [] => None
  end.

(** The reading of "the id of the deleted highest reminder comes back":
    whenever [rid] is the highest id present, deleting it and adding a
    reminder gives the new reminder the id [rid]. *)
Definition highest_id_comes_back : Prop :=
  forall (st : state) (rid : Z) (name : string) (hours : Q) (rel : bool) (now : Z),
    name <> EmptyString ->
    In rid (map r_id (reminders st)) ->
    Forall (fun r => r_id r <= rid) (reminders st) ->
    last_reminder_id (add_reminder (del_reminder st rid) name (Some hours) rel now)
    = Some rid.

Definition plain_reminder (rid : Z) : reminder :=
  mkReminder rid "tea" (1 # 4) (Some (IsoOk 0)) true None false true
             (Some (IsoOk (timedelta_minutes 15))).

(** A tracker left with the reminders 1 and 5, after 2, 3 and 4 were
    deleted. *)
Definition gap_reminders_state : state :=
  mkState [] [] [plain_reminder 1; plain_reminder 5] None false 1 None None [].

(** Two task records as a state file can hold them: one with [done]
    above [units], one with a negative [done]. *)
Definition overdone_doc : task_doc :=
  mkTaskDoc (Some 1) (Some "report"%string) (Some 3%Q) (Some 5%Q) None None None.

Definition negative_doc : task_doc :=
  mkTaskDoc (Some 2) (Some "review"%string) (Some 3%Q) (Some (-1)%Q) None None None.

(** The state ten minutes into the run of [overnight_timer], after a
    tick. *)
Definition after_first_tick : state :=
  fst (tick overnight_timer (timedelta_seconds 600)).

(** ** Further handlers *)

(** [pause_timer]; [None] stands for the exception that leaves the handler
    before any attribute is assigned: ValueError from [fromisoformat], or
    KeyError from [self.active_timer['elapsed'] +=] on a timer without the
    key. *)
Definition pause_timer (st : state) (now : Z) : option state :=
  let paused tm :=
    Some (mkState (tasks st) (time_logs st) (reminders st) tm false
                  (next_task_id st) (selected_task_id st) None (sent st)) in
  match active_timer st with
  | Some tm =>
      match at_start_time tm with
      | Some s =>
          match fromisoformat s with
          | Some start =>
              match at_elapsed tm with
              | Some e =>
                  paused (Some (mkTimer (at_task_id tm) None (Some (e + (now - start)))))
              | None => None
              end
          | None => None
          end
      | None => paused (Some tm)
      end
  | None => paused None
  end.

(** [on_play_clicked]; [idx] is the active row of the combo. *)
Definition on_play_clicked (st : state) (idx : Z) (now : Z) : option state :=
  if is_timer_running st then pause_timer st now
  else Some (start_timer st idx now).

(** The [for r in self.reminders: if r['id'] == rid: ...; break] loop of
    [toggle_reminder], [snooze_reminder] and [dismiss_reminder]. *)
Fixpoint update_first (rid : Z) (f : reminder -> reminder) (rs : list reminder)
  : list reminder :=
  match rs with
  | [] => []
  | r :: rest =>
      if r_id r =? rid then f r :: rest
      else r :: update_first rid f rest
  end.

Definition with_reminders (st : state) (rs : list reminder) : state :=
  mkState (tasks st) (time_logs st) rs (active_timer st) (is_timer_running st)
          (next_task_id st) (selected_task_id st) (last_tick_time st) (sent st).

Definition set_enabled (rem : reminder) (b : bool) : reminder :=
  mkReminder (r_id rem) (r_name rem) (r_time_hours rem) (r_created rem) b
             (r_snoozed_until rem) (r_sound rem) (r_is_relative rem)
             (r_next_fire_at rem).

Definition toggle_reminder (st : state) (rid : Z) (now : Z) : state :=
  with_reminders st
    (update_first rid
       (fun r =>
          let r := set_enabled r (negb (r_enabled r)) in
          if r_enabled r then schedule_reminder r now else r)
       (reminders st)).

Definition snooze_reminder (st : state) (rid : Z) (minutes : Z) (now : Z) : state :=
  with_reminders st
    (update_first rid
       (fun r =>
          schedule_reminder
            (set_schedule r (Some (isoformat (now + timedelta_minutes minutes)))
                          (r_next_fire_at r))
            now)
       (reminders st)).

Definition dismiss_reminder (st : state) (rid : Z) (now : Z) : state :=
  with_reminders st
    (update_first rid
       (fun r => schedule_reminder (set_schedule r None (r_next_fire_at r)) now)
       (reminders st)).

(** The closure [fire] of [schedule_reminder], run at [now] on its
    reminder: the reminder afterwards and the notification sent. *)
Definition fire (rem : reminder) (now : Z) : reminder * (string * string) :=
  (schedule_reminder (set_schedule rem None None) now,
   ("Reminder"%string, r_name rem)).

(** [get_next_fire_datetime]. *)
Definition get_next_fire_datetime (rem : reminder) (now : Z) : option Z :=
  if negb (r_enabled rem) then None
  else
    let snooze_dt :=
      match r_snoozed_until rem with
      | Some s => fromisoformat s
      | None => None
      end in
    let fallback :=
      let stored :=
        match r_next_fire_at rem with
        | Some nfa =>
            match fromisoformat nfa with
            | Some nfa_dt => if now <? nfa_dt then Some nfa_dt else None
            | None => None
            end
        | None => None
        end in
      match stored with
      | Some nfa_dt => nfa_dt
      | None =>
          if r_is_relative rem then now + timedelta_hours (r_time_hours rem)
          else
            let target := combine_midnight (date now) + timedelta_hours (r_time_hours rem) in
            if target <=? now then target + timedelta_days 1 else target
      end in
    match snooze_dt with
    | Some s => if now <? s then Some s else Some fallback
    | None => Some fallback
    end.

(** [get_time_left_display]: hours, minutes and seconds of the label
    [f"{hours:02d}:{minutes:02d}:{seconds:02d}"]; [None] is the dash shown
    for no target. *)
Definition get_time_left_display (target_dt : option Z) (now : Z) : option (Z * Z * Z) :=
  match target_dt with
  | None => None
  | Some target =>
      let delta := target - now in
      let total_sec := Z.max 0 (Z.quot delta second) in
      Some (total_sec / 3600, (total_sec mod 3600) / 60, total_sec mod 60)
  end.

(** [make_task_row]'s [secs]: the seconds logged for task [tid] on the day
    [today].  [None] stands for the ValueError of [fromisoformat] on the
    start of an entry of the task. *)
Fixpoint task_day_total (logs : list time_log) (tid today : Z) : option Z :=
  match logs with
  | [] => Some 0
  | l :: rest =>
      if log_task_id l =? tid then
        match fromisoformat (log_start l) with
        | Some start =>
            if date start =? today
            then option_map (Z.add (log_duration l)) (task_day_total rest tid today)
            else task_day_total rest tid today
        | None => None
        end
      else task_day_total rest tid today
  end.

(** The [for day in range(1, days_in_month + 1)] loop of
    [refresh_calendar]: the cells [(day, col, row)] attached to the grid,
    [n] days from [day] on. *)
Fixpoint calendar_cells (n : nat) (day col row : Z) : list (Z * Z * Z) :=
  match n with
  | O => []
  | S n =>
      let col' := col + 1 in
      (day, col, row)
      :: (if 6 <? col' then calendar_cells n (day + 1) 0 (row + 1)
          else calendar_cells n (day + 1) col' row)
  end.

(** [refresh_calendar]'s grid for a month whose first day falls on weekday
    [first_day_weekday] (0 is Monday). *)
Definition refresh_calendar (first_day_weekday : Z) (days_in_month : nat)
  : list (Z * Z * Z) :=
  calendar_cells days_in_month 1 first_day_weekday 1.

(** [esc] of [export_time_logs_csv], on [None] or on [str(val)]. *)
Definition quote_char : ascii := ascii_of_nat 34.
Definition comma_char : ascii := ascii_of_nat 44.

Fixpoint contains (c : ascii) (s : string) : bool :=
  match s with
  | EmptyString => false
  | String a rest => Ascii.eqb a c || contains c rest
  end.

(** [s.replace(quote, quote + quote)]. *)
Fixpoint double_quotes (s : string) : string :=
  match s with
  | EmptyString => EmptyString
  | String a rest =>
      if Ascii.eqb a quote_char
      then String quote_char (String quote_char (double_quotes rest))
      else String a (double_quotes rest)
  end.

Definition esc (val : option string) : string :=
  match val with
  | None => EmptyString
  | Some s =>
      if contains comma_char s || contains quote_char s
      then String quote_char (double_quotes s ++ String quote_char EmptyString)
      else s
  end.

(** [task_lookup.get(tid, 'Unknown')] of the two exports, with
    [task_lookup = {t['id']: t['name'] for t in self.tasks}]: of several
    tasks with one id the last gives the name. *)
Fixpoint task_lookup (ts : list task) (tid : Z) : option string :=
  match ts with
  | [] => None
  | t :: rest =>
      match task_lookup rest tid with
      | Some n => Some n
      | None => if t_id t =? tid then Some (t_name t) else None
      end
  end.

Definition exported_task_name (st : state) (l : time_log) : string :=
  match task_lookup (tasks st) (log_task_id l) with
  | Some n => n
  | None => "Unknown"%string
  end.

(** The payload of [export_time_logs_json]: every entry with its
    [task_name]. *)
Definition export_time_logs_json (st : state) : list (time_log * string) :=
  map (fun l => (l, exported_task_name st l)) (time_logs st).

(** Every handler modelled: the commands above and the further ones.  A
    handler that raises leaves the attributes as they were. *)
Inductive action : Type :=
| Command (c : command)
| PauseTimer (now : Z)
| PlayClicked (idx : Z) (now : Z)
| ToggleReminder (rid : Z) (now : Z)
| SnoozeReminder (rid : Z) (minutes : Z) (now : Z)
| DismissReminder (rid : Z) (now : Z).

Definition perform (st : state) (a : action) : state :=
  match a with
  | Command c => step st c
  | PauseTimer now => match pause_timer st now with Some st' => st' | None => st end
  | PlayClicked idx now =>
      match on_play_clicked st idx now with Some st' => st' | None => st end
  | ToggleReminder rid now => toggle_reminder st rid now
  | SnoozeReminder rid minutes now => snooze_reminder st rid minutes now
  | DismissReminder rid now => dismiss_reminder st rid now
  end.

Definition perform_all (st : state) (acts : list action) : state :=
  fold_left perform acts st.

(** ** Further vocabulary *)

(** The part of the interval [[a, b)] that lies on day [d], in
    microseconds. *)
Definition overlap (a b d : Z) : Z :=
  Z.max 0 (Z.min b (combine_midnight (d + 1)) - Z.max a (combine_midnight d)).

(** The active timer, if there is one, names a task of the registry. *)
Definition timer_task_exists (st : state) : Prop :=
  match active_timer st with
  | Some tm =>
      exists tid, at_task_id tm = Some tid
                  /\ existsb (fun t => t_id t =? tid) (tasks st) = true
  | None => True
  end.

(** The reminder [toggle_reminder], [snooze_reminder] and
    [dismiss_reminder] act on: the first one with the id. *)
Definition find_reminder (st : state) (rid : Z) : option reminder :=
  find (fun r => r_id r =? rid) (reminders st).

(** The time of day of an instant: the time since the midnight before. *)
Definition time_of_day (dt : Z) : Z := dt - combine_midnight (date dt).

(** [l1] is an initial segment of [l2]. *)
Definition is_prefix {A : Type} (l1 l2 : list A) : Prop :=
  exists rest, l2 = l1 ++ rest.

(** ** The constructor and the widgets it builds *)





(** ** Validation vocabulary *)

(** A time-log record with the three required keys,
    [{'task_id', 'start', 'duration'} <= set(log.keys())]. *)
Definition has_required_log_fields (d : log_doc) : Prop :=
  ld_task_id d <> None /\ ld_start d <> None /\ ld_duration d <> None.

(** A reminder record with the three required keys,
    [{'id', 'name', 'time_hours'} <= set(r.keys())]. *)
Definition has_required_reminder_fields (d : reminder_doc) : Prop :=
  rd_id d <> None /\ rd_name d <> None /\ rd_time_hours d <> None.

(** An element of a collection that is not a dict, or is a dict without
    one of the keys required of it. *)
Definition invalid_record {A : Type} (required : A -> Prop) (x : item A) : Prop :=
  match x with
  | NotADict => True
  | Dict d => ~ required d
  end.

(** ** A session resumed after a pause *)

(** A tracker with one task and no timer. *)
Definition one_task : state :=
  mkState [mkTask 1 "report" 1 0 (Some (IsoOk 0)) false true] [] []
          None false 2 (Some 1) None [].

(** The timer of [one_task] started at 23:40:00 of day 0, paused at
    23:55:00 and resumed at 00:05:00 of day 1. *)
Definition resumed_timer : state :=
  perform_all one_task
    [Command (StartTimer 0 (23 * hour + timedelta_minutes 40));
     PauseTimer (23 * hour + timedelta_minutes 55);
     Command (StartTimer 0 (combine_midnight 1 + timedelta_minutes 5))].

(** * Properties *)

(** Case analysis on every [match] of the goal, for the lemmas stating
    that an operation leaves some attribute alone. *)
Ltac frame :=
  repeat match goal with
         | |- context [match ?x with _ => _ end] => destruct x
         end;
  try reflexivity.

(** Case analysis on every integer comparison of the goal and of the
    hypotheses. *)
Ltac ltb_cases :=
  repeat match goal with
         | |- context [?a <? ?b] => destruct (Z.ltb_spec a b)
         | |- context [?a <=? ?b] => destruct (Z.leb_spec a b)
         | H : context [?a <? ?b] |- _ => destruct (Z.ltb_spec a b)
         | H : context [?a <=? ?b] |- _ => destruct (Z.leb_spec a b)
         end.

(** ** Calendar arithmetic *)

Lemma day_pos : 0 < day.
Proof. unfold day, second. lia. Qed.

Lemma date_combine_midnight (d : Z) : date (combine_midnight d) = d.
Proof. unfold date, combine_midnight. apply Z.div_mul. pose proof day_pos. lia. Qed.

Lemma date_bounds (dt : Z) :
  combine_midnight (date dt) <= dt < combine_midnight (date dt + 1).
Proof.
  unfold combine_midnight, date. pose proof day_pos as Hd.
  pose proof (Z.mul_div_le dt day Hd).
  pose proof (Z.mul_succ_div_gt dt day Hd). lia.
Qed.

Lemma date_mono (a b : Z) : a <= b -> date a <= date b.
Proof. intros H. unfold date. apply Z.div_le_mono; [apply day_pos | exact H]. Qed.

Lemma date_unique (dt d : Z) :
  combine_midnight d <= dt < combine_midnight (d + 1) -> date dt = d.
Proof.
  unfold combine_midnight, date. intros H. pose proof day_pos.
  symmetry. apply (Z.div_unique dt day d (dt - d * day)); lia.
Qed.

Lemma within_one_day_intro (tid s en du : Z) :
  s <= en -> en <= combine_midnight (date s + 1) ->
  within_one_day (mkLog tid (IsoOk s) (Some (IsoOk en)) du).
Proof.
  intros H1 H2. unfold within_one_day; simpl. split; [exact H1 |].
  intros t Ht. apply date_unique. pose proof (date_bounds s). lia.
Qed.

Lemma total_duration_app (l1 l2 : list time_log) :
  total_duration (l1 ++ l2) = total_duration l1 + total_duration l2.
Proof.
  induction l1 as [| e l1 IH]; simpl; [reflexivity |].
  unfold total_duration in *. simpl. rewrite IH. lia.
Qed.

(** ** The day-splitting loop *)

Lemma split_days_spec (tid end_dt cur rem : Z) (logs : list time_log) :
  cur <= end_dt ->
  exists new c,
    split_days tid end_dt cur rem logs = (logs ++ new, c, rem - (c - cur))
    /\ cur <= c <= end_dt
    /\ date c = date end_dt
    /\ (date cur = date end_dt -> c = cur /\ new = [])
    /\ (date cur < date end_dt -> c = combine_midnight (date end_dt))
    /\ total_duration new = c - cur
    /\ Forall (fun e => within_one_day e /\ log_task_id e = tid) new.
Proof.
  funelim (split_days tid end_dt cur rem logs).
  - intros Hle. clear Heq Heqcall.
    set (m := combine_midnight (date cur_start + 1)) in *.
    assert (Hm : m <= end_dt).
    { pose proof (date_bounds end_dt) as Hb. unfold m, combine_midnight in *.
      pose proof day_pos. nia. }
    assert (Hcm : cur_start < m) by (pose proof (date_bounds cur_start); lia).
    assert (Hdm : date m = date cur_start + 1) by apply date_combine_midnight.
    destruct (H Hm) as (new & c & Heq & Hc & Hdc & Hsame & Hlt & Htot & Hall).
    exists (mkLog tid (isoformat cur_start) (Some (isoformat m)) (m - cur_start) :: new), c.
    repeat split.
    + rewrite Heq. rewrite <- app_assoc. simpl. f_equal. lia.
    + lia.
    + lia.
    + exact Hdc.
    + lia.
    + lia.
    + intros _. destruct (Z.eq_dec (date m) (date end_dt)) as [E | E].
      * destruct (Hsame E) as [-> _]. unfold m. f_equal. lia.
      * apply Hlt. lia.
    + change (m - cur_start + total_duration new = c - cur_start). lia.
    + constructor; [| exact Hall]. split; [| reflexivity].
      apply within_one_day_intro; unfold m; lia.
  - intros Hle. clear Heq. exists [], cur_start.
    pose proof (date_mono _ _ Hle).
    repeat split; try lia; try reflexivity; try (simpl; lia); try constructor.
    rewrite app_nil_r. f_equal. lia.
Qed.

Lemma split_days_same_day (tid end_dt cur rem : Z) (logs : list time_log) :
  ~ date cur < date end_dt ->
  split_days tid end_dt cur rem logs = (logs, cur, rem).
Proof.
  intros H. simp split_days.
  destruct (Z_lt_dec (date cur) (date end_dt)) as [Hlt | Hge]; [contradiction |].
  reflexivity.
Qed.

Lemma split_days_step (tid end_dt cur rem : Z) (logs : list time_log) :
  date cur < date end_dt ->
  split_days tid end_dt cur rem logs =
  split_days tid end_dt (combine_midnight (date cur + 1))
    (rem - (combine_midnight (date cur + 1) - cur))
    (logs ++ [mkLog tid (isoformat cur)
                (Some (isoformat (combine_midnight (date cur + 1))))
                (combine_midnight (date cur + 1) - cur)]).
Proof.
  intros H. rewrite split_days_equation_1.
  destruct (Z_lt_dec (date cur) (date end_dt)) as [Hlt | Hge]; [| contradiction].
  reflexivity.
Qed.

Lemma skipn_length_app {A : Type} (l x : list A) : skipn (List.length l) (l ++ x) = x.
Proof. induction l as [| a l IH]; simpl; [reflexivity | exact IH]. Qed.

(** ** [stop_timer] *)

Lemma session_elapsed_nonneg (tm : active_timer_t) (now : Z) :
  0 <= snd (session tm now).
Proof.
  unfold session.
  destruct (at_start_time tm) as [s |]; [destruct (fromisoformat s) |]; simpl; lia.
Qed.

Lemma stop_timer_entries_within_day (st : state) (now : Z) :
  Forall within_one_day (appended_by_stop st now).
Proof.
  unfold appended_by_stop, stop_timer.
  destruct (active_timer st) as [tm |]; cbn zeta.
  2:{ simpl. rewrite skipn_all. constructor. }
  pose proof (session_elapsed_nonneg tm now) as Hel.
  destruct (session tm now) as [S el]. cbn [snd] in Hel.
  destruct (timedelta_seconds 1 <? Z.min el max_session_sec).
  2:{ simpl. rewrite skipn_all. constructor. }
  destruct (at_task_id tm) as [tid |].
  2:{ rewrite skipn_all. constructor. }
  assert (HSE : S <= S + Z.max 0 el) by lia.
  destruct (split_days_spec tid (S + Z.max 0 el) S
              (Z.max 0 (Z.min el max_session_sec)) (time_logs st) HSE)
    as (new & c & Heq & Hc & Hdc & _ & _ & _ & Hall).
  rewrite Heq.
  assert (Hnew : Forall within_one_day new).
  { eapply Forall_impl; [| exact Hall]. intros e [He _]. exact He. }
  destruct (0 <? _); simpl.
  - rewrite <- app_assoc, skipn_length_app. apply Forall_app. split; [exact Hnew |].
    constructor; [| constructor].
    apply within_one_day_intro; [lia |].
    rewrite Hdc. pose proof (date_bounds (S + Z.max 0 el)). lia.
  - rewrite skipn_length_app. exact Hnew.
Qed.

Lemma stop_timer_appends (st : state) (now : Z) :
  time_logs (stop_timer st now) = time_logs st ++ appended_by_stop st now.
Proof.
  unfold appended_by_stop, stop_timer.
  destruct (active_timer st) as [tm |]; cbn zeta.
  2:{ simpl. rewrite skipn_all, app_nil_r. reflexivity. }
  destruct (session tm now) as [S el].
  destruct (timedelta_seconds 1 <? Z.min el max_session_sec).
  2:{ simpl. rewrite skipn_all, app_nil_r. reflexivity. }
  destruct (at_task_id tm) as [tid |].
  2:{ rewrite skipn_all, app_nil_r. reflexivity. }
  pose proof (date_bounds (S + Z.max 0 el)) as _.
  destruct (Z_le_gt_dec S (S + Z.max 0 el)) as [HSE | HSE]; [| lia].
  destruct (split_days_spec tid (S + Z.max 0 el) S
              (Z.max 0 (Z.min el max_session_sec)) (time_logs st) HSE)
    as (new & c & Heq & _).
  rewrite Heq.
  destruct (0 <? _); simpl.
  - rewrite <- app_assoc, skipn_length_app. reflexivity.
  - rewrite skipn_length_app. reflexivity.
Qed.

Lemma stop_timer_across_midnight (st : state) (tid d : Z) :
  let start := combine_midnight d + (23 * hour + timedelta_minutes 50) in
  let midnight := combine_midnight (d + 1) in
  let now := midnight + timedelta_minutes 10 in
  let st' := with_timer st (mkTimer (Some tid) (Some (isoformat start)) (Some 0)) in
  appended_by_stop st' now =
    [mkLog tid (isoformat start) (Some (isoformat midnight)) (timedelta_minutes 10);
     mkLog tid (isoformat midnight) (Some (isoformat now)) (timedelta_minutes 10)].
Proof.
  intros start midnight now st'.
  assert (Hds : date start = d).
  { apply date_unique. unfold start, combine_midnight, timedelta_minutes, hour, day, second. lia. }
  assert (Hdn : date now = d + 1).
  { apply date_unique. unfold now, midnight, combine_midnight, timedelta_minutes, day, second. lia. }
  assert (Hdiff : now - start = timedelta_seconds 1200).
  { unfold now, midnight, start, combine_midnight, timedelta_minutes, timedelta_seconds,
      hour, day, second. lia. }
  unfold appended_by_stop, stop_timer, session, st', with_timer.
  cbn [active_timer at_elapsed at_start_time at_task_id time_logs fromisoformat isoformat].
  rewrite Hdiff.
  change (Z.max 0 0 + Z.max 0 (timedelta_seconds 1200)) with (timedelta_seconds 1200).
  change (Z.min (timedelta_seconds 1200) max_session_sec) with (timedelta_seconds 1200).
  change (Z.max 0 (timedelta_seconds 1200)) with (timedelta_seconds 1200).
  change (timedelta_seconds 1 <? timedelta_seconds 1200) with true. cbv iota.
  replace (start + timedelta_seconds 1200) with now by lia.
  rewrite split_days_step by lia.
  rewrite Hds. fold midnight.
  rewrite split_days_same_day
    by (unfold midnight; rewrite date_combine_midnight; lia).
  replace (timedelta_seconds 1200 - (midnight - start)) with (timedelta_minutes 10)
    by (unfold midnight, start, combine_midnight, timedelta_minutes, timedelta_seconds,
          hour, day, second; lia).
  change (0 <? timedelta_minutes 10) with true. cbv iota.
  cbn [time_logs]. rewrite <- app_assoc, skipn_length_app.
  replace (midnight - start) with (timedelta_minutes 10)
    by (unfold midnight, start, combine_midnight, timedelta_minutes, 
          hour, day, second; lia).
  reflexivity.
Qed.

Lemma stop_timer_across_midnight_paused (st : state) (tid d : Z) :
  let start := combine_midnight d + (23 * hour + timedelta_minutes 50) in
  let midnight := combine_midnight (d + 1) in
  let now := midnight + timedelta_minutes 10 in
  let st' := with_timer st (mkTimer (Some tid) None (Some (timedelta_seconds 1200))) in
  appended_by_stop st' now =
    [mkLog tid (isoformat start) (Some (isoformat midnight)) (timedelta_minutes 10);
     mkLog tid (isoformat midnight) (Some (isoformat now)) (timedelta_minutes 10)].
Proof.
  intros start midnight now st'.
  assert (Hds : date start = d).
  { apply date_unique. unfold start, combine_midnight, timedelta_minutes, hour, day, second. lia. }
  assert (Hdn : date now = d + 1).
  { apply date_unique. unfold now, midnight, combine_midnight, timedelta_minutes, day, second. lia. }
  assert (Hdiff : now - timedelta_seconds 1200 = start).
  { unfold now, midnight, start, combine_midnight, timedelta_minutes, timedelta_seconds,
      hour, day, second. lia. }
  unfold appended_by_stop, stop_timer, session, st', with_timer.
  cbn [active_timer at_elapsed at_start_time at_task_id time_logs fromisoformat isoformat].
  change (Z.max 0 (timedelta_seconds 1200)) with (timedelta_seconds 1200).
  change (Z.min (timedelta_seconds 1200) max_session_sec) with (timedelta_seconds 1200).
  change (Z.max 0 (timedelta_seconds 1200)) with (timedelta_seconds 1200).
  change (timedelta_seconds 1 <? timedelta_seconds 1200) with true. cbv iota.
  rewrite Hdiff.
  replace (start + timedelta_seconds 1200) with now by lia.
  rewrite split_days_step by lia.
  rewrite Hds. fold midnight.
  rewrite split_days_same_day
    by (unfold midnight; rewrite date_combine_midnight; lia).
  replace (timedelta_seconds 1200 - (midnight - start)) with (timedelta_minutes 10)
    by (unfold midnight, start, combine_midnight, timedelta_minutes, timedelta_seconds,
          hour, day, second; lia).
  change (0 <? timedelta_minutes 10) with true. cbv iota.
  cbn [time_logs]. rewrite <- app_assoc, skipn_length_app.
  replace (midnight - start) with (timedelta_minutes 10)
    by (unfold midnight, start, combine_midnight, timedelta_minutes,
          hour, day, second; lia).
  reflexivity.
Qed.

(** What one stop records in all: the clamped elapsed time, or the time
    from the start to the last midnight before [end_dt] when that is
    more.  The cap bounds the total only in the first case. *)
Lemma stop_timer_total_duration (st : state) (now : Z) (tm : active_timer_t) (tid : Z) :
  active_timer st = Some tm ->
  at_task_id tm = Some tid ->
  let start_dt := fst (session tm now) in
  let end_dt := start_dt + snd (session tm now) in
  let elapsed := Z.min (snd (session tm now)) max_session_sec in
  timedelta_seconds 1 < elapsed ->
  total_duration (appended_by_stop st now)
  = Z.max elapsed
      ((if date start_dt <? date end_dt then combine_midnight (date end_dt) else start_dt)
       - start_dt).
Proof.
  intros Htm Htid. unfold appended_by_stop, stop_timer. rewrite Htm, Htid.
  pose proof (session_elapsed_nonneg tm now) as Hel.
  destruct (session tm now) as [S el]. cbn [fst snd] in *. cbv zeta.
  intros Hone. apply Z.ltb_lt in Hone. rewrite Hone.
  apply Z.ltb_lt in Hone.
  replace (Z.max 0 el) with el by lia.
  assert (HSE : S <= S + el) by lia.
  destruct (split_days_spec tid (S + el) S
              (Z.max 0 (Z.min el max_session_sec)) (time_logs st) HSE)
    as (new & c & Heq & Hc & Hdc & Hsame & Hcross & Htot & _).
  rewrite Heq.
  assert (Hc' : c = if date S <? date (S + el)
                    then combine_midnight (date (S + el)) else S).
  { destruct (date S <? date (S + el)) eqn:E.
    - apply Z.ltb_lt in E. apply Hcross. exact E.
    - apply Z.ltb_ge in E. pose proof (date_mono _ _ HSE).
      apply Hsame. lia. }
  rewrite <- Hc'.
  assert (Hu : timedelta_seconds 1 = second) by reflexivity.
  pose proof day_pos.
  destruct (0 <? _) eqn:Hrem; cbn [time_logs].
  - apply Z.ltb_lt in Hrem.
    rewrite <- app_assoc, skipn_length_app, total_duration_app, Htot.
    unfold total_duration at 1. simpl. lia.
  - apply Z.ltb_ge in Hrem. rewrite skipn_length_app, Htot. lia.
Qed.

(** A session that stays within one local day is recorded with the
    clamped elapsed time, hence within the cap. *)
Lemma stop_timer_total_within_cap_same_day
    (st : state) (now : Z) (tm : active_timer_t) (tid : Z) :
  active_timer st = Some tm ->
  at_task_id tm = Some tid ->
  date (fst (session tm now)) = date (fst (session tm now) + snd (session tm now)) ->
  timedelta_seconds 1 < Z.min (snd (session tm now)) max_session_sec ->
  total_duration (appended_by_stop st now) = Z.min (snd (session tm now)) max_session_sec.
Proof.
  intros Htm Htid Hday Hone.
  rewrite (stop_timer_total_duration st now tm tid Htm Htid Hone).
  replace (date (fst (session tm now)) <?
           date (fst (session tm now) + snd (session tm now))) with false
    by (symmetry; apply Z.ltb_ge; lia).
  unfold timedelta_seconds, second in Hone. lia.
Qed.

(** C1 (the code departs from the claim).  A timer started at
    2024-01-01T00:00:00 and stopped at 2024-01-02T01:00:00 makes
    [stop_timer] append a single entry of 86400 s, from the start to the
    next midnight: the recorded total exceeds the cap of 57600 s.  The cap
    is applied to [elapsed] after [end_dt] was computed, and the loop
    appends whole day segments without looking at [remaining]. *)
Theorem stop_timer_total_exceeds_cap :
  appended_by_stop overnight_timer (25 * hour) =
    [mkLog 1 (IsoOk 0) (Some (IsoOk day)) (timedelta_seconds 86400)]
  /\ max_session_sec = timedelta_seconds 57600
  /\ max_session_sec < total_duration (appended_by_stop overnight_timer (25 * hour)).
Proof. repeat split. Qed.

(** A timer holding [e] of the 1200 s of a session stopped at 00:10:00,
    resumed at 23:50:00 plus [e]: the interval [stop_timer] logs starts
    at the resumption and ends [e] after the stop. *)
Lemma stop_timer_resumed (st : state) (tid d e : Z) :
  0 <= e <= timedelta_seconds 1200 ->
  let start := combine_midnight d + (23 * hour + timedelta_minutes 50) in
  let midnight := combine_midnight (d + 1) in
  let now := midnight + timedelta_minutes 10 in
  let tm := mkTimer (Some tid) (Some (isoformat (start + e))) (Some e) in
  session tm now = (start + e, timedelta_seconds 1200)
  /\ appended_by_stop (with_timer st tm) now =
       if e <? timedelta_minutes 10 then
         [mkLog tid (isoformat (start + e)) (Some (isoformat midnight))
            (timedelta_minutes 10 - e);
          mkLog tid (isoformat midnight) (Some (isoformat (now + e)))
            (timedelta_minutes 10 + e)]
       else
         [mkLog tid (isoformat (start + e)) (Some (isoformat (now + e)))
            (timedelta_seconds 1200)].
Proof.
  intros He start midnight now tm.
  assert (Hu : timedelta_seconds 1200 = 1200 * second) by reflexivity.
  assert (Hm : timedelta_minutes 10 = 600 * second) by reflexivity.
  assert (Hsec : second = 1000000) by reflexivity.
  assert (Hmid : midnight = start + timedelta_minutes 10).
  { unfold midnight, start, combine_midnight, timedelta_minutes, hour, day, second. lia. }
  assert (Hnow : now = start + timedelta_seconds 1200).
  { unfold now. rewrite Hmid. lia. }
  assert (Hses : session tm now = (start + e, timedelta_seconds 1200)).
  { unfold session, tm.
    cbn [at_elapsed at_start_time fromisoformat isoformat].
    f_equal. lia. }
  split; [exact Hses |].
  assert (Hdn : date (now + e) = d + 1).
  { apply date_unique. fold midnight.
    replace (combine_midnight (d + 1 + 1)) with (midnight + day)
      by (unfold midnight, combine_midnight; lia).
    unfold day. lia. }
  unfold appended_by_stop, stop_timer, with_timer.
  cbn [active_timer time_logs]. fold tm. rewrite Hses.
  cbn [at_task_id tm].
  change (Z.min (timedelta_seconds 1200) max_session_sec) with (timedelta_seconds 1200).
  change (Z.max 0 (timedelta_seconds 1200)) with (timedelta_seconds 1200).
  change (timedelta_seconds 1 <? timedelta_seconds 1200) with true. cbv iota.
  replace (start + e + timedelta_seconds 1200) with (now + e) by lia.
  destruct (Z.ltb_spec e (timedelta_minutes 10)) as [Hlt | Hge].
  - assert (Hds : date (start + e) = d).
    { apply date_unique. fold midnight.
      unfold start at 1. unfold timedelta_minutes, hour, second. lia. }
    rewrite split_days_step by lia.
    rewrite Hds. fold midnight.
    rewrite split_days_same_day
      by (unfold midnight; rewrite date_combine_midnight; lia).
    replace (timedelta_seconds 1200 - (midnight - (start + e)))
      with (timedelta_minutes 10 + e) by lia.
    replace (0 <? timedelta_minutes 10 + e) with true
      by (symmetry; apply Z.ltb_lt; lia).
    cbn [time_logs]. rewrite <- app_assoc, skipn_length_app.
    replace (midnight - (start + e)) with (timedelta_minutes 10 - e) by lia.
    reflexivity.
  - assert (Hds : date (start + e) = d + 1).
    { apply date_unique. fold midnight.
      replace (combine_midnight (d + 1 + 1)) with (midnight + day)
        by (unfold midnight, combine_midnight; lia).
      unfold day. lia. }
    rewrite split_days_same_day by lia.
    change (0 <? timedelta_seconds 1200) with true. cbv iota.
    cbn [time_logs]. rewrite skipn_length_app. reflexivity.
Qed.

(** C2 (the code departs from the claim).  A timer started at 23:40:00,
    paused at 23:55:00 with 900 s, resumed at 00:05:00 and stopped at
    00:10:00 has 1200 s elapsed, and its session interval
    [[now - elapsed, now)] runs from 23:50:00 to 00:10:00; [stop_timer]
    appends one entry, from 00:05:00 to 00:25:00 with 1200 s.  In general,
    of the 1200 s of a session stopped at 00:10:00 let the timer hold [e]
    from before its last resumption: the logged interval starts at
    23:50:00 plus [e] and ends [e] after the stop, and the entries are the
    two of the claim only when [e] is 0.  A paused timer holding the
    1200 s is logged as the claim says.  In every state, each entry
    [stop_timer] appends lies within one local calendar day between its
    own [start] and [end]. *)
Theorem stop_timer_resumed_session_not_split :
  (active_timer resumed_timer
   = Some (mkTimer (Some 1) (Some (IsoOk (combine_midnight 1 + timedelta_minutes 5)))
             (Some (timedelta_seconds 900)))
   /\ is_timer_running resumed_timer = true
   /\ time_logs resumed_timer = [])
  /\ (let now := combine_midnight 1 + timedelta_minutes 10 in
      let tm := mkTimer (Some 1) (Some (IsoOk (combine_midnight 1 + timedelta_minutes 5)))
                  (Some (timedelta_seconds 900)) in
      snd (session tm now) = timedelta_seconds 1200
      /\ now - snd (session tm now)
         = combine_midnight 0 + (23 * hour + timedelta_minutes 50)
      /\ time_logs (stop_timer resumed_timer now)
         = [mkLog 1 (IsoOk (combine_midnight 1 + timedelta_minutes 5))
              (Some (IsoOk (combine_midnight 1 + timedelta_minutes 25)))
              (timedelta_seconds 1200)])
  /\ (forall (st : state) (tid d e : Z),
        0 <= e <= timedelta_seconds 1200 ->
        let start := combine_midnight d + (23 * hour + timedelta_minutes 50) in
        let midnight := combine_midnight (d + 1) in
        let now := midnight + timedelta_minutes 10 in
        let tm := mkTimer (Some tid) (Some (isoformat (start + e))) (Some e) in
        snd (session tm now) = timedelta_seconds 1200
        /\ now - snd (session tm now) = start
        /\ appended_by_stop (with_timer st tm) now
           = (if e <? timedelta_minutes 10 then
                [mkLog tid (isoformat (start + e)) (Some (isoformat midnight))
                   (timedelta_minutes 10 - e);
                 mkLog tid (isoformat midnight) (Some (isoformat (now + e)))
                   (timedelta_minutes 10 + e)]
              else
                [mkLog tid (isoformat (start + e)) (Some (isoformat (now + e)))
                   (timedelta_seconds 1200)])
        /\ (appended_by_stop (with_timer st tm) now
            = [mkLog tid (isoformat start) (Some (isoformat midnight))
                 (timedelta_seconds 600);
               mkLog tid (isoformat midnight) (Some (isoformat now))
                 (timedelta_seconds 600)]
            <-> e = 0))
  /\ (forall (st : state) (tid d : Z),
        let start := combine_midnight d + (23 * hour + timedelta_minutes 50) in
        let midnight := combine_midnight (d + 1) in
        let now := midnight + timedelta_minutes 10 in
        appended_by_stop
          (with_timer st (mkTimer (Some tid) None (Some (timedelta_seconds 1200)))) now
        = [mkLog tid (isoformat start) (Some (isoformat midnight)) (timedelta_seconds 600);
           mkLog tid (isoformat midnight) (Some (isoformat now)) (timedelta_seconds 600)])
  /\ (forall (st : state) (now : Z),
        time_logs (stop_timer st now) = time_logs st ++ appended_by_stop st now
        /\ Forall within_one_day (appended_by_stop st now)).
Proof.
  split; [| split; [| split; [| split]]].
  - split; [| split]; vm_compute; reflexivity.
  - cbv zeta. split; [| split]; vm_compute; reflexivity.
  - intros st tid d e He.
    pose proof (stop_timer_resumed st tid d e He) as H. cbv zeta in H |- *.
    destruct H as [Hses Happ].
    rewrite Hses. cbn [snd].
    split; [reflexivity |].
    split.
    { unfold combine_midnight, timedelta_minutes, timedelta_seconds, hour, day, second.
      lia. }
    split; [exact Happ |].
    rewrite Happ. split.
    + destruct (e <? timedelta_minutes 10); intros H; [| discriminate].
      apply (f_equal (fun l => match l with x :: _ => log_duration x | [] => 0 end)) in H.
      cbv beta iota in H. cbn [log_duration] in H.
      unfold timedelta_minutes, timedelta_seconds, second in H. lia.
    + intros ->. rewrite !Z.add_0_r. reflexivity.
  - intros st tid d. apply stop_timer_across_midnight_paused.
  - intros st now. split.
    + apply stop_timer_appends.
    + apply stop_timer_entries_within_day.
Qed.

(** The timer resumed at 00:05:00 with 900 s. *)
Lemma stop_timer_resumed_session_not_split_witness :
  0 <= timedelta_seconds 900 <= timedelta_seconds 1200
  /\ appended_by_stop
       (with_timer one_task
          (mkTimer (Some 1)
             (Some (isoformat (combine_midnight 0 + (23 * hour + timedelta_minutes 50)
                               + timedelta_seconds 900)))
             (Some (timedelta_seconds 900))))
       (combine_midnight 1 + timedelta_minutes 10)
     = [mkLog 1 (IsoOk (timedelta_seconds 86700)) (Some (IsoOk (timedelta_seconds 87900)))
          (timedelta_seconds 1200)].
Proof.
  assert (He : 0 <= timedelta_seconds 900 <= timedelta_seconds 1200)
    by (unfold timedelta_seconds, second; lia).
  split; [exact He |].
  destruct (proj1 (proj2 (proj2 stop_timer_resumed_session_not_split))
              one_task 1 0 (timedelta_seconds 900) He) as (_ & _ & H & _).
  change (0 + 1) with 1 in H. rewrite H. vm_compute. reflexivity.
Defined.

(** ** The tick *)

(** What a tick shows is the live elapsed time of the timer it leaves. *)
Lemma tick_shows_live_elapsed (st st' : state) (now e : Z) :
  tick st now = (st', Some e) ->
  exists tm',
    active_timer st' = Some tm'
    /\ last_tick_time st' = Some now
    /\ e = live_elapsed tm' now.
Proof.
  unfold tick. destruct (active_timer st) as [tm |]; [| discriminate].
  destruct (last_tick_time st) as [last |].
  - destruct (idle_cap <? now - last).
    + destruct (at_start_time tm) as [s |] eqn:Hs.
      * intros H. inversion H; subst; clear H. eexists. repeat split.
        unfold live_elapsed; simpl. lia.
      * intros H. inversion H; subst; clear H. eexists. repeat split.
    + intros H. inversion H; subst; clear H. eexists. repeat split.
  - intros H. inversion H; subst; clear H. eexists. repeat split.
Qed.

(** C3.  When a tick finds the wall clock more than 3600 s past the
    previous tick (7200 s, say) on a running timer whose start timestamp
    is not later than that previous tick, it shows at most 3600 s more than
    the previous tick showed, sends the gap notification, and moves the
    start timestamp forward to 3600 s before now, so that every later
    reading of the elapsed time is the shown one plus the time since this
    tick: the rest of the gap is never credited. *)
Theorem tick_idle_gap_capped
    (st0 st1 : state) (tm1 : active_timer_t) (s last now e1 : Z) :
  tick st0 last = (st1, Some e1) ->
  active_timer st1 = Some tm1 ->
  at_start_time tm1 = Some (IsoOk s) ->
  s <= last ->
  timedelta_seconds 3600 < now - last ->
  exists st2 tm2 e2,
    tick st1 now = (st2, Some e2)
    /\ e2 <= e1 + timedelta_seconds 3600
    /\ active_timer st2 = Some tm2
    /\ at_start_time tm2 = Some (isoformat (now - timedelta_seconds 3600))
    /\ s < now - timedelta_seconds 3600
    /\ at_elapsed tm2 = at_elapsed tm1
    /\ sent st2 = sent st1 ++ [GapTrimmed ((now - last) / (60 * second))]
    /\ (forall t, live_elapsed tm2 t = e2 + (t - now))
    /\ (forall t, live_elapsed tm2 t
                  = live_elapsed tm1 t - (now - timedelta_seconds 3600 - s)).
Proof.
  intros Htick Htm Hs Hle Hgap.
  destruct (tick_shows_live_elapsed _ _ _ _ Htick) as (tm & Htm' & Hlast & He1).
  rewrite Htm in Htm'. inversion Htm'; subst tm; clear Htm'.
  unfold tick. rewrite Htm, Hlast.
  fold idle_cap in *. 
  assert (Hb : (idle_cap <? now - last) = true) by (apply Z.ltb_lt; exact Hgap).
  rewrite Hb, Hs.
  eexists _, (mkTimer (at_task_id tm1) (Some (isoformat (now - idle_cap))) (at_elapsed tm1)), _.
  split; [reflexivity |]. simpl.
  unfold live_elapsed in *. rewrite Hs in He1. simpl in *.
  repeat split; try lia; intros t; rewrite ?Hs; simpl; lia.
Qed.

(** The invariant of C3's hypothesis is set up by [start_timer] and kept
    by every tick that does not go back in time. *)
Lemma start_timer_started_before_last_tick (st : state) (idx now : Z) :
  started_before_last_tick st ->
  started_before_last_tick (start_timer st idx now).
Proof.
  intros H. unfold start_timer.
  destruct ((idx <? 0) || (Z.of_nat (List.length (tasks st)) <=? idx)); [exact H |].
  destruct (nth_error (tasks st) (Z.to_nat idx)) as [t |]; [| exact H].
  unfold start_timer_loop, tick, started_before_last_tick; simpl.
  replace (idle_cap <? now - now) with false
    by (symmetry; apply Z.ltb_ge; unfold idle_cap, timedelta_seconds, second; lia).
  destruct (active_timer st); simpl; lia.
Qed.

Lemma tick_started_before_last_tick (st : state) (now last : Z) :
  last_tick_time st = Some last -> last <= now ->
  started_before_last_tick st ->
  started_before_last_tick (fst (tick st now)).
Proof.
  intros Hlast Hle H. unfold tick, started_before_last_tick in *.
  destruct (active_timer st) as [tm |] eqn:Ha; simpl; [| rewrite Ha; exact I].
  rewrite Hlast in *.
  destruct (idle_cap <? now - last).
  - destruct (at_start_time tm) as [s |] eqn:Hs; simpl.
    + unfold idle_cap, timedelta_seconds, second. lia.
    + rewrite Hs. exact I.
  - simpl. destruct (at_start_time tm) as [[s |] |]; try exact I. lia.
Qed.

(** ** Task progress *)

Lemma Qltb_true (a b : Q) : Qltb a b = true <-> (a < b)%Q.
Proof.
  unfold Qltb. rewrite negb_true_iff. split.
  - intros H. apply Qnot_le_lt. intros Hle.
    apply Qle_bool_iff in Hle. congruence.
  - intros H. destruct (Qle_bool b a) eqn:E; [| reflexivity].
    apply Qle_bool_iff in E. exfalso. apply (Qlt_not_le _ _ H E).
Qed.

Lemma Qltb_false (a b : Q) : Qltb a b = false <-> (b <= a)%Q.
Proof.
  unfold Qltb. rewrite negb_false_iff. apply Qle_bool_iff.
Qed.

Lemma inc_keeps_range (t : task) :
  task_in_range t ->
  task_in_range (set_done t (py_min (t_done t + 1) (t_units t))).
Proof.
  unfold task_in_range, py_min. intros [H0 H1]. simpl.
  destruct (Qltb (t_units t) (t_done t + 1)) eqn:E.
  - split; [lra | lra].
  - apply Qltb_false in E. split; lra.
Qed.

Lemma dec_keeps_range (t : task) :
  task_in_range t ->
  task_in_range (set_done t (py_max (t_done t - 1) 0)).
Proof.
  unfold task_in_range, py_max. intros [H0 H1]. simpl.
  destruct (Qltb (t_done t - 1) 0) eqn:E.
  - split; lra.
  - apply Qltb_false in E. split; lra.
Qed.

Lemma inc_loop_nth (tid : Z) (ts : list task) (i : nat) (t : task) :
  nth_error ts i = Some t ->
  nth_error (fst (inc_loop tid ts)) i = Some t
  \/ nth_error (fst (inc_loop tid ts)) i
     = Some (set_done t (py_min (t_done t + 1) (t_units t))).
Proof.
  revert i. induction ts as [| a ts IH]; intros i Hi.
  - destruct i; discriminate.
  - simpl. destruct (t_id a =? tid).
    + destruct i as [| i]; simpl in *.
      * inversion Hi; subst. right. reflexivity.
      * left. exact Hi.
    + destruct (inc_loop tid ts) as [rest' completed] eqn:E. simpl in *.
      destruct i as [| i]; simpl in *.
      * left. exact Hi.
      * apply IH. exact Hi.
Qed.

Lemma dec_loop_nth (tid : Z) (ts : list task) (i : nat) (t : task) :
  nth_error ts i = Some t ->
  nth_error (dec_loop tid ts) i = Some t
  \/ nth_error (dec_loop tid ts) i
     = Some (set_done t (py_max (t_done t - 1) 0)).
Proof.
  revert i. induction ts as [| a ts IH]; intros i Hi.
  - destruct i; discriminate.
  - simpl. destruct (t_id a =? tid).
    + destruct i as [| i]; simpl in *.
      * inversion Hi; subst. right. reflexivity.
      * left. exact Hi.
    + destruct i as [| i]; simpl in *.
      * left. exact Hi.
      * apply IH. exact Hi.
Qed.

Lemma tasks_inc_task (st : state) (tid : Z) :
  tasks (inc_task st tid) = fst (inc_loop tid (tasks st)).
Proof. unfold inc_task. destruct (inc_loop tid (tasks st)). reflexivity. Qed.

(** The exact effect of the two operations on the task they act on. *)
Lemma inc_loop_find (tid : Z) (ts : list task) :
  find (fun t => t_id t =? tid) (fst (inc_loop tid ts))
  = option_map (fun t => set_done t (py_min (t_done t + 1) (t_units t)))
      (find (fun t => t_id t =? tid) ts).
Proof.
  induction ts as [| a ts IH]; simpl; [reflexivity |].
  destruct (t_id a =? tid) eqn:E; simpl.
  - rewrite E. reflexivity.
  - destruct (inc_loop tid ts) as [rest' completed]. simpl in *.
    rewrite E. exact IH.
Qed.

Lemma dec_loop_find (tid : Z) (ts : list task) :
  find (fun t => t_id t =? tid) (dec_loop tid ts)
  = option_map (fun t => set_done t (py_max (t_done t - 1) 0))
      (find (fun t => t_id t =? tid) ts).
Proof.
  induction ts as [| a ts IH]; simpl; [reflexivity |].
  destruct (t_id a =? tid) eqn:E; simpl; rewrite E; [reflexivity | exact IH].
Qed.

Lemma py_min_clamps (a b : Q) : (py_min a b == Qmin a b)%Q.
Proof.
  unfold py_min. destruct (Qltb b a) eqn:E.
  - apply Qltb_true in E. symmetry. apply Q.min_r. lra.
  - apply Qltb_false in E. symmetry. apply Q.min_l. exact E.
Qed.

Lemma py_max_clamps (a b : Q) : (py_max a b == Qmax a b)%Q.
Proof.
  unfold py_max. destruct (Qltb a b) eqn:E.
  - apply Qltb_true in E. symmetry. apply Q.max_r. lra.
  - apply Qltb_false in E. symmetry. apply Q.max_l. exact E.
Qed.

(** C4.  Whatever increments and decrements are run, on whatever task
    ids, a task that starts with [0 <= done <= units] is still there, at
    the same place, with the same id, name and units, and with
    [0 <= done <= units]; on the task it acts on, [inc_task] sets [done]
    to the least of [done + 1] and [units], and [dec_task] to the greatest
    of [done - 1] and [0]. *)
Theorem progress_stays_in_range :
  (forall (ops : list progress_op) (st : state) (i : nat) (t : task),
      nth_error (tasks st) i = Some t ->
      task_in_range t ->
      exists t',
        nth_error (tasks (run_progress st ops)) i = Some t'
        /\ t_id t' = t_id t
        /\ t_name t' = t_name t
        /\ t_units t' = t_units t
        /\ task_in_range t')
  /\ (forall (st : state) (tid : Z) (t : task),
        find_task st tid = Some t ->
        exists t',
          find_task (inc_task st tid) tid = Some t'
          /\ t_units t' = t_units t
          /\ (t_done t' == Qmin (t_done t + 1) (t_units t))%Q)
  /\ (forall (st : state) (tid : Z) (t : task),
        find_task st tid = Some t ->
        exists t',
          find_task (dec_task st tid) tid = Some t'
          /\ t_units t' = t_units t
          /\ (t_done t' == Qmax (t_done t - 1) 0)%Q).
Proof.
  split; [| split].
  - intros ops. induction ops as [| op ops IH]; intros st i t Hi Hr.
    + exists t. simpl. auto.
    + change (run_progress st (op :: ops))
        with (run_progress (apply_progress st op) ops).
      destruct op as [tid | tid]; cbn [apply_progress].
      * destruct (inc_loop_nth tid _ _ _ Hi) as [H | H];
          rewrite <- tasks_inc_task in H.
        -- apply (IH _ _ _ H Hr).
        -- destruct (IH _ _ _ H (inc_keeps_range t Hr)) as (t' & ? & ? & ? & ? & ?).
           exists t'. auto.
      * destruct (dec_loop_nth tid _ _ _ Hi) as [H | H].
        -- apply (IH (dec_task st tid) _ _ H Hr).
        -- destruct (IH (dec_task st tid) _ _ H (dec_keeps_range t Hr))
             as (t' & ? & ? & ? & ? & ?).
           exists t'. auto.
  - intros st tid t Hf. unfold find_task in *.
    rewrite tasks_inc_task, inc_loop_find, Hf. simpl.
    eexists. split; [reflexivity |]. split; [reflexivity |].
    simpl. apply py_min_clamps.
  - intros st tid t Hf. unfold find_task in *. cbn [dec_task tasks].
    rewrite dec_loop_find, Hf. simpl.
    eexists. split; [reflexivity |]. split; [reflexivity |].
    simpl. apply py_max_clamps.
Qed.

(** ** The "completed" notification *)

Lemma inc_loop_completed (tid : Z) (ts : list task) :
  snd (inc_loop tid ts)
  = match find (fun t => t_id t =? tid) ts with
    | Some t => if Qle_bool (t_units t) (t_done t + 1) then Some (t_name t) else None
    | None => None
    end.
Proof.
  induction ts as [| a ts IH]; simpl; [reflexivity |].
  destruct (t_id a =? tid) eqn:E; simpl.
  - unfold py_min. destruct (Qltb (t_units a) (t_done a + 1)) eqn:L.
    + apply Qltb_true in L.
      assert (H1 : Qle_bool (t_units a) (t_units a) = true)
        by (apply Qle_bool_iff; lra).
      assert (H2 : Qle_bool (t_units a) (t_done a + 1) = true)
        by (apply Qle_bool_iff; lra).
      rewrite H1, H2. reflexivity.
    + reflexivity.
  - destruct (inc_loop tid ts) as [rest' completed]. simpl in *. exact IH.
Qed.

(** C5 (as amended).  [inc_task] sends the "completed" notification on
    every call that leaves [done >= units], that is whenever
    [done + 1 >= units] held before the call, for the first task with the
    id, if its name is not empty; otherwise it sends nothing.  There is no
    memory of an earlier notification. *)
Theorem inc_task_notifies_when_complete (st : state) (tid : Z) :
  sent (inc_task st tid)
  = sent st
    ++ match find_task st tid with
       | Some t =>
           if Qle_bool (t_units t) (t_done t + 1) && negb (String.eqb (t_name t) EmptyString)
           then [TaskComplete (t_name t)]
           else []
       | None => []
       end.
Proof.
  unfold inc_task, find_task.
  pose proof (inc_loop_completed tid (tasks st)) as H.
  destruct (inc_loop tid (tasks st)) as [ts completed]. simpl in *. subst completed.
  destruct (find (fun t => t_id t =? tid) (tasks st)) as [t |]; [| reflexivity].
  destruct (Qle_bool (t_units t) (t_done t + 1)); simpl; [| reflexivity].
  destruct (String.eqb (t_name t) EmptyString); reflexivity.
Qed.

(** C5 (the claim as stated fails).  On a task whose [done] already equals
    [units], [inc_task] leaves [done] as it is and sends the "completed"
    notification once more. *)
Lemma inc_task_notifies_again :
  find_task finished_task_state 1
    = Some (mkTask 1 "report" 2 2 (Some (IsoOk 0)) false true)
  /\ tasks (inc_task finished_task_state 1) = tasks finished_task_state
  /\ sent (inc_task finished_task_state 1)
     = sent finished_task_state ++ [TaskComplete "report"]
  /\ ~ completed_is_one_shot.
Proof.
  repeat split.
  intros H.
  specialize (H finished_task_state 1 _ eq_refl).
  simpl in H. specialize (H (Qeq_refl _)). discriminate H.
Qed.

(** ** Save and load *)

Lemma keep_valid_app {A B : Type} (load : A -> option B) (l1 l2 : list A) :
  keep_valid load (l1 ++ l2) = keep_valid load l1 ++ keep_valid load l2.
Proof.
  induction l1 as [| x l1 IH]; simpl; [reflexivity |].
  destruct (load x); simpl; rewrite IH; reflexivity.
Qed.

Lemma keep_valid_saved {A B : Type} (load : A -> option B) (save : B -> A) (l : list B) :
  (forall b, load (save b) = Some b) ->
  keep_valid load (map save l) = l.
Proof.
  intros H. induction l as [| b l IH]; simpl; [reflexivity |].
  rewrite H, IH. reflexivity.
Qed.

Lemma load_save_task (t : task) : load_task (save_task t) = Some t.
Proof. destruct t. reflexivity. Qed.

Lemma load_save_log (l : time_log) : load_log (save_log l) = Some l.
Proof. destruct l. reflexivity. Qed.

Lemma load_save_reminder (r : reminder) : load_reminder (save_reminder r) = Some r.
Proof. destruct r. reflexivity. Qed.

Lemma reminders_tick (st : state) (now : Z) :
  reminders (fst (tick st now)) = reminders st.
Proof.
  unfold tick. destruct (active_timer st) as [tm |]; [| reflexivity].
  destruct (last_tick_time st) as [last |]; [| reflexivity].
  destruct (idle_cap <? now - last); [| reflexivity].
  destruct (at_start_time tm); reflexivity.
Qed.

Lemma reminders_update_timer_combo (st : state) :
  reminders (update_timer_combo st) = reminders st.
Proof.
  unfold update_timer_combo.
  match goal with
  | |- context [if ?found then _ else _] => destruct found
  end; [reflexivity |].
  destruct (tasks st); reflexivity.
Qed.

Lemma reminders_ensure_active_task_valid (st : state) :
  reminders (_ensure_active_task_valid st) = reminders st.
Proof.
  unfold _ensure_active_task_valid.
  destruct (active_timer st) as [tm |]; [| reflexivity].
  destruct (match at_task_id tm with None => true | Some _ => _ end); reflexivity.
Qed.

(** A restart on the dumped state reschedules the very reminders that
    were dumped. *)
Lemma reminders_init_saved (st : state) (now : Z) :
  reminders (__init__ (Some (save_state st)) now)
  = map (fun rem => schedule_reminder rem now) (reminders st).
Proof.
  unfold __init__.
  set (st1 := load_state initial_state (Some (save_state st))).
  assert (H1 : reminders st1 = reminders st).
  { unfold st1. simpl. apply keep_valid_saved. apply load_save_reminder. }
  set (st2 := update_timer_combo (_ensure_active_task_valid st1)).
  assert (H2 : reminders st2 = reminders st).
  { unfold st2.
    rewrite reminders_update_timer_combo, reminders_ensure_active_task_valid.
    exact H1. }
  clearbody st2.
  assert (H3 : reminders (schedule_all_reminders st2 now)
               = map (fun rem => schedule_reminder rem now) (reminders st)).
  { simpl. rewrite H2. reflexivity. }
  destruct (active_timer (schedule_all_reminders st2 now)) as [tm |]; [| exact H3].
  destruct (at_start_time tm); [| exact H3].
  unfold start_timer_loop. rewrite reminders_tick. exact H3.
Qed.

(** ** Reminders *)

Lemma timedelta_hours_quarter : timedelta_hours (1 # 4) = timedelta_minutes 15.
Proof. reflexivity. Qed.

(** A stored [next_fire_at] still in the future is kept by
    [schedule_reminder], unless a snooze is pending. *)
Lemma schedule_reminder_keeps_stored (rem : reminder) (now nfa : Z) :
  r_next_fire_at rem = Some (IsoOk nfa) ->
  now < nfa ->
  r_snoozed_until rem = None ->
  schedule_reminder rem now = rem.
Proof.
  intros Hn Hlt Hs. unfold schedule_reminder.
  destruct (negb (r_enabled rem)); [reflexivity |].
  rewrite Hn, Hs. simpl.
  replace (now <? nfa) with true by (symmetry; apply Z.ltb_lt; exact Hlt).
  destruct rem; simpl in *. subst. reflexivity.
Qed.

(** C6.  A reminder added at [T] with [time_hours = 0.25] and
    [is_relative] gets [next_fire_at = T + 15 min], and that is what the
    dumped document holds; a restart on the dumped document at any [T']
    before [T + 15 min] reschedules the reminder to the same
    [next_fire_at], not to [T' + 15 min]. *)
Theorem relative_reminder_fire_time_stable
    (st : state) (name : string) (T T' : Z) :
  name <> EmptyString ->
  T' < T + timedelta_minutes 15 ->
  let st1 := add_reminder st name (Some (1 # 4)) true T in
  let st2 := __init__ (Some (save_state st1)) T' in
  exists (r : reminder) (rs : list reminder),
    reminders st1 = reminders st ++ [r]
    /\ r_name r = name
    /\ r_is_relative r = true
    /\ r_time_hours r = 1 # 4
    /\ r_next_fire_at r = Some (isoformat (T + timedelta_minutes 15))
    /\ saved_reminders (save_state st1)
       = map save_reminder (reminders st) ++ [save_reminder r]
    /\ (exists d, save_reminder r = Dict d
                  /\ rd_next_fire_at d = Some (isoformat (T + timedelta_minutes 15)))
    /\ reminders st2 = rs ++ [r]
    /\ List.length rs = List.length (reminders st).
Proof.
  intros Hname Hlt st1 st2.
  assert (Hr : reminders st1
               = reminders st
                 ++ [mkReminder (max_reminder_id (reminders st) + 1) name (1 # 4)
                       (Some (isoformat T)) true None false true
                       (Some (isoformat (T + timedelta_minutes 15)))]).
  { unfold st1, add_reminder.
    destruct (String.eqb_spec name EmptyString); [contradiction |]. reflexivity. }
  eexists _, (map (fun rem => schedule_reminder rem T') (reminders st)).
  split; [exact Hr |].
  repeat split.
  - unfold st1 at 1. unfold save_state, saved_reminders. simpl.
    fold st1. rewrite Hr, map_app. reflexivity.
  - eexists. split; reflexivity.
  - unfold st2. rewrite reminders_init_saved, Hr, map_app. simpl.
    f_equal. f_equal.
    apply (schedule_reminder_keeps_stored _ _ (T + timedelta_minutes 15));
      [reflexivity | exact Hlt | reflexivity].
  - apply length_map.
Qed.

(** ** Task ids *)

Lemma frame_update_timer_combo (st : state) :
  tasks (update_timer_combo st) = tasks st
  /\ next_task_id (update_timer_combo st) = next_task_id st.
Proof.
  unfold update_timer_combo.
  match goal with
  | |- context [if ?found then _ else _] => destruct found
  end; [auto |].
  destruct (tasks st) eqn:E; split; simpl; auto.
Qed.

Lemma frame_stop_timer (st : state) (now : Z) :
  tasks (stop_timer st now) = tasks st
  /\ next_task_id (stop_timer st now) = next_task_id st.
Proof. unfold stop_timer. split; frame. Qed.

Lemma frame_tick (st : state) (now : Z) :
  tasks (fst (tick st now)) = tasks st
  /\ next_task_id (fst (tick st now)) = next_task_id st.
Proof. unfold tick. split; frame. Qed.

Lemma frame_start_timer (st : state) (idx now : Z) :
  tasks (start_timer st idx now) = tasks st
  /\ next_task_id (start_timer st idx now) = next_task_id st.
Proof.
  unfold start_timer.
  destruct ((idx <? 0) || (Z.of_nat (List.length (tasks st)) <=? idx)); [auto |].
  destruct (nth_error (tasks st) (Z.to_nat idx)); [| auto].
  unfold start_timer_loop.
  match goal with |- context [tick ?s now] => destruct (frame_tick s now) as [-> ->] end.
  auto.
Qed.

Lemma frame_ensure_active_task_valid (st : state) :
  tasks (_ensure_active_task_valid st) = tasks st
  /\ next_task_id (_ensure_active_task_valid st) = next_task_id st.
Proof. unfold _ensure_active_task_valid. split; frame. Qed.

Lemma frame_add_reminder (st : state) (name : string) (hours : option Q)
    (rel : bool) (now : Z) :
  tasks (add_reminder st name hours rel now) = tasks st
  /\ next_task_id (add_reminder st name hours rel now) = next_task_id st.
Proof. unfold add_reminder. split; frame. Qed.

(** After [__init__] the registry and the counter are those of the load. *)
Lemma frame_init (file : option (item document)) (now : Z) :
  tasks (__init__ file now) = tasks (load_state initial_state file)
  /\ next_task_id (__init__ file now) = next_task_id (load_state initial_state file).
Proof.
  unfold __init__.
  set (st1 := load_state initial_state file).
  set (st2 := update_timer_combo (_ensure_active_task_valid st1)).
  assert (H2 : tasks st2 = tasks st1 /\ next_task_id st2 = next_task_id st1).
  { unfold st2.
    destruct (frame_update_timer_combo (_ensure_active_task_valid st1)) as [-> ->].
    apply frame_ensure_active_task_valid. }
  clearbody st2. destruct H2 as [Ht Hn].
  destruct (active_timer (schedule_all_reminders st2 now)) as [tm |]; [| simpl; auto].
  destruct (at_start_time tm); [| simpl; auto].
  unfold start_timer_loop.
  match goal with |- context [tick ?s now] => destruct (frame_tick s now) as [-> ->] end.
  simpl. auto.
Qed.

Lemma fold_max_ge (l : list Z) (a : Z) :
  a <= fold_left Z.max l a /\ Forall (fun x => x <= fold_left Z.max l a) l.
Proof.
  revert a. induction l as [| x l IH]; intros a; simpl.
  - split; [lia | constructor].
  - destruct (IH (Z.max a x)) as [H1 H2]. split; [lia |].
    constructor; [lia | exact H2].
Qed.

Lemma max_task_id_ge (t : task) (rest : list task) :
  Forall (fun x => t_id x <= max_task_id t rest) (t :: rest).
Proof.
  unfold max_task_id. destruct (fold_max_ge (map t_id rest) (t_id t)) as [H1 H2].
  constructor; [exact H1 |].
  rewrite Forall_map in H2. exact H2.
Qed.

(** Loading raises [next_task_id] above every id it loaded. *)
Lemma apply_loaded_state_ids_below (st : state) (data : item document) :
  ids_below_next st -> ids_below_next (_apply_loaded_state st data).
Proof.
  intros H. destruct data as [| data]; [exact H |].
  unfold ids_below_next, _apply_loaded_state. cbn [tasks next_task_id].
  destruct (keep_valid load_task (default (doc_tasks data) [])) as [| t rest];
    [constructor |].
  pose proof (max_task_id_ge t rest) as Hmax.
  eapply Forall_impl; [| exact Hmax]. simpl. intros x Hx. lia.
Qed.

Lemma init_ids_below (file : option (item document)) (now : Z) :
  ids_below_next (__init__ file now).
Proof.
  unfold ids_below_next. destruct (frame_init file now) as [-> ->].
  destruct file as [data |]; simpl.
  - apply apply_loaded_state_ids_below. constructor.
  - constructor.
Qed.

(** A restart on the dumped state keeps the registry and does not lower
    the counter. *)
Lemma restart_keeps_tasks (st : state) (now : Z) :
  tasks (__init__ (Some (save_state st)) now) = tasks st
  /\ next_task_id st <= next_task_id (__init__ (Some (save_state st)) now).
Proof.
  destruct (frame_init (Some (save_state st)) now) as [-> ->]. simpl.
  rewrite (keep_valid_saved load_task save_task (tasks st) load_save_task).
  split; [reflexivity |]. destruct (tasks st); lia.
Qed.

Lemma map_id_inc_loop (tid : Z) (ts : list task) :
  map t_id (fst (inc_loop tid ts)) = map t_id ts.
Proof.
  induction ts as [| a ts IH]; simpl; [reflexivity |].
  destruct (t_id a =? tid); [reflexivity |].
  destruct (inc_loop tid ts). simpl in *. rewrite IH. reflexivity.
Qed.

Lemma map_id_dec_loop (tid : Z) (ts : list task) :
  map t_id (dec_loop tid ts) = map t_id ts.
Proof.
  induction ts as [| a ts IH]; simpl; [reflexivity |].
  destruct (t_id a =? tid); simpl; [reflexivity |]. rewrite IH. reflexivity.
Qed.

Lemma ids_below_by_map (ts ts' : list task) (n : Z) :
  map t_id ts' = map t_id ts ->
  Forall (fun t => t_id t < n) ts -> Forall (fun t => t_id t < n) ts'.
Proof.
  intros Hm H.
  rewrite <- (Forall_map t_id (fun i => i < n)) in *. rewrite Hm. exact H.
Qed.

(** One command: the invariant is kept, the counter does not go down,
    and [add_task] hands out the counter's value or nothing. *)
Lemma step_ids (st : state) (c : command) :
  ids_below_next st ->
  ids_below_next (step st c)
  /\ next_task_id st <= next_task_id (step st c)
  /\ match c with
     | AddTask _ _ _ =>
         new_task_ids st (step st c) = []
         \/ (new_task_ids st (step st c) = [next_task_id st]
             /\ next_task_id (step st c) = next_task_id st + 1)
     | _ => True
     end.
Proof.
  intros H. unfold ids_below_next in *. destruct c; simpl.
  - (* add_task *)
    unfold add_task, new_task_ids. destruct (String.eqb name EmptyString).
    + split; [exact H |]. split; [lia |]. left.
      rewrite skipn_all. reflexivity.
    + match goal with
      | |- context [update_timer_combo ?s] =>
          destruct (frame_update_timer_combo s) as [-> ->]
      end.
      cbn [tasks next_task_id]. split; [| split; [lia |]].
      * apply Forall_app. split.
        -- eapply Forall_impl; [| exact H]. simpl. intros; lia.
        -- constructor; [simpl; lia | constructor].
      * right. rewrite skipn_length_app. split; reflexivity.
  - (* inc_task *)
    split; [| split; [| exact I]].
    + rewrite tasks_inc_task.
      replace (next_task_id (inc_task st tid)) with (next_task_id st)
        by (unfold inc_task; destruct (inc_loop tid (tasks st)); reflexivity).
      apply (ids_below_by_map (tasks st)); [apply map_id_inc_loop | exact H].
    + unfold inc_task; destruct (inc_loop tid (tasks st)); simpl; lia.
  - (* dec_task *)
    split; [| split; [lia | exact I]].
    apply (ids_below_by_map (tasks st)); [apply map_id_dec_loop | exact H].
  - (* del_task *)
    unfold del_task.
    match goal with
    | |- context [update_timer_combo ?s] =>
        destruct (frame_update_timer_combo s) as [-> ->]
    end.
    cbn [tasks next_task_id].
    destruct (timer_on_task st tid); cbn [tasks next_task_id].
    + destruct (frame_stop_timer st now) as [-> ->].
      split; [| split; [lia | exact I]].
      apply Forall_forall. intros x Hx. apply filter_In in Hx.
      rewrite Forall_forall in H. apply H. tauto.
    + split; [| split; [lia | exact I]].
      apply Forall_forall. intros x Hx. apply filter_In in Hx.
      rewrite Forall_forall in H. apply H. tauto.
  - destruct (frame_start_timer st idx now) as [-> ->].
    split; [exact H | split; [lia | exact I]].
  - destruct (frame_stop_timer st now) as [-> ->].
    split; [exact H | split; [lia | exact I]].
  - destruct (frame_tick st now) as [-> ->].
    split; [exact H | split; [lia | exact I]].
  - destruct (frame_add_reminder st name hours is_relative now) as [-> ->].
    split; [exact H | split; [lia | exact I]].
  - split; [exact H | split; [lia | exact I]].
  - destruct (restart_keeps_tasks st now) as [Ht Hn].
    split; [apply init_ids_below | split; [exact Hn | exact I]].
Qed.

Lemma run_ids (cmds : list command) (st : state) :
  ids_below_next st ->
  StronglySorted Z.lt (snd (run st cmds))
  /\ Forall (fun i => next_task_id st <= i) (snd (run st cmds))
  /\ ids_below_next (fst (run st cmds)).
Proof.
  revert st. induction cmds as [| c cmds IH]; intros st H.
  - simpl. repeat split; [constructor | constructor | exact H].
  - cbn [run]. cbv zeta.
    destruct (step_ids st c H) as (Hinv & Hle & Hnew).
    destruct (IH (step st c) Hinv) as (Hs & Hge & Hfin).
    destruct (run (step st c) cmds) as [final later]. cbn [fst snd] in *.
    assert (Hlater : Forall (fun i => next_task_id st <= i) later).
    { eapply Forall_impl; [| exact Hge]. simpl. intros; lia. }
    destruct c; try (simpl; repeat split; assumption).
    cbn [step] in *.
    destruct Hnew as [-> | [-> Hn]]; simpl.
    + repeat split; assumption.
    + repeat split; [| | assumption].
      * constructor; [exact Hs |].
        eapply Forall_impl; [| exact Hge]. simpl. intros; lia.
      * constructor; [lia | exact Hlater].
Qed.

(** C7.  Start a tracker on any state file (or none) and run any commands,
    restarts on its own dumped state among them: the load leaves
    [next_task_id] above every loaded id, the ids [add_task] hands out
    are strictly increasing, and each is greater than the id of every task
    the tracker started with; so an id, once given, is never given again,
    whatever was deleted in between. *)
Theorem task_ids_strictly_increase
    (file : option (item document)) (now : Z) (cmds : list command) :
  let st0 := __init__ file now in
  ids_below_next st0
  /\ StronglySorted Z.lt (snd (run st0 cmds))
  /\ (forall i t, In i (snd (run st0 cmds)) -> In t (tasks st0) -> t_id t < i)
  /\ ids_below_next (fst (run st0 cmds)).
Proof.
  intros st0. pose proof (init_ids_below file now) as H0. fold st0 in H0.
  destruct (run_ids cmds st0 H0) as (Hs & Hge & Hfin).
  repeat split; try assumption.
  intros i t Hi Ht.
  unfold ids_below_next in H0. rewrite Forall_forall in H0, Hge.
  specialize (H0 t Ht). specialize (Hge i Hi). simpl in *. lia.
Qed.

(** ** Validation at load *)

Lemma keep_valid_drop {A B : Type} (load : A -> option B) (pre post : list A) (x : A) :
  load x = None ->
  keep_valid load (pre ++ x :: post) = keep_valid load (pre ++ post).
Proof.
  intros H. rewrite !keep_valid_app. simpl. rewrite H. reflexivity.
Qed.

Lemma load_task_accepts (d : task_doc) :
  has_required_task_fields d <->
  load_task (Dict d)
  = Some (mkTask (default (td_id d) 0) (default (td_name d) EmptyString)
                 (default (td_units d) 0%Q) (default (td_done d) 0%Q) (td_created d)
                 (default (td_archived d) false) (default (td_is_today d) true)).
Proof.
  unfold has_required_task_fields. destruct d as [i n u dn c a it]; simpl.
  destruct i, n, u, dn; simpl; split; intros H;
    try reflexivity; try discriminate;
    try (repeat split; discriminate);
    try (destruct H as (H1 & H2 & H3 & H4); congruence).
Qed.

Lemma load_task_rejects (d : task_doc) :
  ~ has_required_task_fields d <-> load_task (Dict d) = None.
Proof.
  unfold has_required_task_fields. destruct d as [i n u dn c a it]; simpl.
  destruct i, n, u, dn; simpl; split; intros H;
    try reflexivity; try discriminate;
    try (intros (H1 & H2 & H3 & H4); congruence);
    try (exfalso; apply H; repeat split; discriminate).
Qed.

(** What each of the three loops skips: an element that is not a dict,
    or a dict without one of the keys required of its collection. *)
Lemma load_task_none (x : item task_doc) :
  load_task x = None <-> invalid_record has_required_task_fields x.
Proof.
  destruct x as [| d]; simpl; [tauto |].
  symmetry. apply load_task_rejects.
Qed.

Lemma load_log_none (x : item log_doc) :
  load_log x = None <-> invalid_record has_required_log_fields x.
Proof.
  destruct x as [| [i s en du]]; simpl; [tauto |].
  unfold has_required_log_fields; simpl.
  destruct i, s, du; split; intros H;
    try reflexivity; try discriminate;
    try (intros (H1 & H2 & H3); congruence);
    try (exfalso; apply H; repeat split; discriminate).
Qed.

Lemma load_reminder_none (x : item reminder_doc) :
  load_reminder x = None <-> invalid_record has_required_reminder_fields x.
Proof.
  destruct x as [| [i n h c en sn so rel nfa]]; simpl; [tauto |].
  unfold has_required_reminder_fields; simpl.
  destruct i, n, h; split; intros H;
    try reflexivity; try discriminate;
    try (intros (H1 & H2 & H3); congruence);
    try (exfalso; apply H; repeat split; discriminate).
Qed.

Lemma keep_valid_keep {A B : Type} (load : A -> option B) (pre post : list A)
    (x : A) (b : B) :
  load x = Some b ->
  keep_valid load (pre ++ x :: post) = keep_valid load pre ++ b :: keep_valid load post.
Proof.
  intros H. rewrite keep_valid_app. simpl. rewrite H. reflexivity.
Qed.

(** C8.  A document whose [tasks] holds two records with the four
    required keys and one record without [units], in any order, loads as
    a registry of exactly the two tasks, next to the time logs, reminders
    and timer of the document.  In general, each of the three loops
    (tasks, time logs, reminders) skips exactly the elements that are not
    a dict or lack a required key of their collection; such an element is
    dropped alone, the load being the load of the document without it; a
    record with the required keys is kept where it stands, with its
    values and the defaults of its optional keys; and what is kept of one
    collection does not depend on the other two. *)
Theorem load_drops_invalid_records_individually :
  (forall (st : state) (a b m : task_doc)
          (logs : option (list (item log_doc)))
          (rems : option (list (item reminder_doc)))
          (timer : option active_timer_t) (next sel : option Z)
          (l : list (item task_doc)),
      has_required_task_fields a ->
      has_required_task_fields b ->
      td_units m = None ->
      In l [[Dict a; Dict b; Dict m]; [Dict a; Dict m; Dict b]; [Dict m; Dict a; Dict b]] ->
      let st' := _apply_loaded_state st
                   (Dict (mkDocument (Some l) logs rems timer next sel)) in
      exists ta tb,
        load_task (Dict a) = Some ta
        /\ load_task (Dict b) = Some tb
        /\ tasks st' = [ta; tb]
        /\ time_logs st' = keep_valid load_log (default logs [])
        /\ reminders st' = keep_valid load_reminder (default rems [])
        /\ active_timer st' = timer)
  /\ ((forall x, load_task x = None <-> invalid_record has_required_task_fields x)
      /\ (forall x, load_log x = None <-> invalid_record has_required_log_fields x)
      /\ (forall x, load_reminder x = None
                    <-> invalid_record has_required_reminder_fields x))
  /\ (forall (st : state) (pre post : list (item task_doc)) (x : item task_doc)
             logs rems timer next sel,
         invalid_record has_required_task_fields x ->
         _apply_loaded_state st
           (Dict (mkDocument (Some (pre ++ x :: post)) logs rems timer next sel))
         = _apply_loaded_state st
             (Dict (mkDocument (Some (pre ++ post)) logs rems timer next sel)))
  /\ (forall (st : state) (pre post : list (item log_doc)) (x : item log_doc)
             tsks rems timer next sel,
         invalid_record has_required_log_fields x ->
         _apply_loaded_state st
           (Dict (mkDocument tsks (Some (pre ++ x :: post)) rems timer next sel))
         = _apply_loaded_state st
             (Dict (mkDocument tsks (Some (pre ++ post)) rems timer next sel)))
  /\ (forall (st : state) (pre post : list (item reminder_doc)) (x : item reminder_doc)
             tsks logs timer next sel,
         invalid_record has_required_reminder_fields x ->
         _apply_loaded_state st
           (Dict (mkDocument tsks logs (Some (pre ++ x :: post)) timer next sel))
         = _apply_loaded_state st
             (Dict (mkDocument tsks logs (Some (pre ++ post)) timer next sel)))
  /\ (forall (st : state) (pre post : list (item task_doc))
             (i : Z) (n : string) (u dn : Q) (c : option iso) (a it : option bool)
             logs rems timer next sel,
         let load ts := tasks (_apply_loaded_state st
                                 (Dict (mkDocument (Some ts) logs rems timer next sel))) in
         load (pre ++ Dict (mkTaskDoc (Some i) (Some n) (Some u) (Some dn) c a it) :: post)
         = load pre ++ mkTask i n u dn c (default a false) (default it true) :: load post)
  /\ (forall (st : state) (pre post : list (item log_doc))
             (i : Z) (s : iso) (en : option iso) (du : Z)
             tsks rems timer next sel,
         let load ls := time_logs (_apply_loaded_state st
                                     (Dict (mkDocument tsks (Some ls) rems timer next sel))) in
         load (pre ++ Dict (mkLogDoc (Some i) (Some s) en (Some du)) :: post)
         = load pre ++ mkLog i s en du :: load post)
  /\ (forall (st : state) (pre post : list (item reminder_doc))
             (i : Z) (n : string) (h : Q) (c : option iso) (en : option bool)
             (sn : option iso) (so rel : option bool) (nfa : option iso)
             tsks logs timer next sel,
         let load rs := reminders (_apply_loaded_state st
                                     (Dict (mkDocument tsks logs (Some rs) timer next sel))) in
         load (pre ++ Dict (mkReminderDoc (Some i) (Some n) (Some h) c en sn so rel nfa)
                      :: post)
         = load pre
           ++ mkReminder i n h c (default en true) sn (default so false)
                         (default rel false) nfa
              :: load post)
  /\ (forall (st st' : state) tsks tsks' logs logs' rems rems'
             timer timer' next next' sel sel',
         tasks (_apply_loaded_state st (Dict (mkDocument tsks logs rems timer next sel)))
         = tasks (_apply_loaded_state st'
                    (Dict (mkDocument tsks logs' rems' timer' next' sel')))
         /\ time_logs (_apply_loaded_state st
                         (Dict (mkDocument tsks logs rems timer next sel)))
            = time_logs (_apply_loaded_state st'
                           (Dict (mkDocument tsks' logs rems' timer' next' sel')))
         /\ reminders (_apply_loaded_state st
                         (Dict (mkDocument tsks logs rems timer next sel)))
            = reminders (_apply_loaded_state st'
                           (Dict (mkDocument tsks' logs' rems timer' next' sel')))).
Proof.
  split; [| split; [| split; [| split; [| split; [| split; [| split; [| split]]]]]]].
  - intros st a b m logs rems timer next sel l Ha Hb Hm Hl st'.
    apply load_task_accepts in Ha, Hb.
    assert (Hbad : load_task (Dict m) = None).
    { apply load_task_rejects. intros (_ & _ & H & _). exact (H Hm). }
    eexists _, _. split; [exact Ha |]. split; [exact Hb |].
    unfold st', _apply_loaded_state. cbn [tasks time_logs reminders active_timer].
    split; [| repeat split].
    simpl in Hl. destruct Hl as [<- | [<- | [<- | []]]];
      cbn [default keep_valid doc_tasks]; rewrite Ha, Hb, Hbad; reflexivity.
  - split; [exact load_task_none |]. split; [exact load_log_none |].
    exact load_reminder_none.
  - intros st pre post x logs rems timer next sel Hx.
    apply load_task_none in Hx.
    unfold _apply_loaded_state. cbn [doc_tasks default].
    rewrite (keep_valid_drop load_task pre post x Hx). reflexivity.
  - intros st pre post x tsks rems timer next sel Hx.
    apply load_log_none in Hx.
    unfold _apply_loaded_state. cbn [doc_time_logs default].
    rewrite (keep_valid_drop load_log pre post x Hx). reflexivity.
  - intros st pre post x tsks logs timer next sel Hx.
    apply load_reminder_none in Hx.
    unfold _apply_loaded_state. cbn [doc_reminders default].
    rewrite (keep_valid_drop load_reminder pre post x Hx). reflexivity.
  - intros. unfold load, _apply_loaded_state. cbn [tasks doc_tasks default].
    apply keep_valid_keep. reflexivity.
  - intros. unfold load, _apply_loaded_state. cbn [time_logs doc_time_logs default].
    apply keep_valid_keep. reflexivity.
  - intros. unfold load, _apply_loaded_state. cbn [reminders doc_reminders default].
    apply keep_valid_keep. reflexivity.
  - intros. repeat split.
Qed.

(** C9.  The load keeps a task record exactly when its four required
    keys are present, and then keeps its values as they are, wherever the
    record stands in the collection: a record with [done] above [units],
    or with a negative [done], is loaded with those values, outside
    [0 <= done <= units]. *)
Theorem load_checks_presence_only :
  (forall d : task_doc, has_required_task_fields d <-> load_task (Dict d) <> None)
  /\ (forall (st : state) (i : Z) (n : string) (u dn : Q) (c : option iso)
             (a it : option bool) (pre post : list (item task_doc))
             logs rems timer next sel,
         In (mkTask i n u dn c (default a false) (default it true))
            (tasks (_apply_loaded_state st
                      (Dict (mkDocument
                               (Some (pre ++ Dict (mkTaskDoc (Some i) (Some n) (Some u)
                                                             (Some dn) c a it) :: post))
                               logs rems timer next sel)))))
  /\ (forall st : state,
         tasks (_apply_loaded_state st
                  (Dict (mkDocument (Some [Dict overdone_doc; Dict negative_doc])
                                    None None None None None)))
         = [mkTask 1 "report" 3 5 None false true;
            mkTask 2 "review" 3 (-1) None false true])
  /\ ~ task_in_range (mkTask 1 "report" 3 5 None false true)
  /\ ~ task_in_range (mkTask 2 "review" 3 (-1) None false true).
Proof.
  split; [| split; [| split; [| split]]].
  - intros d. split.
    + intros H. apply load_task_accepts in H. rewrite H. discriminate.
    + intros H. destruct (load_task (Dict d)) eqn:E; [| contradiction].
      unfold has_required_task_fields. destruct d as [i n u dn c a it]; simpl in *.
      destruct i, n, u, dn; try discriminate. repeat split; discriminate.
  - intros. unfold _apply_loaded_state. cbn [tasks doc_tasks default].
    rewrite keep_valid_app. apply in_or_app. right. simpl. left. reflexivity.
  - intros st. reflexivity.
  - unfold task_in_range. simpl. intros [_ H]. revert H. apply Qlt_not_le. reflexivity.
  - unfold task_in_range. simpl. intros [H _]. revert H. apply Qlt_not_le. reflexivity.
Qed.

(** ** Reminder ids *)

Lemma max_reminder_id_ge (rs : list reminder) :
  Forall (fun r => r_id r <= max_reminder_id rs) rs.
Proof.
  destruct rs as [| r rest]; [constructor |].
  unfold max_reminder_id.
  destruct (fold_max_ge (map r_id rest) (r_id r)) as [H1 H2].
  constructor; [exact H1 |]. rewrite Forall_map in H2. exact H2.
Qed.

Lemma add_reminder_appends (st : state) (name : string) (hours : Q)
    (rel : bool) (now : Z) :
  name <> EmptyString ->
  exists r,
    reminders (add_reminder st name (Some hours) rel now) = reminders st ++ [r]
    /\ r_id r = max_reminder_id (reminders st) + 1
    /\ r_name r = name.
Proof.
  intros Hname. unfold add_reminder.
  destruct (String.eqb_spec name EmptyString); [contradiction |].
  eexists. split; [reflexivity |]. split; reflexivity.
Qed.

Lemma last_reminder_id_app (st : state) (rs : list reminder) (r : reminder) :
  reminders st = rs ++ [r] -> last_reminder_id st = Some (r_id r).
Proof.
  intros H. unfold last_reminder_id. rewrite H, rev_unit. reflexivity.
Qed.

Lemma filter_keeps_all {A : Type} (f : A -> bool) (l : list A) :
  Forall (fun x => f x = true) l -> filter f l = l.
Proof.
  induction 1 as [| x l Hx _ IH]; simpl; [reflexivity |].
  rewrite Hx, IH. reflexivity.
Qed.

Lemma del_last_added (rs : list reminder) (r : reminder) :
  r_id r = max_reminder_id rs + 1 ->
  filter (fun x => negb (r_id x =? r_id r)) (rs ++ [r]) = rs.
Proof.
  intros Hr. rewrite filter_app. simpl. rewrite Z.eqb_refl. simpl.
  rewrite app_nil_r. apply filter_keeps_all.
  eapply Forall_impl; [| apply max_reminder_id_ge]. simpl. intros x Hx.
  apply negb_true_iff, Z.eqb_neq. lia.
Qed.

(** C10 (as amended).  [add_reminder] gives the new reminder the highest
    id present (0 if there is none) plus 1.  So ids that coexist stay
    distinct, and an id can come back: after deleting the reminder with
    id [rid], the next reminder added gets the highest remaining id plus
    1, which is [rid] again exactly when the highest remaining id (0 if
    none) is [rid - 1]; in particular a reminder that is added and then
    deleted passes its id on to the next one added. *)
Theorem reminder_ids_are_max_plus_one
    (st : state) (name : string) (hours : Q) (rel : bool) (now : Z) :
  name <> EmptyString ->
  (exists r,
      reminders (add_reminder st name (Some hours) rel now) = reminders st ++ [r]
      /\ r_id r = max_reminder_id (reminders st) + 1
      /\ (reminders st = [] -> r_id r = 1)
      /\ Forall (fun x => r_id x < r_id r) (reminders st)
      /\ (NoDup (map r_id (reminders st)) ->
          NoDup (map r_id (reminders (add_reminder st name (Some hours) rel now))))
      /\ last_reminder_id
           (add_reminder
              (del_reminder (add_reminder st name (Some hours) rel now) (r_id r))
              name (Some hours) rel now)
         = Some (r_id r))
  /\ (forall rid : Z,
        last_reminder_id (add_reminder (del_reminder st rid) name (Some hours) rel now)
        = Some (max_reminder_id (reminders (del_reminder st rid)) + 1)
        /\ (last_reminder_id
              (add_reminder (del_reminder st rid) name (Some hours) rel now)
            = Some rid
            <-> max_reminder_id (reminders (del_reminder st rid)) = rid - 1)).
Proof.
  intros Hname. split.
  - destruct (add_reminder_appends st name hours rel now Hname) as (r & Hr & Hid & _).
    exists r. split; [exact Hr |]. split; [exact Hid |].
    assert (Hlt : Forall (fun x => r_id x < r_id r) (reminders st)).
    { pose proof (max_reminder_id_ge (reminders st)) as Hge.
      eapply Forall_impl; [| exact Hge]. simpl. intros; lia. }
    split; [| split; [exact Hlt | split]].
    + intros He. rewrite Hid, He. reflexivity.
    + intros Hnd. rewrite Hr, map_app. simpl.
      apply NoDup_app; [exact Hnd | repeat constructor; intros [] |].
      intros i Hi [<- | []]. rewrite in_map_iff in Hi.
      destruct Hi as (x & Hx & Hin). rewrite Forall_forall in Hlt.
      specialize (Hlt x Hin). lia.
    + set (st1 := add_reminder st name (Some hours) rel now) in *.
      destruct (add_reminder_appends (del_reminder st1 (r_id r)) name hours rel now Hname)
        as (r' & Hr' & Hid' & _).
      rewrite (last_reminder_id_app _ _ _ Hr'). rewrite Hid'.
      cbn [del_reminder reminders]. rewrite Hr, (del_last_added _ _ Hid).
      rewrite Hid. reflexivity.
  - intros rid.
    destruct (add_reminder_appends (del_reminder st rid) name hours rel now Hname)
      as (r' & Hr' & Hid' & _).
    rewrite (last_reminder_id_app _ _ _ Hr'), Hid'. split; [reflexivity |].
    split; intros H.
    + injection H as H. cbn [del_reminder reminders]. lia.
    + rewrite H. f_equal. lia.
Qed.

(** C10 (the claim as stated fails).  With the reminders 1 and 5 present,
    deleting the highest, 5, and adding a reminder gives the new one the
    id 2, not 5. *)
Lemma highest_id_need_not_come_back :
  map r_id (reminders gap_reminders_state) = [1; 5]
  /\ map r_id (reminders (del_reminder gap_reminders_state 5)) = [1]
  /\ last_reminder_id
       (add_reminder (del_reminder gap_reminders_state 5) "tea" (Some (1 # 4)) true 0)
     = Some 2
  /\ ~ highest_id_comes_back.
Proof.
  split; [reflexivity |]. split; [reflexivity |]. split; [reflexivity |].
  intros H.
  specialize (H gap_reminders_state 5 "tea"%string (1 # 4) true 0).
  assert (Hn : "tea"%string <> EmptyString) by discriminate.
  assert (Hin : In 5 (map r_id (reminders gap_reminders_state)))
    by (simpl; auto).
  assert (Hmax : Forall (fun r => r_id r <= 5) (reminders gap_reminders_state))
    by (repeat constructor; simpl; lia).
  specialize (H Hn Hin Hmax). discriminate H.
Qed.

(** ** Instances *)

(** A timer started at 00:00:00 ticks at 00:10:00, then the host sleeps
    and the next tick comes 7200 s later, at 02:10:00: the label goes from
    600 s to 3600 s and the start moves to 01:10:00. *)
Lemma tick_idle_gap_capped_witness :
  tick overnight_timer (timedelta_seconds 600)
    = (after_first_tick, Some (timedelta_seconds 600))
  /\ timedelta_seconds 7800 - timedelta_seconds 600 = timedelta_seconds 7200
  /\ exists st2 tm2 e2,
       tick after_first_tick (timedelta_seconds 7800) = (st2, Some e2)
       /\ e2 <= timedelta_seconds 600 + timedelta_seconds 3600
       /\ active_timer st2 = Some tm2
       /\ at_start_time tm2
          = Some (isoformat (timedelta_seconds 7800 - timedelta_seconds 3600))
       /\ 0 < timedelta_seconds 7800 - timedelta_seconds 3600
       /\ at_elapsed tm2 = at_elapsed (mkTimer (Some 1) (Some (IsoOk 0)) (Some 0))
       /\ sent st2
          = sent after_first_tick
            ++ [GapTrimmed ((timedelta_seconds 7800 - timedelta_seconds 600)
                            / (60 * second))]
       /\ (forall t, live_elapsed tm2 t = e2 + (t - timedelta_seconds 7800))
       /\ (forall t,
             live_elapsed tm2 t
             = live_elapsed (mkTimer (Some 1) (Some (IsoOk 0)) (Some 0)) t
               - (timedelta_seconds 7800 - timedelta_seconds 3600 - 0)).
Proof.
  split; [reflexivity |]. split; [reflexivity |].
  apply (tick_idle_gap_capped overnight_timer after_first_tick
           (mkTimer (Some 1) (Some (IsoOk 0)) (Some 0))
           0 (timedelta_seconds 600) (timedelta_seconds 7800) (timedelta_seconds 600)).
  - reflexivity.
  - reflexivity.
  - reflexivity.
  - vm_compute. discriminate.
  - reflexivity.
Defined.

(** Three increments and a decrement on a finished task. *)
Lemma progress_stays_in_range_witness :
  nth_error (tasks finished_task_state) 0
    = Some (mkTask 1 "report" 2 2 (Some (IsoOk 0)) false true)
  /\ task_in_range (mkTask 1 "report" 2 2 (Some (IsoOk 0)) false true)
  /\ exists t',
       nth_error (tasks (run_progress finished_task_state [Inc 1; Inc 1; Inc 1; Dec 1])) 0
         = Some t'
       /\ t_id t' = 1
       /\ t_name t' = "report"%string
       /\ t_units t' = 2%Q
       /\ task_in_range t'.
Proof.
  assert (Hr : task_in_range (mkTask 1 "report" 2 2 (Some (IsoOk 0)) false true)).
  { unfold task_in_range, Qle. simpl. lia. }
  split; [reflexivity |]. split; [exact Hr |].
  apply (proj1 progress_stays_in_range [Inc 1; Inc 1; Inc 1; Dec 1]
           finished_task_state 0%nat
           (mkTask 1 "report" 2 2 (Some (IsoOk 0)) false true)).
  - reflexivity.
  - exact Hr.
Defined.

(** A quarter-hour reminder added at the reference midnight, and a
    restart five minutes later. *)
Lemma relative_reminder_fire_time_stable_witness :
  "tea"%string <> EmptyString
  /\ timedelta_minutes 5 < 0 + timedelta_minutes 15
  /\ exists (r : reminder) (rs : list reminder),
       reminders (add_reminder initial_state "tea" (Some (1 # 4)) true 0)
         = reminders initial_state ++ [r]
       /\ r_name r = "tea"%string
       /\ r_is_relative r = true
       /\ r_time_hours r = 1 # 4
       /\ r_next_fire_at r = Some (isoformat (0 + timedelta_minutes 15))
       /\ saved_reminders
            (save_state (add_reminder initial_state "tea" (Some (1 # 4)) true 0))
          = map save_reminder (reminders initial_state) ++ [save_reminder r]
       /\ (exists d, save_reminder r = Dict d
                     /\ rd_next_fire_at d = Some (isoformat (0 + timedelta_minutes 15)))
       /\ reminders
            (__init__ (Some (save_state
                           (add_reminder initial_state "tea" (Some (1 # 4)) true 0)))
                  (timedelta_minutes 5))
          = rs ++ [r]
       /\ List.length rs = List.length (reminders initial_state).
Proof.
  assert (Hn : "tea"%string <> EmptyString) by discriminate.
  assert (Hlt : timedelta_minutes 5 < 0 + timedelta_minutes 15) by reflexivity.
  split; [exact Hn |]. split; [exact Hlt |].
  exact (relative_reminder_fire_time_stable initial_state "tea" 0
           (timedelta_minutes 5) Hn Hlt).
Defined.

(** Two good task records around one without [units]. *)
Lemma load_drops_invalid_records_individually_witness :
  has_required_task_fields overdone_doc
  /\ has_required_task_fields negative_doc
  /\ td_units (mkTaskDoc (Some 3) (Some "notes"%string) None (Some 0%Q) None None None)
     = None
  /\ tasks (_apply_loaded_state initial_state
              (Dict (mkDocument
                       (Some [Dict overdone_doc;
                              Dict (mkTaskDoc (Some 3) (Some "notes"%string) None
                                              (Some 0%Q) None None None);
                              Dict negative_doc])
                       None None None (Some 4) None)))
     = [mkTask 1 "report" 3 5 None false true;
        mkTask 2 "review" 3 (-1) None false true].
Proof.
  assert (Ha : has_required_task_fields overdone_doc)
    by (repeat split; discriminate).
  assert (Hb : has_required_task_fields negative_doc)
    by (repeat split; discriminate).
  split; [exact Ha |]. split; [exact Hb |]. split; [reflexivity |].
  destruct (proj1 load_drops_invalid_records_individually initial_state
              overdone_doc negative_doc
              (mkTaskDoc (Some 3) (Some "notes"%string) None (Some 0%Q) None None None)
              None None None (Some 4) None
              [Dict overdone_doc;
               Dict (mkTaskDoc (Some 3) (Some "notes"%string) None (Some 0%Q)
                               None None None);
               Dict negative_doc]
              Ha Hb eq_refl (or_intror (or_introl eq_refl)))
    as (ta & tb & Hta & Htb & Htasks & _).
  rewrite Htasks. simpl in Hta, Htb.
  injection Hta as <-. injection Htb as <-. reflexivity.
Defined.

(** A first reminder, deleted, and the next one added. *)
Lemma reminder_ids_are_max_plus_one_witness :
  "tea"%string <> EmptyString
  /\ last_reminder_id (add_reminder initial_state "tea" (Some (1 # 4)) true 0) = Some 1
  /\ last_reminder_id
       (add_reminder
          (del_reminder (add_reminder initial_state "tea" (Some (1 # 4)) true 0) 1)
          "tea" (Some (1 # 4)) true 0)
     = Some 1.
Proof.
  assert (Hn : "tea"%string <> EmptyString) by discriminate.
  split; [exact Hn |].
  destruct (proj1 (reminder_ids_are_max_plus_one initial_state "tea" (1 # 4) true 0 Hn))
    as (r & Hr & Hid & _ & _ & _ & Hback).
  simpl in Hid. split.
  - rewrite (last_reminder_id_app _ _ _ Hr), Hid. reflexivity.
  - rewrite Hid in Hback. exact Hback.
Defined.

(** * Further properties *)

(** ** What each handler leaves alone *)

Lemma logs_update_timer_combo (st : state) :
  time_logs (update_timer_combo st) = time_logs st
  /\ active_timer (update_timer_combo st) = active_timer st.
Proof.
  unfold update_timer_combo.
  match goal with
  | |- context [if ?found then _ else _] => destruct found
  end; [auto |].
  destruct (tasks st); split; reflexivity.
Qed.

Lemma logs_tick (st : state) (now : Z) :
  time_logs (fst (tick st now)) = time_logs st.
Proof. unfold tick. frame. Qed.

Lemma logs_start_timer (st : state) (idx now : Z) :
  time_logs (start_timer st idx now) = time_logs st.
Proof.
  unfold start_timer.
  destruct ((idx <? 0) || (Z.of_nat (List.length (tasks st)) <=? idx)); [auto |].
  destruct (nth_error (tasks st) (Z.to_nat idx)); [| auto].
  unfold start_timer_loop. rewrite logs_tick. reflexivity.
Qed.

Lemma logs_ensure_active_task_valid (st : state) :
  time_logs (_ensure_active_task_valid st) = time_logs st.
Proof. unfold _ensure_active_task_valid. frame. Qed.

Lemma logs_add_reminder (st : state) (name : string) (hours : option Q)
    (rel : bool) (now : Z) :
  time_logs (add_reminder st name hours rel now) = time_logs st
  /\ active_timer (add_reminder st name hours rel now) = active_timer st.
Proof. unfold add_reminder. split; frame. Qed.

Lemma logs_inc_task (st : state) (tid : Z) :
  time_logs (inc_task st tid) = time_logs st
  /\ active_timer (inc_task st tid) = active_timer st.
Proof. unfold inc_task. destruct (inc_loop tid (tasks st)). auto. Qed.

Lemma logs_add_task (st : state) (name : string) (units : option Q) (now : Z) :
  time_logs (add_task st name units now) = time_logs st
  /\ active_timer (add_task st name units now) = active_timer st.
Proof.
  unfold add_task. destruct (String.eqb name EmptyString); [auto |].
  match goal with
  | |- context [update_timer_combo ?s] =>
      destruct (logs_update_timer_combo s) as [-> ->]
  end.
  auto.
Qed.

Lemma logs_pause_timer (st st' : state) (now : Z) :
  pause_timer st now = Some st' ->
  tasks st' = tasks st /\ time_logs st' = time_logs st.
Proof.
  unfold pause_timer. intros H.
  repeat match type of H with
         | context [match ?x with _ => _ end] => destruct x
         end;
    inversion H; subst; auto.
Qed.

(** ** The state file *)

Lemma fold_max_in (l : list Z) (a : Z) :
  fold_left Z.max l a = a \/ In (fold_left Z.max l a) l.
Proof.
  revert a. induction l as [| x l IH]; intros a; simpl; [left; reflexivity |].
  destruct (IH (Z.max a x)) as [H | H].
  - rewrite H. destruct (Z.max_spec a x) as [[_ ->] | [_ ->]]; auto.
  - right. right. exact H.
Qed.

Lemma apply_loaded_saved (st0 st : state) :
  let st' := _apply_loaded_state st0 (save_state st) in
  tasks st' = tasks st
  /\ time_logs st' = time_logs st
  /\ reminders st' = reminders st
  /\ active_timer st' = active_timer st
  /\ selected_task_id st' = selected_task_id st.
Proof.
  simpl.
  rewrite (keep_valid_saved load_task save_task (tasks st) load_save_task).
  rewrite (keep_valid_saved load_log save_log (time_logs st) load_save_log).
  rewrite (keep_valid_saved load_reminder save_reminder (reminders st) load_save_reminder).
  auto.
Qed.

(** Dumping a state and loading the dump gives back the tasks, the time
    logs, the reminders, the timer and the selection; the counter comes
    back unchanged when every task id is below it, and is raised above
    the ids otherwise.  What is not dumped ([is_timer_running],
    [last_tick_time]) stays as it was before the load. *)
Theorem save_load_round_trip (st0 st : state) :
  let st' := _apply_loaded_state st0 (save_state st) in
  tasks st' = tasks st
  /\ time_logs st' = time_logs st
  /\ reminders st' = reminders st
  /\ active_timer st' = active_timer st
  /\ selected_task_id st' = selected_task_id st
  /\ next_task_id st <= next_task_id st'
  /\ ids_below_next st'
  /\ (ids_below_next st -> next_task_id st' = next_task_id st)
  /\ is_timer_running st' = is_timer_running st0
  /\ last_tick_time st' = last_tick_time st0.
Proof.
  intros st'.
  assert (Ht : tasks st' = tasks st).
  { unfold st'. simpl. apply keep_valid_saved, load_save_task. }
  assert (Hn : next_task_id st'
               = match tasks st with
                 | t :: rest => Z.max (next_task_id st) (max_task_id t rest + 1)
                 | [] => next_task_id st
                 end).
  { unfold st'. simpl.
    rewrite (keep_valid_saved load_task save_task (tasks st) load_save_task).
    reflexivity. }
  split; [exact Ht |].
  split; [unfold st'; simpl; apply keep_valid_saved, load_save_log |].
  split; [unfold st'; simpl; apply keep_valid_saved, load_save_reminder |].
  split; [reflexivity |]. split; [reflexivity |].
  split; [rewrite Hn; destruct (tasks st); lia |].
  split.
  { unfold ids_below_next. rewrite Ht, Hn.
    destruct (tasks st) as [| t rest]; [constructor |].
    eapply Forall_impl; [| apply (max_task_id_ge t rest)]. simpl. intros; lia. }
  split; [| split; reflexivity].
  intros Hb. rewrite Hn. unfold ids_below_next in Hb.
  destruct (tasks st) as [| t rest]; [reflexivity |].
  rewrite Forall_forall in Hb. unfold max_task_id.
  destruct (fold_max_in (map t_id rest) (t_id t)) as [-> | Hin].
  - specialize (Hb t (or_introl eq_refl)). lia.
  - rewrite in_map_iff in Hin. destruct Hin as (x & <- & Hx).
    specialize (Hb x (or_intror Hx)). lia.
Qed.

Lemma logs_init (file : option (item document)) (now : Z) :
  time_logs (__init__ file now) = time_logs (load_state initial_state file).
Proof.
  unfold __init__.
  set (st1 := load_state initial_state file).
  set (st2 := update_timer_combo (_ensure_active_task_valid st1)).
  assert (H2 : time_logs st2 = time_logs st1).
  { unfold st2.
    destruct (logs_update_timer_combo (_ensure_active_task_valid st1)) as [-> _].
    apply logs_ensure_active_task_valid. }
  clearbody st2.
  destruct (active_timer (schedule_all_reminders st2 now)) as [tm |]; [| exact H2].
  destruct (at_start_time tm); [| exact H2].
  unfold start_timer_loop. rewrite logs_tick. exact H2.
Qed.

(** ** The time log is append-only *)

Lemma is_prefix_refl {A : Type} (l : list A) : is_prefix l l.
Proof. exists []. symmetry. apply app_nil_r. Qed.

Lemma is_prefix_trans {A : Type} (l1 l2 l3 : list A) :
  is_prefix l1 l2 -> is_prefix l2 l3 -> is_prefix l1 l3.
Proof.
  intros [r1 ->] [r2 ->]. exists (r1 ++ r2). symmetry. apply app_assoc.
Qed.

Lemma is_prefix_eq {A : Type} (l1 l2 : list A) : l2 = l1 -> is_prefix l1 l2.
Proof. intros ->. apply is_prefix_refl. Qed.

Lemma logs_step (st : state) (c : command) :
  is_prefix (time_logs st) (time_logs (step st c)).
Proof.
  destruct c; simpl.
  - apply is_prefix_eq, logs_add_task.
  - apply is_prefix_eq, logs_inc_task.
  - apply is_prefix_refl.
  - unfold del_task.
    match goal with
    | |- context [update_timer_combo ?s] =>
        destruct (logs_update_timer_combo s) as [-> _]
    end.
    cbn [time_logs]. destruct (timer_on_task st tid); cbn [time_logs].
    + exists (appended_by_stop st now). apply stop_timer_appends.
    + apply is_prefix_refl.
  - apply is_prefix_eq, logs_start_timer.
  - exists (appended_by_stop st now). apply stop_timer_appends.
  - apply is_prefix_eq, logs_tick.
  - apply is_prefix_eq, logs_add_reminder.
  - apply is_prefix_refl.
  - apply is_prefix_eq. rewrite logs_init. simpl.
    apply keep_valid_saved, load_save_log.
Qed.

Lemma logs_perform (st : state) (a : action) :
  is_prefix (time_logs st) (time_logs (perform st a)).
Proof.
  destruct a; simpl.
  - apply logs_step.
  - destruct (pause_timer st now) as [st' |] eqn:E; [| apply is_prefix_refl].
    apply is_prefix_eq. apply (logs_pause_timer _ _ _ E).
  - unfold on_play_clicked. destruct (is_timer_running st).
    + destruct (pause_timer st now) as [st' |] eqn:E; [| apply is_prefix_refl].
      apply is_prefix_eq. apply (logs_pause_timer _ _ _ E).
    + apply is_prefix_eq, logs_start_timer.
  - apply is_prefix_refl.
  - apply is_prefix_refl.
  - apply is_prefix_refl.
Qed.

(** No handler removes or rewrites an entry of the time log: whatever is
    done, deletions of tasks and restarts on the dumped state included,
    the log grows at its end only. *)
Theorem time_log_is_append_only (st : state) (acts : list action) :
  is_prefix (time_logs st) (time_logs (perform_all st acts)).
Proof.
  revert st. induction acts as [| a acts IH]; intros st.
  - apply is_prefix_refl.
  - apply (is_prefix_trans _ (time_logs (perform st a))).
    + apply logs_perform.
    + apply IH.
Qed.

(** ** The timer names an existing task *)

Lemma timer_task_exists_same (st st' : state) :
  tasks st' = tasks st -> active_timer st' = active_timer st ->
  timer_task_exists st -> timer_task_exists st'.
Proof. unfold timer_task_exists. intros -> ->. auto. Qed.

Lemma existsb_ids (ts ts' : list task) (tid : Z) :
  map t_id ts' = map t_id ts ->
  existsb (fun t => t_id t =? tid) ts' = existsb (fun t => t_id t =? tid) ts.
Proof.
  revert ts'. induction ts as [| a ts IH]; intros [| b ts'] H; try discriminate.
  - reflexivity.
  - simpl in *. injection H as Hb Hm. rewrite Hb, (IH _ Hm). reflexivity.
Qed.

Lemma timer_task_exists_ids (st st' : state) :
  map t_id (tasks st') = map t_id (tasks st) ->
  active_timer st' = active_timer st ->
  timer_task_exists st -> timer_task_exists st'.
Proof.
  unfold timer_task_exists. intros Hm ->.
  destruct (active_timer st) as [tm |]; [| auto].
  intros (tid & Ht & He). exists tid. split; [exact Ht |].
  rewrite (existsb_ids _ _ tid Hm). exact He.
Qed.

Lemma timer_tick (st : state) (now : Z) :
  match active_timer st with
  | Some tm =>
      exists tm', active_timer (fst (tick st now)) = Some tm'
                  /\ at_task_id tm' = at_task_id tm
  | None => active_timer (fst (tick st now)) = None
  end.
Proof.
  unfold tick. destruct (active_timer st) as [tm |] eqn:Ha; [| simpl; exact Ha].
  destruct (last_tick_time st) as [last |]; [| eexists; split; reflexivity].
  destruct (idle_cap <? now - last); [| eexists; split; reflexivity].
  destruct (at_start_time tm); eexists; split; reflexivity.
Qed.

Lemma timer_task_exists_tick (st : state) (now : Z) :
  timer_task_exists st -> timer_task_exists (fst (tick st now)).
Proof.
  unfold timer_task_exists. pose proof (timer_tick st now) as H.
  destruct (frame_tick st now) as [Ht _]. rewrite Ht.
  destruct (active_timer st) as [tm |].
  - destruct H as (tm' & -> & Hid). rewrite Hid. auto.
  - rewrite H. auto.
Qed.

Lemma timer_stop_timer (st : state) (now : Z) :
  timer_task_exists st -> active_timer (stop_timer st now) = None.
Proof.
  unfold timer_task_exists, stop_timer.
  destruct (active_timer st) as [tm |]; [| reflexivity].
  intros (tid & -> & _).
  destruct (session tm now) as [S el].
  destruct (timedelta_seconds 1 <? Z.min el max_session_sec); [| reflexivity].
  destruct (split_days _ _ _ _ _) as [[logs c] r].
  destruct (0 <? r); reflexivity.
Qed.

Lemma timer_task_exists_ensure (st : state) :
  timer_task_exists (_ensure_active_task_valid st).
Proof.
  unfold _ensure_active_task_valid, timer_task_exists.
  destruct (active_timer st) as [tm |] eqn:Ha; [| rewrite Ha; exact I].
  destruct (at_task_id tm) as [tid |] eqn:Hid; [| exact I].
  destruct (existsb (fun t => t_id t =? tid) (tasks st)) eqn:He; simpl; [| exact I].
  rewrite Ha. exists tid. auto.
Qed.

Lemma timer_task_exists_init (file : option (item document)) (now : Z) :
  timer_task_exists (__init__ file now).
Proof.
  unfold __init__.
  set (st1 := load_state initial_state file).
  set (st2 := update_timer_combo (_ensure_active_task_valid st1)).
  assert (H2 : timer_task_exists st2).
  { unfold st2. apply (timer_task_exists_same (_ensure_active_task_valid st1)).
    - apply frame_update_timer_combo.
    - apply logs_update_timer_combo.
    - apply timer_task_exists_ensure. }
  clearbody st2.
  assert (H3 : timer_task_exists (schedule_all_reminders st2 now)) by exact H2.
  destruct (active_timer (schedule_all_reminders st2 now)) as [tm |] eqn:Ha;
    [| exact H3].
  destruct (at_start_time tm); [| exact H3].
  unfold start_timer_loop. apply timer_task_exists_tick.
  unfold timer_task_exists in *. simpl in *. rewrite Ha in *. exact H3.
Qed.

Lemma existsb_filter_other (ts : list task) (tid p : Z) :
  p <> tid ->
  existsb (fun t => t_id t =? p) (filter (fun t => negb (t_id t =? tid)) ts)
  = existsb (fun t => t_id t =? p) ts.
Proof.
  intros Hne. induction ts as [| a ts IH]; simpl; [reflexivity |].
  destruct (t_id a =? tid) eqn:E; simpl.
  - apply Z.eqb_eq in E.
    replace (t_id a =? p) with false by (symmetry; apply Z.eqb_neq; lia).
    exact IH.
  - rewrite IH. reflexivity.
Qed.

Lemma timer_task_exists_step (st : state) (c : command) :
  timer_task_exists st -> timer_task_exists (step st c).
Proof.
  intros H. destruct c; simpl.
  - (* add_task *)
    unfold add_task. destruct (String.eqb name EmptyString); [exact H |].
    match goal with
    | |- timer_task_exists (update_timer_combo ?s) =>
        apply (timer_task_exists_same s);
          [apply frame_update_timer_combo | apply logs_update_timer_combo |]
    end.
    unfold timer_task_exists in *. simpl.
    destruct (active_timer st) as [tm |]; [| exact I].
    destruct H as (tid & Ht & He). exists tid. split; [exact Ht |].
    rewrite existsb_app, He. reflexivity.
  - apply (timer_task_exists_ids st); [| apply logs_inc_task | exact H].
    rewrite tasks_inc_task. apply map_id_inc_loop.
  - apply (timer_task_exists_ids st); [apply map_id_dec_loop | reflexivity | exact H].
  - (* del_task *)
    unfold del_task.
    match goal with
    | |- timer_task_exists (update_timer_combo ?s) =>
        apply (timer_task_exists_same s);
          [apply frame_update_timer_combo | apply logs_update_timer_combo |]
    end.
    destruct (timer_on_task st tid) eqn:Hon.
    + unfold timer_task_exists. simpl. rewrite (timer_stop_timer st now H). exact I.
    + unfold timer_task_exists, timer_on_task in *. simpl.
      destruct (active_timer st) as [tm |]; [| exact I].
      destruct H as (p & Hp & He). rewrite Hp in Hon.
      exists p. split; [exact Hp |].
      rewrite existsb_filter_other; [exact He |].
      apply Z.eqb_neq. exact Hon.
  - (* start_timer *)
    unfold start_timer.
    destruct ((idx <? 0) || (Z.of_nat (List.length (tasks st)) <=? idx)); [exact H |].
    destruct (nth_error (tasks st) (Z.to_nat idx)) as [t |] eqn:Hn; [| exact H].
    unfold start_timer_loop. apply timer_task_exists_tick.
    unfold timer_task_exists. simpl.
    assert (He : existsb (fun x => t_id x =? t_id t) (tasks st) = true).
    { apply existsb_exists. exists t. split; [| apply Z.eqb_refl].
      apply (nth_error_In _ _ Hn). }
    destruct (active_timer st); exists (t_id t); auto.
  - unfold timer_task_exists. rewrite (timer_stop_timer st now H). exact I.
  - apply timer_task_exists_tick. exact H.
  - apply (timer_task_exists_same st);
      [apply frame_add_reminder | apply logs_add_reminder | exact H].
  - exact H.
  - apply timer_task_exists_init.
Qed.

Lemma timer_task_exists_pause (st st' : state) (now : Z) :
  pause_timer st now = Some st' ->
  timer_task_exists st -> timer_task_exists st'.
Proof.
  unfold pause_timer, timer_task_exists. intros H.
  destruct (active_timer st) as [tm |].
  - destruct (at_start_time tm) as [s |].
    + destruct (fromisoformat s); [| discriminate].
      destruct (at_elapsed tm); [| discriminate].
      inversion H; subst; clear H. simpl. auto.
    + inversion H; subst; clear H. simpl. auto.
  - inversion H; subst; clear H. simpl. auto.
Qed.

Lemma timer_task_exists_perform (st : state) (a : action) :
  timer_task_exists st -> timer_task_exists (perform st a).
Proof.
  intros H. destruct a; simpl.
  - apply timer_task_exists_step. exact H.
  - destruct (pause_timer st now) as [st' |] eqn:E; [| exact H].
    apply (timer_task_exists_pause _ _ _ E H).
  - unfold on_play_clicked. destruct (is_timer_running st).
    + destruct (pause_timer st now) as [st' |] eqn:E; [| exact H].
      apply (timer_task_exists_pause _ _ _ E H).
    + apply (timer_task_exists_step st (StartTimer idx now) H).
  - exact H.
  - exact H.
  - exact H.
Qed.

(** A tracker started on any state file keeps, through every handler, a
    timer that names a task of the registry (or no timer): at startup a
    timer without such a task is dropped, and [del_task] stops the timer
    of the task it deletes.  So [stop_timer] always finds the task id it
    logs under and always ends with no timer. *)
Theorem timer_always_names_a_task
    (file : option (item document)) (now : Z) (acts : list action) (stop_at : Z) :
  let st := perform_all (__init__ file now) acts in
  timer_task_exists st
  /\ active_timer (stop_timer st stop_at) = None.
Proof.
  assert (H : forall acts st, timer_task_exists st ->
                              timer_task_exists (perform_all st acts)).
  { clear acts. intros acts. induction acts as [| a acts IH]; intros st Hst.
    - exact Hst.
    - simpl. apply IH. apply timer_task_exists_perform. exact Hst. }
  intros st.
  assert (Hst : timer_task_exists st)
    by (apply H, timer_task_exists_init).
  split; [exact Hst |]. apply timer_stop_timer. exact Hst.
Qed.

(** ** Seconds per task and day *)

Lemma task_day_total_app (l1 l2 : list time_log) (tid d : Z) :
  task_day_total (l1 ++ l2) tid d
  = match task_day_total l1 tid d, task_day_total l2 tid d with
    | Some a, Some b => Some (a + b)
    | _, _ => None
    end.
Proof.
  induction l1 as [| l l1 IH]; simpl.
  - destruct (task_day_total l2 tid d); reflexivity.
  - destruct (log_task_id l =? tid); [| exact IH].
    destruct (fromisoformat (log_start l)) as [start |]; [| reflexivity].
    destruct (date start =? d); [| exact IH].
    rewrite IH.
    destruct (task_day_total l1 tid d), (task_day_total l2 tid d); simpl;
      try reflexivity.
    f_equal. lia.
Qed.

Lemma overlap_split (a m b d : Z) :
  a <= m -> m <= b -> overlap a b d = overlap a m d + overlap m b d.
Proof. unfold overlap, combine_midnight, day, second. lia. Qed.

Lemma overlap_within_day (a b d : Z) :
  a <= b -> b <= combine_midnight (date a + 1) ->
  overlap a b d = if date a =? d then b - a else 0.
Proof.
  intros Hab Hb. pose proof (date_bounds a) as Ha.
  unfold overlap. destruct (date a =? d) eqn:E.
  - apply Z.eqb_eq in E. subst d.
    unfold combine_midnight, day, second in *. lia.
  - apply Z.eqb_neq in E.
    unfold combine_midnight, day, second in *. nia.
Qed.

Lemma split_days_day_totals (tid end_dt cur rem : Z) (logs : list time_log) :
  cur <= end_dt ->
  exists new c,
    split_days tid end_dt cur rem logs = (logs ++ new, c, rem - (c - cur))
    /\ cur <= c <= end_dt
    /\ date c = date end_dt
    /\ forall d, task_day_total new tid d = Some (overlap cur c d).
Proof.
  funelim (split_days tid end_dt cur rem logs).
  - intros Hle. clear Heq Heqcall.
    set (m := combine_midnight (date cur_start + 1)) in *.
    assert (Hm : m <= end_dt).
    { pose proof (date_bounds end_dt) as Hb. unfold m, combine_midnight in *.
      pose proof day_pos. nia. }
    assert (Hcm : cur_start < m) by (pose proof (date_bounds cur_start); lia).
    destruct (H Hm) as (new & c & Heq & Hc & Hdc & Htot).
    exists (mkLog tid (isoformat cur_start) (Some (isoformat m)) (m - cur_start) :: new), c.
    split; [| split; [lia | split; [exact Hdc |]]].
    + rewrite Heq. rewrite <- app_assoc. simpl. f_equal. lia.
    + intros d. simpl. rewrite Z.eqb_refl, Htot.
      rewrite (overlap_split cur_start m c d) by lia.
      rewrite (overlap_within_day cur_start m d) by (unfold m; lia).
      destruct (date cur_start =? d); simpl; f_equal; lia.
  - intros Hle. clear Heq. exists [], cur_start.
    pose proof (date_mono _ _ Hle).
    split; [rewrite app_nil_r; f_equal; lia |].
    split; [lia |]. split; [lia |].
    intros d. simpl. f_equal. unfold overlap, combine_midnight, day, second. lia.
Qed.

(** Stopping a session of more than one second and at most 16 hours
    credits every day with the part of the session that lies on it: the
    entries appended, summed as a task row sums them for day [d], give
    the length of the overlap of the session with [d]; a session across
    midnight is shared between the two days. *)
Theorem stop_timer_credits_each_day
    (st : state) (now : Z) (tm : active_timer_t) (tid d : Z) :
  active_timer st = Some tm ->
  at_task_id tm = Some tid ->
  timedelta_seconds 1 < snd (session tm now) ->
  snd (session tm now) <= max_session_sec ->
  let start_dt := fst (session tm now) in
  let end_dt := start_dt + snd (session tm now) in
  task_day_total (appended_by_stop st now) tid d = Some (overlap start_dt end_dt d)
  /\ (forall old,
        task_day_total (time_logs st) tid d = Some old ->
        task_day_total (time_logs (stop_timer st now)) tid d
        = Some (old + overlap start_dt end_dt d)).
Proof.
  intros Htm Htid Hone Hcap start_dt end_dt. subst start_dt end_dt.
  assert (Happ : task_day_total (appended_by_stop st now) tid d
                 = Some (overlap (fst (session tm now))
                                 (fst (session tm now) + snd (session tm now)) d)).
  { unfold appended_by_stop, stop_timer. rewrite Htm, Htid.
    destruct (session tm now) as [S el]. cbn [fst snd] in *.
    replace (Z.min el max_session_sec) with el by lia.
    replace (timedelta_seconds 1 <? el) with true by (symmetry; apply Z.ltb_lt; lia).
    assert (Hpos : 0 < el) by (unfold timedelta_seconds, second in Hone; lia).
    replace (Z.max 0 el) with el by lia.
    assert (HSE : S <= S + el) by lia.
    destruct (split_days_day_totals tid (S + el) S el (time_logs st) HSE)
      as (new & c & Heq & Hc & Hdc & Htot).
    rewrite Heq.
    destruct (0 <? el - (c - S)) eqn:Hrem; cbn [time_logs].
    - apply Z.ltb_lt in Hrem.
      rewrite <- app_assoc, skipn_length_app, task_day_total_app, Htot.
      simpl. rewrite Z.eqb_refl.
      rewrite (overlap_split S c (S + el) d) by lia.
      rewrite (overlap_within_day c (S + el) d)
        by (rewrite ?Hdc; pose proof (date_bounds (S + el)); lia).
      destruct (date c =? d); simpl; f_equal; lia.
    - apply Z.ltb_ge in Hrem.
      rewrite skipn_length_app, Htot. f_equal.
      replace c with (S + el) by lia. reflexivity. }
  split; [exact Happ |].
  intros old Hold.
  rewrite stop_timer_appends, task_day_total_app, Hold, Happ. reflexivity.
Qed.

(** A session from 23:50:00 to 00:10:00: ten minutes on each day. *)
Lemma stop_timer_credits_each_day_witness :
  task_day_total
    (appended_by_stop
       (with_timer initial_state
          (mkTimer (Some 1) (Some (IsoOk (timedelta_minutes 1430))) (Some 0)))
       (timedelta_minutes 1450))
    1 0
  = Some (timedelta_minutes 10)
  /\ task_day_total
       (appended_by_stop
          (with_timer initial_state
             (mkTimer (Some 1) (Some (IsoOk (timedelta_minutes 1430))) (Some 0)))
          (timedelta_minutes 1450))
       1 1
     = Some (timedelta_minutes 10).
Proof.
  assert (H1 : timedelta_seconds 1
               < snd (session (mkTimer (Some 1) (Some (IsoOk (timedelta_minutes 1430)))
                                       (Some 0))
                              (timedelta_minutes 1450))) by reflexivity.
  assert (H2 : snd (session (mkTimer (Some 1) (Some (IsoOk (timedelta_minutes 1430)))
                                     (Some 0))
                            (timedelta_minutes 1450))
               <= max_session_sec) by (vm_compute; discriminate).
  split.
  - exact (proj1 (stop_timer_credits_each_day
                    (with_timer initial_state
                       (mkTimer (Some 1) (Some (IsoOk (timedelta_minutes 1430))) (Some 0)))
                    (timedelta_minutes 1450) _ 1 0 eq_refl eq_refl H1 H2)).
  - exact (proj1 (stop_timer_credits_each_day
                    (with_timer initial_state
                       (mkTimer (Some 1) (Some (IsoOk (timedelta_minutes 1430))) (Some 0)))
                    (timedelta_minutes 1450) _ 1 1 eq_refl eq_refl H1 H2)).
Defined.

(** ** Pause, resume and regular ticks *)

Lemma tick_no_gap (st : state) (tm : active_timer_t) (now : Z) :
  active_timer st = Some tm ->
  last_tick_time st = Some now ->
  tick st now
  = (mkState (tasks st) (time_logs st) (reminders st) (Some tm) (is_timer_running st)
             (next_task_id st) (selected_task_id st) (Some now) (sent st ++ []),
     Some (live_elapsed tm now)).
Proof.
  intros Ha Hl. unfold tick. rewrite Ha, Hl.
  replace (idle_cap <? now - now) with false
    by (symmetry; apply Z.ltb_ge; unfold idle_cap, timedelta_seconds, second; lia).
  reflexivity.
Qed.

(** Pausing a running timer freezes the elapsed time at its value of the
    moment, and resuming it counts on from there: the time between the
    pause and the resume is never counted. *)
Theorem pause_resume_excludes_paused_time
    (st : state) (tm : active_timer_t) (task0 : task) (s e t1 t2 idx : Z) :
  active_timer st = Some tm ->
  at_start_time tm = Some (IsoOk s) ->
  at_elapsed tm = Some e ->
  0 <= idx ->
  nth_error (tasks st) (Z.to_nat idx) = Some task0 ->
  exists st1 tm1 tm2,
    pause_timer st t1 = Some st1
    /\ active_timer st1 = Some tm1
    /\ is_timer_running st1 = false
    /\ (forall t, live_elapsed tm1 t = live_elapsed tm t1)
    /\ active_timer (start_timer st1 idx t2) = Some tm2
    /\ is_timer_running (start_timer st1 idx t2) = true
    /\ (forall t, live_elapsed tm2 t = live_elapsed tm t1 + (t - t2)).
Proof.
  intros Ha Hs He Hidx Hn.
  unfold pause_timer. rewrite Ha, Hs, He. simpl.
  eexists _, _, _. split; [reflexivity |]. split; [reflexivity |].
  split; [reflexivity |].
  split; [intros t; unfold live_elapsed; rewrite Hs, He; reflexivity |].
  unfold start_timer. cbn [tasks active_timer].
  assert (Hlen : (Z.to_nat idx < List.length (tasks st))%nat).
  { apply nth_error_Some. rewrite Hn. discriminate. }
  replace ((idx <? 0) || (Z.of_nat (List.length (tasks st)) <=? idx)) with false.
  2:{ symmetry. apply orb_false_iff. split; [apply Z.ltb_ge | apply Z.leb_gt]; lia. }
  rewrite Hn. unfold start_timer_loop.
  erewrite tick_no_gap; [| reflexivity | reflexivity].
  cbn [fst active_timer is_timer_running].
  split; [reflexivity |]. split; [reflexivity |].
  intros t. unfold live_elapsed. rewrite Hs, He. simpl. lia.
Qed.

Lemma pause_resume_excludes_paused_time_witness :
  exists st1 tm1 tm2,
    pause_timer overnight_timer (timedelta_minutes 30) = Some st1
    /\ active_timer st1 = Some tm1
    /\ is_timer_running st1 = false
    /\ (forall t, live_elapsed tm1 t
                  = live_elapsed (mkTimer (Some 1) (Some (IsoOk 0)) (Some 0))
                                 (timedelta_minutes 30))
    /\ active_timer (start_timer st1 0 (timedelta_minutes 90)) = Some tm2
    /\ is_timer_running (start_timer st1 0 (timedelta_minutes 90)) = true
    /\ (forall t, live_elapsed tm2 t
                  = live_elapsed (mkTimer (Some 1) (Some (IsoOk 0)) (Some 0))
                                 (timedelta_minutes 30)
                    + (t - timedelta_minutes 90)).
Proof.
  apply (pause_resume_excludes_paused_time overnight_timer
           (mkTimer (Some 1) (Some (IsoOk 0)) (Some 0))
           (mkTask 1 "report" 1 0 (Some (IsoOk 0)) false true)
           0 0 (timedelta_minutes 30) (timedelta_minutes 90) 0).
  - reflexivity.
  - reflexivity.
  - reflexivity.
  - vm_compute. discriminate.
  - reflexivity.
Defined.

(** Between two ticks that are at most 3600 s apart the label advances by
    exactly the wall-clock time between them (3600 s itself included):
    the timer is left as it is and nothing is notified. *)
Theorem tick_without_gap_counts_wall_clock
    (st0 st1 : state) (tm1 : active_timer_t) (s last now e1 : Z) :
  tick st0 last = (st1, Some e1) ->
  active_timer st1 = Some tm1 ->
  at_start_time tm1 = Some (IsoOk s) ->
  now - last <= timedelta_seconds 3600 ->
  exists st2,
    tick st1 now = (st2, Some (e1 + (now - last)))
    /\ active_timer st2 = Some tm1
    /\ last_tick_time st2 = Some now
    /\ sent st2 = sent st1.
Proof.
  intros Htick Htm Hs Hgap.
  destruct (tick_shows_live_elapsed _ _ _ _ Htick) as (tm & Htm' & Hlast & He1).
  rewrite Htm in Htm'. inversion Htm'; subst tm; clear Htm'.
  unfold tick. rewrite Htm, Hlast.
  replace (idle_cap <? now - last) with false
    by (symmetry; apply Z.ltb_ge; exact Hgap).
  assert (He : live_elapsed tm1 now = e1 + (now - last)).
  { rewrite He1. unfold live_elapsed. rewrite Hs. simpl. lia. }
  rewrite He.
  eexists. split; [reflexivity |]. split; [reflexivity |]. split; [reflexivity |].
  simpl. apply app_nil_r.
Qed.

Lemma tick_without_gap_counts_wall_clock_witness :
  exists st2,
    tick after_first_tick (timedelta_seconds 4200)
    = (st2, Some (timedelta_seconds 600
                  + (timedelta_seconds 4200 - timedelta_seconds 600)))
    /\ active_timer st2 = Some (mkTimer (Some 1) (Some (IsoOk 0)) (Some 0))
    /\ last_tick_time st2 = Some (timedelta_seconds 4200)
    /\ sent st2 = sent after_first_tick.
Proof.
  apply (tick_without_gap_counts_wall_clock overnight_timer after_first_tick
           (mkTimer (Some 1) (Some (IsoOk 0)) (Some 0))
           0 (timedelta_seconds 600) (timedelta_seconds 4200) (timedelta_seconds 600)).
  - reflexivity.
  - reflexivity.
  - reflexivity.
  - vm_compute. discriminate.
Defined.

(** ** Restart with a running timer *)

Lemma combo_keeps_found_timer (st : state) (tm : active_timer_t) (tid : Z) :
  active_timer st = Some tm ->
  at_task_id tm = Some tid ->
  existsb (fun t => t_id t =? tid) (tasks st) = true ->
  update_timer_combo st = st.
Proof.
  intros Ha Hid He. unfold update_timer_combo. rewrite Ha, Hid, He. reflexivity.
Qed.

(** A restart on the dumped state takes up a running timer as it is,
    however long ago it was started: the timer is not moved, nothing is
    notified, the program is in the running state and the label shows the
    whole time since the stored start, the time the program was down
    included.  The idle-gap cap does not apply here because the tick that
    follows the restart measures its gap from the restart itself. *)
Theorem restart_resumes_timer_untrimmed
    (st : state) (tm : active_timer_t) (tid : Z) (s : iso) (now : Z) :
  active_timer st = Some tm ->
  at_task_id tm = Some tid ->
  existsb (fun t => t_id t =? tid) (tasks st) = true ->
  at_start_time tm = Some s ->
  let st' := __init__ (Some (save_state st)) now in
  active_timer st' = Some tm
  /\ is_timer_running st' = true
  /\ last_tick_time st' = Some now
  /\ sent st' = []
  /\ (forall later,
        later - now <= timedelta_seconds 3600 ->
        snd (tick st' later) = Some (live_elapsed tm later)
        /\ active_timer (fst (tick st' later)) = Some tm).
Proof.
  intros Ha Hid He Hs st'.
  assert (H : st' = mkState (tasks st) (time_logs st)
                      (map (fun rem => schedule_reminder rem now) (reminders st))
                      (Some tm) true
                      (next_task_id (_apply_loaded_state initial_state (save_state st)))
                      (selected_task_id st) (Some now) []).
  { unfold st', __init__.
    destruct (apply_loaded_saved initial_state st)
      as (Ht & Hl & Hr & Hat & Hsel).
    cbv zeta in *. unfold load_state.
    remember (_apply_loaded_state initial_state (save_state st)) as st1 eqn:E1.
    assert (He1 : _ensure_active_task_valid st1 = st1).
    { unfold _ensure_active_task_valid. rewrite Hat, Ha, Hid, Ht, He. reflexivity. }
    rewrite He1.
    rewrite (combo_keeps_found_timer st1 tm tid)
      by (rewrite ?Hat, ?Ht; assumption).
    replace (active_timer (schedule_all_reminders st1 now)) with (Some tm)
      by (simpl; rewrite Hat; symmetry; exact Ha).
    rewrite Hs. unfold start_timer_loop.
    erewrite tick_no_gap; [| reflexivity | reflexivity].
    simpl.
    replace (sent st1) with (@nil notification) by (rewrite E1; reflexivity).
    rewrite Ht, Hl, Hr, Hsel. reflexivity. }
  rewrite H. cbn [active_timer is_timer_running last_tick_time sent].
  repeat (split; [reflexivity |]).
  intros later Hgap. unfold tick. cbn [active_timer last_tick_time].
  replace (idle_cap <? later - now) with false
    by (symmetry; apply Z.ltb_ge; exact Hgap).
  split; reflexivity.
Qed.

Lemma restart_resumes_timer_untrimmed_witness :
  active_timer (__init__ (Some (save_state overnight_timer)) (100 * hour))
  = Some (mkTimer (Some 1) (Some (IsoOk 0)) (Some 0))
  /\ sent (__init__ (Some (save_state overnight_timer)) (100 * hour)) = []
  /\ snd (tick (__init__ (Some (save_state overnight_timer)) (100 * hour))
               (100 * hour + timedelta_seconds 1))
     = Some (100 * hour + timedelta_seconds 1).
Proof.
  destruct (restart_resumes_timer_untrimmed overnight_timer
              (mkTimer (Some 1) (Some (IsoOk 0)) (Some 0)) 1 (IsoOk 0) (100 * hour)
              eq_refl eq_refl eq_refl eq_refl)
    as (H1 & _ & _ & H4 & H5).
  split; [exact H1 |]. split; [exact H4 |].
  destruct (H5 (100 * hour + timedelta_seconds 1)) as [H _].
  - vm_compute. discriminate.
  - rewrite H. reflexivity.
Defined.

(** ** Whose time is logged *)

Lemma stop_timer_entries_task (st : state) (now : Z) (tm : active_timer_t) (tid : Z) :
  active_timer st = Some tm ->
  at_task_id tm = Some tid ->
  Forall (fun e => log_task_id e = tid) (appended_by_stop st now).
Proof.
  intros Ha Hid. unfold appended_by_stop, stop_timer. rewrite Ha, Hid.
  pose proof (session_elapsed_nonneg tm now) as Hel.
  destruct (session tm now) as [S el]. cbn [snd] in Hel.
  destruct (timedelta_seconds 1 <? Z.min el max_session_sec).
  2:{ simpl. rewrite skipn_all. constructor. }
  assert (HSE : S <= S + Z.max 0 el) by lia.
  destruct (split_days_spec tid (S + Z.max 0 el) S
              (Z.max 0 (Z.min el max_session_sec)) (time_logs st) HSE)
    as (new & c & Heq & _ & _ & _ & _ & _ & Hall).
  rewrite Heq.
  assert (Hnew : Forall (fun e => log_task_id e = tid) new).
  { eapply Forall_impl; [| exact Hall]. intros e [_ He]. exact He. }
  destruct (0 <? _); simpl.
  - rewrite <- app_assoc, skipn_length_app. apply Forall_app. split; [exact Hnew |].
    constructor; [reflexivity | constructor].
  - rewrite skipn_length_app. exact Hnew.
Qed.

Lemma tasks_del_task (st : state) (tid now : Z) :
  tasks (del_task st tid now) = filter (fun t => negb (t_id t =? tid)) (tasks st).
Proof.
  unfold del_task.
  match goal with
  | |- context [update_timer_combo ?s] =>
      destruct (frame_update_timer_combo s) as [-> _]
  end.
  cbn [tasks]. destruct (timer_on_task st tid); cbn [tasks]; [| reflexivity].
  destruct (frame_stop_timer st now) as [-> _]. reflexivity.
Qed.

(** [del_task] on the task being timed first stops the timer, so the
    session in flight is logged as [stop_timer] logs it, under the id of
    the task that goes; then every task with that id is removed, no timer
    is left, and the selection moves to the first remaining task (none if
    the list is empty).  On any other task the log and the timer are left
    as they are. *)
Theorem del_task_flushes_timer (st : state) (tid now : Z) :
  tasks (del_task st tid now) = filter (fun t => negb (t_id t =? tid)) (tasks st)
  /\ (timer_on_task st tid = true ->
      time_logs (del_task st tid now) = time_logs st ++ appended_by_stop st now
      /\ Forall (fun e => log_task_id e = tid) (appended_by_stop st now)
      /\ active_timer (del_task st tid now) = None
      /\ is_timer_running (del_task st tid now) = false
      /\ selected_task_id (del_task st tid now)
         = match filter (fun t => negb (t_id t =? tid)) (tasks st) with
           | t :: _ => Some (t_id t)
           | [] => None
           end)
  /\ (timer_on_task st tid = false ->
      time_logs (del_task st tid now) = time_logs st
      /\ active_timer (del_task st tid now) = active_timer st).
Proof.
  split; [| split].
  - apply tasks_del_task.
  - intros Hon. unfold del_task. rewrite Hon.
    unfold timer_on_task in Hon.
    destruct (active_timer st) as [tm |] eqn:Ha; [| discriminate].
    destruct (at_task_id tm) as [p |] eqn:Hp; [| discriminate].
    apply Z.eqb_eq in Hon. subst p.
    assert (Hnone : active_timer (stop_timer st now) = None).
    { unfold stop_timer. rewrite Ha, Hp.
      destruct (session tm now) as [S el].
      destruct (timedelta_seconds 1 <? Z.min el max_session_sec); [| reflexivity].
      destruct (split_days _ _ _ _ _) as [[logs c] r].
      destruct (0 <? r); reflexivity. }
    pose proof (stop_timer_entries_task st now tm tid Ha Hp) as Hall.
    match goal with
    | |- context [update_timer_combo ?s] => set (s1 := s)
    end.
    assert (H1 : active_timer s1 = None) by exact Hnone.
    assert (H2 : selected_task_id s1 = None) by reflexivity.
    assert (H3 : tasks s1 = filter (fun t => negb (t_id t =? tid)) (tasks st)).
    { unfold s1. cbn [tasks]. destruct (frame_stop_timer st now) as [-> _].
      reflexivity. }
    assert (H4 : time_logs s1 = time_logs st ++ appended_by_stop st now).
    { unfold s1. cbn [time_logs]. apply stop_timer_appends. }
    assert (H5 : is_timer_running s1 = false).
    { unfold s1. cbn [is_timer_running]. unfold stop_timer. rewrite Ha, Hp.
      destruct (session tm now) as [S el].
      destruct (timedelta_seconds 1 <? Z.min el max_session_sec); [| reflexivity].
      destruct (split_days _ _ _ _ _) as [[logs c] r].
      destruct (0 <? r); reflexivity. }
    clearbody s1.
    unfold update_timer_combo. rewrite H1, H2, H3. cbn iota.
    destruct (filter (fun t => negb (t_id t =? tid)) (tasks st)) as [| t rest];
      cbn [time_logs active_timer is_timer_running selected_task_id];
      rewrite ?H1, ?H4, ?H5; auto.
  - intros Hoff. unfold del_task. rewrite Hoff.
    match goal with
    | |- context [update_timer_combo ?s] =>
        destruct (logs_update_timer_combo s) as [-> ->]
    end.
    split; reflexivity.
Qed.

(** Resuming a timer while another task is selected hands the whole timer
    over to that task: the elapsed time kept from before is counted into
    the session, and everything the next stop logs is logged under the
    newly selected task. *)
Theorem resume_on_other_task_reattributes
    (st : state) (tm : active_timer_t) (b : task) (idx t1 t2 : Z) :
  active_timer st = Some tm ->
  0 <= idx ->
  nth_error (tasks st) (Z.to_nat idx) = Some b ->
  let st1 := start_timer st idx t1 in
  let tm1 := mkTimer (Some (t_id b)) (Some (isoformat t1)) (at_elapsed tm) in
  active_timer st1 = Some tm1
  /\ selected_task_id st1 = Some (t_id b)
  /\ session tm1 t2
     = (t1, Z.max 0 (match at_elapsed tm with Some e => e | None => 0 end)
            + Z.max 0 (t2 - t1))
  /\ Forall (fun e => log_task_id e = t_id b) (appended_by_stop st1 t2).
Proof.
  intros Ha Hidx Hn st1 tm1.
  assert (Hlen : (Z.to_nat idx < List.length (tasks st))%nat).
  { apply nth_error_Some. rewrite Hn. discriminate. }
  assert (H1 : active_timer st1 = Some tm1 /\ selected_task_id st1 = Some (t_id b)).
  { unfold st1, start_timer.
    replace ((idx <? 0) || (Z.of_nat (List.length (tasks st)) <=? idx)) with false.
    2:{ symmetry. apply orb_false_iff. split; [apply Z.ltb_ge | apply Z.leb_gt]; lia. }
    rewrite Hn, Ha. unfold start_timer_loop.
    erewrite tick_no_gap; [| reflexivity | reflexivity].
    split; reflexivity. }
  destruct H1 as [H1 H2].
  split; [exact H1 |]. split; [exact H2 |]. split; [reflexivity |].
  apply (stop_timer_entries_task st1 t2 tm1 (t_id b) H1 eq_refl).
Qed.

Lemma resume_on_other_task_reattributes_witness :
  active_timer
    (start_timer
       (mkState [mkTask 1 "report" 1 0 None false true;
                 mkTask 2 "review" 1 0 None false true]
                [] [] (Some (mkTimer (Some 1) None (Some hour))) false 3 (Some 1) None [])
       1 0)
  = Some (mkTimer (Some 2) (Some (IsoOk 0)) (Some hour))
  /\ appended_by_stop
       (start_timer
          (mkState [mkTask 1 "report" 1 0 None false true;
                    mkTask 2 "review" 1 0 None false true]
                   [] [] (Some (mkTimer (Some 1) None (Some hour))) false 3 (Some 1) None [])
          1 0)
       (timedelta_minutes 10)
     = [mkLog 2 (IsoOk 0) (Some (IsoOk (timedelta_minutes 70))) (timedelta_minutes 70)].
Proof.
  split.
  - apply (resume_on_other_task_reattributes
             (mkState [mkTask 1 "report" 1 0 None false true;
                       mkTask 2 "review" 1 0 None false true]
                      [] [] (Some (mkTimer (Some 1) None (Some hour))) false 3
                      (Some 1) None [])
             (mkTimer (Some 1) None (Some hour))
             (mkTask 2 "review" 1 0 None false true) 1 0 (timedelta_minutes 10)).
    + reflexivity.
    + vm_compute. discriminate.
    + reflexivity.
  - reflexivity.
Defined.

(** ** Reminder schedules *)

(** The countdown of a reminder row points at what [schedule_reminder]
    stores: for an enabled reminder [get_next_fire_datetime] at [now] is
    the [next_fire_at] that scheduling at [now] writes, and once written it
    is what the row shows at every later instant before it; a disabled
    reminder shows nothing and is not rescheduled. *)
Theorem countdown_shows_stored_target (rem : reminder) (now : Z) :
  (r_enabled rem = false ->
   get_next_fire_datetime rem now = None /\ schedule_reminder rem now = rem)
  /\ (r_enabled rem = true ->
      exists t,
        get_next_fire_datetime rem now = Some t
        /\ r_next_fire_at (schedule_reminder rem now) = Some (isoformat t)
        /\ forall now', now <= now' -> now' < t ->
             get_next_fire_datetime (schedule_reminder rem now) now' = Some t).
Proof.
  split.
  - intros He. unfold get_next_fire_datetime, schedule_reminder. rewrite He. auto.
  - intros He. destruct rem as [i n h c en sn so rel nfa]. simpl in He. subst en.
    unfold get_next_fire_datetime, schedule_reminder, base_target; simpl.
    destruct sn as [[s |] |]; destruct nfa as [[f |] |]; simpl;
      ltb_cases; destruct rel; simpl; ltb_cases;
      eexists; (split; [reflexivity |]); (split; [reflexivity |]);
      intros now' Hafter Hbefore; simpl; ltb_cases; try reflexivity; try lia.
Qed.

(** Once scheduled, a reminder is left exactly as it is by every further
    [schedule_reminder] that comes before its [next_fire_at], pending
    snooze or not: rescheduling (at a restart, a dismissal, a toggle)
    never moves a fire time that is still ahead. *)
Theorem schedule_reminder_is_stable (rem : reminder) (now now' t : Z) :
  r_next_fire_at (schedule_reminder rem now) = Some (IsoOk t) ->
  r_enabled rem = true ->
  now <= now' ->
  now' < t ->
  schedule_reminder (schedule_reminder rem now) now' = schedule_reminder rem now.
Proof.
  destruct rem as [i n h c en sn so rel nfa]. simpl. intros Ht He Hle Hlt. subst en.
  revert Ht. unfold schedule_reminder, base_target; simpl.
  destruct sn as [[s |] |]; destruct nfa as [[f |] |]; simpl;
    ltb_cases; destruct rel; simpl; ltb_cases;
    intros Ht; injection Ht as Ht; subst; simpl; ltb_cases;
    try reflexivity; try lia.
Qed.

Lemma schedule_reminder_is_stable_witness :
  schedule_reminder
    (schedule_reminder
       (mkReminder 1 "tea" (1 # 4) None true (Some (IsoOk (timedelta_minutes 10)))
                   false true (Some (IsoOk (timedelta_minutes 15))))
       0)
    (timedelta_minutes 5)
  = schedule_reminder
      (mkReminder 1 "tea" (1 # 4) None true (Some (IsoOk (timedelta_minutes 10)))
                  false true (Some (IsoOk (timedelta_minutes 15))))
      0.
Proof.
  apply (schedule_reminder_is_stable _ 0 (timedelta_minutes 5) (timedelta_minutes 10)).
  - reflexivity.
  - reflexivity.
  - vm_compute. discriminate.
  - reflexivity.
Defined.

Lemma base_target_daily (rem : reminder) (now : Z) :
  r_is_relative rem = false ->
  0 <= timedelta_hours (r_time_hours rem) < day ->
  now < base_target rem now <= now + day
  /\ time_of_day (base_target rem now) = timedelta_hours (r_time_hours rem).
Proof.
  intros Hrel Hh. unfold base_target, time_of_day. rewrite Hrel.
  set (h := timedelta_hours (r_time_hours rem)) in *.
  pose proof (date_bounds now) as Hb.
  assert (Hd : timedelta_days 1 = day) by (unfold timedelta_days; lia).
  rewrite Hd.
  assert (Hm1 : combine_midnight (date now + 1) = combine_midnight (date now) + day)
    by (unfold combine_midnight; lia).
  destruct (Z.leb_spec (combine_midnight (date now) + h) now) as [Hle | Hgt].
  - rewrite (date_unique (combine_midnight (date now) + h + day) (date now + 1)).
    + split; lia.
    + replace (combine_midnight (date now + 1 + 1))
        with (combine_midnight (date now) + day + day)
        by (unfold combine_midnight; lia).
      lia.
  - rewrite (date_unique (combine_midnight (date now) + h) (date now)) by lia.
    split; lia.
Qed.

(** A reminder added with a time of day (not a countdown) is first set to
    the next occurrence of that time of day: today if it is still ahead,
    tomorrow if it has passed or is now. *)
Theorem daily_reminder_first_occurrence
    (st : state) (name : string) (hours : Q) (now : Z) :
  name <> EmptyString ->
  0 <= timedelta_hours hours < day ->
  exists r t,
    reminders (add_reminder st name (Some hours) false now) = reminders st ++ [r]
    /\ r_next_fire_at r = Some (isoformat t)
    /\ now < t <= now + day
    /\ time_of_day t = timedelta_hours hours.
Proof.
  intros Hname Hh. unfold add_reminder.
  destruct (String.eqb_spec name EmptyString); [contradiction |].
  set (rem := mkReminder (max_reminder_id (reminders st) + 1) name hours
                (Some (isoformat now)) true None false false None).
  exists (schedule_reminder rem now), (base_target rem now).
  split; [reflexivity |]. split; [reflexivity |].
  apply (base_target_daily rem now eq_refl Hh).
Qed.

(** 09:30 asked for at 14:00 comes out as 09:30 of the next day. *)
Lemma daily_reminder_first_occurrence_witness :
  exists r,
    reminders (add_reminder initial_state "standup" (Some (19 # 2)) false (14 * hour))
    = reminders initial_state ++ [r]
    /\ r_next_fire_at r = Some (isoformat (day + 9 * hour + timedelta_minutes 30)).
Proof.
  assert (Hn : "standup"%string <> EmptyString) by discriminate.
  assert (Hh : 0 <= timedelta_hours (19 # 2) < day)
    by (split; [vm_compute; discriminate | reflexivity]).
  destruct (daily_reminder_first_occurrence initial_state "standup" (19 # 2)
              (14 * hour) Hn Hh) as (r & t & Hr & Ht & _ & _).
  exists r. split; [exact Hr |].
  unfold add_reminder in Hr. simpl in Hr.
  injection Hr as <-. reflexivity.
Defined.

(** When a reminder fires it forgets its snooze and its stored target and
    is scheduled afresh from the moment of firing: a countdown reminder
    starts its countdown again (it recurs), a daily one goes to the next
    occurrence of its time of day. *)
Theorem fire_reschedules_from_now (rem : reminder) (now : Z) :
  r_enabled rem = true ->
  snd (fire rem now) = ("Reminder"%string, r_name rem)
  /\ r_snoozed_until (fst (fire rem now)) = None
  /\ r_next_fire_at (fst (fire rem now)) = Some (isoformat (base_target rem now))
  /\ (r_is_relative rem = true ->
      base_target rem now = now + timedelta_hours (r_time_hours rem))
  /\ (r_is_relative rem = false ->
      0 <= timedelta_hours (r_time_hours rem) < day ->
      now < base_target rem now <= now + day
      /\ time_of_day (base_target rem now) = timedelta_hours (r_time_hours rem)).
Proof.
  intros He. destruct rem as [i n h c en sn so rel nfa]. simpl in He. subst en.
  split; [reflexivity |]. split; [reflexivity |]. split; [reflexivity |].
  split.
  - simpl. intros ->. reflexivity.
  - intros Hrel Hh. apply base_target_daily; assumption.
Qed.

Lemma fire_reschedules_from_now_witness :
  r_next_fire_at
    (fst (fire (mkReminder 1 "tea" (1 # 4) None true (Some (IsoOk (timedelta_minutes 10)))
                           false true (Some (IsoOk (timedelta_minutes 15))))
               (timedelta_minutes 15)))
  = Some (isoformat (timedelta_minutes 30)).
Proof.
  exact (proj1 (proj2 (proj2
           (fire_reschedules_from_now
              (mkReminder 1 "tea" (1 # 4) None true (Some (IsoOk (timedelta_minutes 10)))
                          false true (Some (IsoOk (timedelta_minutes 15))))
              (timedelta_minutes 15) eq_refl)))).
Defined.

(** ** Snooze, dismiss, toggle *)

Lemma schedule_reminder_fields (rem : reminder) (now : Z) :
  r_id (schedule_reminder rem now) = r_id rem
  /\ r_name (schedule_reminder rem now) = r_name rem
  /\ r_time_hours (schedule_reminder rem now) = r_time_hours rem
  /\ r_is_relative (schedule_reminder rem now) = r_is_relative rem
  /\ r_enabled (schedule_reminder rem now) = r_enabled rem.
Proof.
  unfold schedule_reminder. destruct (negb (r_enabled rem)); [auto |].
  match goal with
  | |- context [let '(_, _) := ?p in _] => destruct p
  end.
  simpl. auto.
Qed.

Lemma find_update_first (rid : Z) (f : reminder -> reminder) (rs : list reminder) :
  (forall r, r_id (f r) = r_id r) ->
  find (fun r => r_id r =? rid) (update_first rid f rs)
  = option_map f (find (fun r => r_id r =? rid) rs)
  /\ (forall p, p <> rid ->
        find (fun r => r_id r =? p) (update_first rid f rs)
        = find (fun r => r_id r =? p) rs)
  /\ List.length (update_first rid f rs) = List.length rs.
Proof.
  intros Hf. induction rs as [| a rs (IH1 & IH2 & IH3)];
    cbn [find update_first option_map List.length].
  - auto.
  - destruct (r_id a =? rid) eqn:E; cbn [find update_first option_map List.length].
    + rewrite Hf, E. split; [reflexivity |]. split; [| reflexivity].
      intros p Hp. apply Z.eqb_eq in E.
      replace (r_id a =? p) with false by (symmetry; apply Z.eqb_neq; lia).
      reflexivity.
    + rewrite E. split; [exact IH1 |]. split; [| rewrite IH3; reflexivity].
      intros p Hp. rewrite (IH2 p Hp). reflexivity.
Qed.

Lemma find_snoozed (st : state) (rid minutes now : Z) (r : reminder) :
  find_reminder st rid = Some r ->
  find_reminder (snooze_reminder st rid minutes now) rid
  = Some (schedule_reminder
            (set_schedule r (Some (isoformat (now + timedelta_minutes minutes)))
                          (r_next_fire_at r))
            now).
Proof.
  intros Hfind. unfold find_reminder, snooze_reminder in *.
  cbn [reminders with_reminders].
  match goal with
  | |- context [update_first rid ?f _] =>
      destruct (find_update_first rid f (reminders st)) as (H1 & _)
  end.
  { intros x. rewrite (proj1 (schedule_reminder_fields _ _)). reflexivity. }
  rewrite H1, Hfind. reflexivity.
Qed.

(** Snoozing an enabled reminder for a positive number of minutes sets
    both its snooze and its next fire time to [minutes] from now, whatever
    fire time was stored; a disabled one only records the snooze.  The
    first reminder with the id is the one changed; reminders with another
    id are untouched. *)
Theorem snooze_overrides_stored_target
    (st : state) (rid minutes now : Z) (r : reminder) :
  find_reminder st rid = Some r ->
  0 < minutes ->
  exists r',
    find_reminder (snooze_reminder st rid minutes now) rid = Some r'
    /\ r_snoozed_until r' = Some (isoformat (now + timedelta_minutes minutes))
    /\ r_next_fire_at r'
       = (if r_enabled r then Some (isoformat (now + timedelta_minutes minutes))
          else r_next_fire_at r)
    /\ r_name r' = r_name r
    /\ r_time_hours r' = r_time_hours r
    /\ r_enabled r' = r_enabled r
    /\ (forall p, p <> rid ->
          find_reminder (snooze_reminder st rid minutes now) p = find_reminder st p)
    /\ List.length (reminders (snooze_reminder st rid minutes now))
       = List.length (reminders st).
Proof.
  intros Hfind Hmin. unfold find_reminder, snooze_reminder in *. cbn [reminders with_reminders].
  match goal with
  | |- context [update_first rid ?f _] =>
      destruct (find_update_first rid f (reminders st)) as (H1 & H2 & H3)
  end.
  { intros x. rewrite (proj1 (schedule_reminder_fields _ _)). reflexivity. }
  rewrite H1, Hfind. cbn [option_map]. eexists. split; [reflexivity |].
  assert (Hpos : now < now + timedelta_minutes minutes)
    by (unfold timedelta_minutes, second; lia).
  assert (Hpos' : (now <? now + timedelta_minutes minutes) = true)
    by (apply Z.ltb_lt; exact Hpos).
  split; [| split; [| split; [| split; [| split; [| split; [exact H2 | exact H3]]]]]];
    destruct r as [i n h c en sn so rel nfa]; unfold schedule_reminder;
    cbn [r_enabled r_snoozed_until r_next_fire_at set_schedule negb fromisoformat
         isoformat];
    destruct en; cbn [negb]; rewrite ?Hpos'; reflexivity.
Qed.

Lemma snooze_overrides_stored_target_witness :
  exists r',
    find_reminder (snooze_reminder gap_reminders_state 5 10 (timedelta_minutes 2)) 5
    = Some r'
    /\ r_next_fire_at r' = Some (isoformat (timedelta_minutes 12)).
Proof.
  destruct (snooze_overrides_stored_target gap_reminders_state 5 10 (timedelta_minutes 2)
              (plain_reminder 5) eq_refl eq_refl) as (r' & H1 & _ & H3 & _).
  exists r'. split; [exact H1 | exact H3].
Defined.

(** [dismiss_reminder] clears the snooze, and then keeps a stored fire
    time that is still ahead: only when none is ahead does the reminder go
    back to its regular schedule.  In particular, dismissing a snoozed
    reminder before the snooze time leaves it set to the snooze time. *)
Theorem dismiss_keeps_stored_fire_time
    (st : state) (rid now : Z) (r : reminder) :
  find_reminder st rid = Some r ->
  r_enabled r = true ->
  (exists r',
      find_reminder (dismiss_reminder st rid now) rid = Some r'
      /\ r_snoozed_until r' = None
      /\ (forall t, r_next_fire_at r = Some (IsoOk t) -> now < t ->
            r_next_fire_at r' = Some (IsoOk t))
      /\ ((forall t, r_next_fire_at r = Some (IsoOk t) -> t <= now) ->
          r_next_fire_at r' = Some (isoformat (base_target r now))))
  /\ (forall minutes now0,
        0 < minutes -> now0 <= now -> now < now0 + timedelta_minutes minutes ->
        exists r'',
          find_reminder
            (dismiss_reminder (snooze_reminder st rid minutes now0) rid now) rid
          = Some r''
          /\ r_snoozed_until r'' = None
          /\ r_next_fire_at r'' = Some (isoformat (now0 + timedelta_minutes minutes))).
Proof.
  intros Hfind He.
  assert (Hd : forall st0 x, find_reminder st0 rid = Some x ->
                 find_reminder (dismiss_reminder st0 rid now) rid
                 = Some (schedule_reminder (set_schedule x None (r_next_fire_at x)) now)).
  { intros st0 x Hx. unfold find_reminder, dismiss_reminder in *.
    cbn [reminders with_reminders].
    match goal with
    | |- context [update_first rid ?f _] =>
        destruct (find_update_first rid f (reminders st0)) as (H1 & _)
    end.
    { intros y. rewrite (proj1 (schedule_reminder_fields _ _)). reflexivity. }
    rewrite H1, Hx. reflexivity. }
  split.
  - eexists. split; [apply (Hd st r Hfind) |].
    destruct r as [i n h c en sn so rel nfa]. simpl in He. subst en.
    unfold schedule_reminder, base_target. simpl.
    destruct nfa as [[f |] |]; simpl; ltb_cases; repeat split;
      try (intros t Ht; injection Ht as ->; intros; reflexivity || lia);
      try (intros t Ht; discriminate);
      try (intros Hall; reflexivity);
      try (intros Hall; specialize (Hall f eq_refl); lia).
  - intros minutes now0 Hmin Hle Hlt.
    assert (Hpos : (now0 <? now0 + timedelta_minutes minutes) = true)
      by (apply Z.ltb_lt; unfold timedelta_minutes, second; lia).
    eexists. split; [apply (Hd _ _ (find_snoozed st rid minutes now0 r Hfind)) |].
    destruct r as [i n h c en sn so rel nfa]. simpl in He. subst en.
    unfold schedule_reminder. simpl. rewrite Hpos. simpl.
    replace (now <? now0 + timedelta_minutes minutes) with true
      by (symmetry; apply Z.ltb_lt; exact Hlt).
    split; reflexivity.
Qed.

Lemma dismiss_keeps_stored_fire_time_witness :
  exists r'',
    find_reminder
      (dismiss_reminder (snooze_reminder gap_reminders_state 5 10 (timedelta_minutes 20))
                        5 (timedelta_minutes 21))
      5
    = Some r''
    /\ r_snoozed_until r'' = None
    /\ r_next_fire_at r'' = Some (isoformat (timedelta_minutes 30)).
Proof.
  apply (proj2 (dismiss_keeps_stored_fire_time gap_reminders_state 5
                  (timedelta_minutes 21) (plain_reminder 5) eq_refl eq_refl)
               10 (timedelta_minutes 20)).
  - reflexivity.
  - vm_compute. discriminate.
  - reflexivity.
Defined.

(** Switching a reminder off changes nothing but its [enabled] flag, and
    switching it on again before its stored fire time gives back the very
    reminder there was: the countdown goes on as if it had never been
    off. *)
Theorem toggle_off_and_on_restores
    (st : state) (rid now1 now2 t : Z) (r : reminder) :
  find_reminder st rid = Some r ->
  r_enabled r = true ->
  r_snoozed_until r = None ->
  r_next_fire_at r = Some (IsoOk t) ->
  now2 < t ->
  find_reminder (toggle_reminder st rid now1) rid = Some (set_enabled r false)
  /\ find_reminder (toggle_reminder (toggle_reminder st rid now1) rid now2) rid
     = Some r.
Proof.
  intros Hfind He Hs Hn Hlt.
  assert (Ht : forall st0 x now, find_reminder st0 rid = Some x ->
                 find_reminder (toggle_reminder st0 rid now) rid
                 = Some (let y := set_enabled x (negb (r_enabled x)) in
                         if r_enabled y then schedule_reminder y now else y)).
  { intros st0 x now Hx. unfold find_reminder, toggle_reminder in *.
    cbn [reminders with_reminders].
    match goal with
    | |- context [update_first rid ?f _] =>
        destruct (find_update_first rid f (reminders st0)) as (H1 & _)
    end.
    { intros y. cbv zeta.
      destruct (r_enabled (set_enabled y (negb (r_enabled y))));
        [rewrite (proj1 (schedule_reminder_fields _ _)) |]; reflexivity. }
    rewrite H1, Hx. reflexivity. }
  assert (H1 : find_reminder (toggle_reminder st rid now1) rid
               = Some (set_enabled r false)).
  { rewrite (Ht st r now1 Hfind). cbv zeta. rewrite He. reflexivity. }
  split; [exact H1 |].
  rewrite (Ht _ _ now2 H1). cbv zeta. f_equal.
  destruct r as [i n h c en sn so rel nfa]. simpl in *. subst.
  unfold schedule_reminder. simpl.
  replace (now2 <? t) with true by (symmetry; apply Z.ltb_lt; exact Hlt).
  reflexivity.
Qed.

Lemma toggle_off_and_on_restores_witness :
  find_reminder
    (toggle_reminder (toggle_reminder gap_reminders_state 5 (timedelta_minutes 1)) 5
                     (timedelta_minutes 14))
    5
  = Some (plain_reminder 5).
Proof.
  apply (toggle_off_and_on_restores gap_reminders_state 5 (timedelta_minutes 1)
           (timedelta_minutes 14) (timedelta_minutes 15) (plain_reminder 5)).
  - reflexivity.
  - reflexivity.
  - reflexivity.
  - reflexivity.
  - reflexivity.
Defined.

(** ** The countdown label *)

(** The countdown of a reminder row is the whole number of seconds left,
    rounded down, split into hours, minutes below 60 and seconds below 60;
    it is never negative: a target that has passed shows zero. *)
Theorem time_left_is_whole_seconds_rounded_down (target now : Z) :
  exists h m s,
    get_time_left_display (Some target) now = Some (h, m, s)
    /\ 0 <= h /\ 0 <= m < 60 /\ 0 <= s < 60
    /\ (target <= now -> h = 0 /\ m = 0 /\ s = 0)
    /\ (now <= target ->
        (h * 3600 + m * 60 + s) * second <= target - now
        /\ target - now < (h * 3600 + m * 60 + s + 1) * second).
Proof.
  unfold get_time_left_display.
  set (total := Z.max 0 (Z.quot (target - now) second)).
  assert (Hnn : 0 <= total) by (unfold total; lia).
  eexists _, _, _. split; [reflexivity |].
  split; [apply Z.div_pos; lia |].
  split; [| split; [apply Z.mod_pos_bound; lia |]].
  - split; [apply Z.div_pos; [apply Z.mod_pos_bound |]; lia |].
    apply Z.div_lt_upper_bound; [lia |].
    pose proof (Z.mod_pos_bound total 3600). lia.
  - split.
    + intros Hle.
      assert (Ht : total = 0).
      { unfold total. pose proof (Z.quot_opp_l (target - now) second).
        destruct (Z.eq_dec (target - now) 0) as [-> | Hne]; [reflexivity |].
        assert (Hq : Z.quot (target - now) second <= 0).
        { apply Z.quot_le_upper_bound; unfold second; lia. }
        lia. }
      rewrite Ht. repeat split; reflexivity.
    + intros Hle.
      assert (Ht : total = (target - now) / second).
      { unfold total. rewrite Z.quot_div_nonneg by (unfold second; lia).
        pose proof (Z.div_pos (target - now) second). unfold second in *. lia. }
      assert (Hsum : total / 3600 * 3600 + total mod 3600 / 60 * 60 + total mod 60
                     = total).
      { pose proof (Z.div_mod total 3600).
        pose proof (Z.div_mod (total mod 3600) 60).
        assert (Hmm : (total mod 3600) mod 60 = total mod 60).
        { rewrite <- (Z.mod_mod_divide total 3600 60); [reflexivity |].
          exists 60. reflexivity. }
        lia. }
      rewrite Hsum, Ht.
      pose proof (Z.mul_div_le (target - now) second).
      pose proof (Z.mul_succ_div_gt (target - now) second).
      unfold second in *. lia.
Qed.

(** ** The calendar grid *)

Lemma calendar_cells_spec (n : nat) (day col row d c r : Z) :
  0 <= col <= 6 ->
  In (d, c, r) (calendar_cells n day col row)
  <-> day <= d < day + Z.of_nat n
      /\ c = (col + (d - day)) mod 7
      /\ r = row + (col + (d - day)) / 7.
Proof.
  revert day col row. induction n as [| n IH]; intros day col row Hcol.
  - simpl. split; [intros [] | lia].
  - cbn [calendar_cells]. cbv zeta.
    assert (Hrest : In (d, c, r)
                      (if 6 <? col + 1 then calendar_cells n (day + 1) 0 (row + 1)
                       else calendar_cells n (day + 1) (col + 1) row)
                    <-> day + 1 <= d < day + 1 + Z.of_nat n
                        /\ c = (col + (d - day)) mod 7
                        /\ r = row + (col + (d - day)) / 7).
    { destruct (Z.ltb_spec 6 (col + 1)) as [H6 | H6].
      - rewrite (IH (day + 1) 0 (row + 1)) by lia.
        assert (col = 6) by lia. subst col.
        split; intros (H1 & H2 & H3); (split; [lia |]); subst c r;
          split; Z.div_mod_to_equations; lia.
      - rewrite (IH (day + 1) (col + 1) row) by lia.
        replace (col + 1 + (d - (day + 1))) with (col + (d - day)) by lia.
        tauto. }
    split.
    + intros [Heq | Hin].
      * injection Heq as <- <- <-.
        replace (col + (day - day)) with col by lia.
        rewrite Z.mod_small, Z.div_small by lia. lia.
      * apply Hrest in Hin. lia.
    + intros (H1 & H2 & H3).
      destruct (Z.eq_dec d day) as [-> | Hne].
      * left. subst c r. replace (col + (day - day)) with col by lia.
        rewrite Z.mod_small, Z.div_small by lia. f_equal. f_equal. lia.
      * right. apply Hrest. lia.
Qed.

Lemma calendar_cells_length (n : nat) (day col row : Z) :
  List.length (calendar_cells n day col row) = n.
Proof.
  revert day col row. induction n as [| n IH]; intros day col row; simpl;
    [reflexivity |].
  destruct (6 <? col + 1); rewrite IH; reflexivity.
Qed.

(** The month grid holds one cell per day of the month, and the cell of
    day [d] stands in the column of its weekday (the weekday of the first
    plus [d - 1], modulo 7; Monday is column 0) and in the row of its week,
    rows starting at 1 under the header. *)
Theorem calendar_puts_days_under_weekdays
    (first_day_weekday : Z) (days_in_month : nat) :
  0 <= first_day_weekday <= 6 ->
  List.length (refresh_calendar first_day_weekday days_in_month) = days_in_month
  /\ forall d c r,
       In (d, c, r) (refresh_calendar first_day_weekday days_in_month)
       <-> 1 <= d <= Z.of_nat days_in_month
           /\ c = (first_day_weekday + d - 1) mod 7
           /\ r = 1 + (first_day_weekday + d - 1) / 7.
Proof.
  intros Hf. unfold refresh_calendar. split; [apply calendar_cells_length |].
  intros d c r. rewrite (calendar_cells_spec _ _ _ _ d c r Hf).
  replace (first_day_weekday + (d - 1)) with (first_day_weekday + d - 1) by lia.
  split; intros (H1 & H2 & H3); (split; [lia | split; assumption]).
Qed.

(** A month of 31 days beginning on a Thursday: the 31st is a Saturday
    of the fifth week. *)
Lemma calendar_puts_days_under_weekdays_witness :
  In (31, 5, 5) (refresh_calendar 3 31).
Proof.
  apply (proj2 (calendar_puts_days_under_weekdays 3 31
                  (conj (Zle_bool_imp_le 0 3 eq_refl) (Zle_bool_imp_le 3 6 eq_refl)))
               31 5 5).
  split; [split; [vm_compute; discriminate | vm_compute; discriminate] |].
  split; reflexivity.
Defined.

(** ** CSV fields *)

Lemma contains_head (c : ascii) (s : string) : contains c (String c s) = true.
Proof. simpl. rewrite Ascii.eqb_refl. reflexivity. Qed.

Lemma double_quotes_closed_inj (s1 s2 : string) :
  (double_quotes s1 ++ String quote_char EmptyString
   = double_quotes s2 ++ String quote_char EmptyString)%string ->
  s1 = s2.
Proof.
  revert s2. induction s1 as [| a1 r1 IH]; intros [| a2 r2]; simpl.
  - reflexivity.
  - destruct (Ascii.eqb_spec a2 quote_char) as [-> | Hne]; simpl; intros H.
    + injection H as H. destruct (double_quotes r2); discriminate.
    + injection H as H _. congruence.
  - destruct (Ascii.eqb_spec a1 quote_char) as [-> | Hne]; simpl; intros H.
    + injection H as H. destruct (double_quotes r1); discriminate.
    + injection H as H _. congruence.
  - destruct (Ascii.eqb_spec a1 quote_char) as [-> | Hne1];
      destruct (Ascii.eqb_spec a2 quote_char) as [-> | Hne2]; simpl; intros H.
    + injection H as H. f_equal. apply IH. exact H.
    + injection H as H _. congruence.
    + injection H as H _. congruence.
    + injection H as Ha H. subst a2. f_equal. apply IH. exact H.
Qed.

(** A CSV field is written as it is when it holds neither a comma nor a
    quote (a line break alone does not get it quoted), and otherwise
    between quotes with every quote doubled; the written form determines
    the value: two different strings are never written alike. *)
Theorem esc_is_injective :
  (forall s, contains comma_char s = false -> contains quote_char s = false ->
             esc (Some s) = s)
  /\ (forall s, contains comma_char s || contains quote_char s = true ->
                esc (Some s)
                = String quote_char (double_quotes s ++ String quote_char EmptyString))
  /\ (forall s1 s2, esc (Some s1) = esc (Some s2) -> s1 = s2)
  /\ esc None = EmptyString.
Proof.
  split; [| split; [| split; [| reflexivity]]].
  - intros s Hc Hq. unfold esc. rewrite Hc, Hq. reflexivity.
  - intros s H. unfold esc. rewrite H. reflexivity.
  - intros s1 s2. unfold esc.
    destruct (contains comma_char s1 || contains quote_char s1) eqn:E1;
      destruct (contains comma_char s2 || contains quote_char s2) eqn:E2; intros H.
    + injection H as H. apply double_quotes_closed_inj. exact H.
    + apply orb_false_iff in E2. destruct E2 as [_ E2].
      rewrite <- H, contains_head in E2. discriminate.
    + apply orb_false_iff in E1. destruct E1 as [_ E1].
      rewrite H, contains_head in E1. discriminate.
    + exact H.
Qed.

(** ** Increment and decrement together *)

(** A decrement undoes an increment that was not clamped; after a clamped
    increment it leaves [done] at [units - 1], which is below where it
    started when [done] was within one unit of the target. *)
Theorem dec_after_inc (st : state) (tid : Z) (t : task) :
  find_task st tid = Some t ->
  (0 <= t_done t)%Q ->
  (t_done t <= t_units t)%Q ->
  exists t',
    find_task (dec_task (inc_task st tid) tid) tid = Some t'
    /\ t_units t' = t_units t
    /\ ((t_done t + 1 <= t_units t)%Q -> (t_done t' == t_done t)%Q)
    /\ ((t_units t < t_done t + 1)%Q -> (t_done t' == Qmax (t_units t - 1) 0)%Q).
Proof.
  intros Hf H0 H1. unfold find_task in *. cbn [dec_task tasks].
  rewrite dec_loop_find, tasks_inc_task, inc_loop_find, Hf. simpl.
  eexists. split; [reflexivity |]. split; [reflexivity |]. simpl.
  split; intros H.
  - rewrite py_max_clamps, py_min_clamps.
    rewrite (Q.min_l _ _ H). rewrite Q.max_l; [ring | lra].
  - rewrite py_max_clamps, py_min_clamps.
    rewrite (Q.min_r (t_done t + 1) (t_units t)) by lra. reflexivity.
Qed.

(** Target 2.5, done 2: an increment and a decrement leave 1.5. *)
Lemma dec_after_inc_witness :
  exists t',
    find_task
      (dec_task
         (inc_task
            (mkState [mkTask 1 "report" (5 # 2) 2 None false true] [] [] None false 2
                     None None [])
            1)
         1)
      1
    = Some t'
    /\ (t_done t' == 3 # 2)%Q.
Proof.
  destruct (dec_after_inc
              (mkState [mkTask 1 "report" (5 # 2) 2 None false true] [] [] None false 2
                       None None [])
              1 (mkTask 1 "report" (5 # 2) 2 None false true) eq_refl)
    as (t' & Hf & _ & _ & Hc).
  - unfold Qle. simpl. lia.
  - unfold Qle. simpl. lia.
  - exists t'. split; [exact Hf |]. rewrite Hc; [reflexivity |].
    unfold Qlt. simpl. lia.
Defined.

(** ** Exported names *)

Lemma task_lookup_none (ts : list task) (tid : Z) :
  task_lookup ts tid = None <-> existsb (fun t => t_id t =? tid) ts = false.
Proof.
  induction ts as [| a ts IH]; simpl; [tauto |].
  destruct (task_lookup ts tid) as [n |].
  - split; [discriminate |]. intros H. apply orb_false_iff in H.
    destruct H as [_ H]. apply IH in H. discriminate.
  - destruct (t_id a =? tid); simpl.
    + split; discriminate.
    + split; intros _; [apply IH |]; reflexivity.
Qed.

Lemma existsb_filter_self (ts : list task) (tid : Z) :
  existsb (fun t => t_id t =? tid) (filter (fun t => negb (t_id t =? tid)) ts) = false.
Proof.
  induction ts as [| a ts IH]; simpl; [reflexivity |].
  destruct (t_id a =? tid) eqn:E; simpl; [exact IH |]. rewrite E. exact IH.
Qed.

(** The export lists every entry of the time log, in order, each with a
    name: that of a task of the registry with the entry's id when there is
    one, and "Unknown" otherwise.  So after [del_task] the entries of the
    deleted task, the ones just flushed included, are still exported, under
    the name "Unknown". *)
Theorem export_names_deleted_tasks_unknown (st : state) :
  map fst (export_time_logs_json st) = time_logs st
  /\ (forall l, In l (time_logs st) ->
        In (l, exported_task_name st l) (export_time_logs_json st))
  /\ (forall l,
        existsb (fun t => t_id t =? log_task_id l) (tasks st) = true ->
        exists t, In t (tasks st) /\ t_id t = log_task_id l
                  /\ exported_task_name st l = t_name t)
  /\ (forall l,
        existsb (fun t => t_id t =? log_task_id l) (tasks st) = false ->
        exported_task_name st l = "Unknown"%string)
  /\ (forall tid now l,
        In l (time_logs (del_task st tid now)) ->
        log_task_id l = tid ->
        In (l, "Unknown"%string) (export_time_logs_json (del_task st tid now))).
Proof.
  assert (Hunknown : forall s l,
            existsb (fun t => t_id t =? log_task_id l) (tasks s) = false ->
            exported_task_name s l = "Unknown"%string).
  { intros s l H. unfold exported_task_name.
    apply task_lookup_none in H. rewrite H. reflexivity. }
  split; [| split; [| split; [| split]]].
  - unfold export_time_logs_json. rewrite map_map. simpl. apply map_id.
  - intros l Hl. unfold export_time_logs_json.
    apply in_map_iff. exists l. auto.
  - intros l. unfold exported_task_name.
    induction (tasks st) as [| a ts IH]; simpl; [discriminate |].
    intros H. destruct (task_lookup ts (log_task_id l)) as [n |] eqn:E.
    + assert (He : existsb (fun t => t_id t =? log_task_id l) ts = true).
      { destruct (existsb (fun t => t_id t =? log_task_id l) ts) eqn:E'; [reflexivity |].
        apply task_lookup_none in E'. congruence. }
      destruct (IH He) as (t & Hin & Hid & Hn). exists t. auto.
    + apply task_lookup_none in E. rewrite E, orb_false_r in H. rewrite H.
      exists a. split; [left; reflexivity |]. split; [apply Z.eqb_eq; exact H |].
      reflexivity.
  - intros l. apply Hunknown.
  - intros tid now l Hl Hid. unfold export_time_logs_json.
    apply in_map_iff. exists l. split; [| exact Hl]. f_equal.
    apply Hunknown. rewrite Hid.
    rewrite tasks_del_task. apply existsb_filter_self.
Qed.

(** ** The cap on a session within one day *)

(** A timer started at 00:00:00 and stopped at 20:00:00 the same day is
    logged with 16 hours. *)
Lemma stop_timer_total_within_cap_same_day_witness :
  total_duration (appended_by_stop overnight_timer (20 * hour)) = 16 * hour.
Proof.
  apply (stop_timer_total_within_cap_same_day overnight_timer (20 * hour)
           (mkTimer (Some 1) (Some (IsoOk 0)) (Some 0)) 1).
  - reflexivity.
  - reflexivity.
  - reflexivity.
  - reflexivity.
Defined.

(** ** A saved timer without its task *)






